(** * ICDA prototype: a shallow embedding of the query agents, the data
    source and the router, with the properties of the specification.

    Text is modelled as [string] over ASCII; Python [float] is IEEE 754
    binary64 and is modelled by the kernel's primitive [float], so every
    confidence below is computed bit for bit as CPython computes it. *)

From Stdlib Require Import ZArith Lia Bool List Ascii String Permutation Sorted.
From Stdlib Require Import Floats DecimalString.
From stdpp Require Import base option list gmap strings.

#[local] Set Warnings "-inexact-float".

Local Open Scope string_scope.
Local Open Scope Z_scope.

(* ===================================================================== *)
(** ** Python floats *)
(* ===================================================================== *)

Module PyFloat.

(** [int] to [float], exact for the small magnitudes used here
    (|z| < 2^53). *)
Definition of_Z (z : Z) : float :=
  match z with
  | Z0 => 0%float
  | Zpos _ => PrimFloat.of_uint63 (Uint63.of_Z z)
  | Zneg p => (- PrimFloat.of_uint63 (Uint63.of_Z (Zpos p)))%float
  end.

(** Nearest integer to [n / d], ties to even ([d > 0]). *)
Definition div_half_even (n d : Z) : Z :=
  let q := n / d in
  let r := n mod d in
  match 2 * r ?= d with
  | Lt => q
  | Gt => q + 1
  | Eq => if Z.even q then q else q + 1
  end.

(** [round(x, 3)]: CPython prints the exact binary value of [x] with three
    digits after the point, correctly rounded (ties to even), and reads the
    decimal back to the nearest double.  A double with a non-negative
    exponent is an integer and is returned as it is. *)
Definition round3 (x : float) : float :=
  match Prim2SF x with
  | S754_finite s m e =>
      if 0 <=? e then x
      else
        let q := div_half_even (Zpos m * 1000) (2 ^ (- e)) in
        let r := (of_Z q / 1000)%float in
        if s then (- r)%float else r
  | _ => x
  end.

(** Python's builtin [min(a, b)] and [max(a, b)] on two floats: the first
    argument is kept unless the second is strictly smaller (larger). *)
Definition py_min (a b : float) : float := if (b <? a)%float then b else a.
Definition py_max (a b : float) : float := if (a <? b)%float then b else a.

End PyFloat.

(* ===================================================================== *)
(** ** Python [str] methods, on ASCII text *)
(* ===================================================================== *)

Module PyStr.

Definition code (c : ascii) : nat := nat_of_ascii c.

Definition between (lo hi : nat) (c : ascii) : bool :=
  (lo <=? code c)%nat && (code c <=? hi)%nat.

(** [str.isspace] on ASCII: tab, LF, VT, FF, CR, the four separators
    0x1c-0x1f, and the space.  [\s] of [re] is the same set. *)
Definition is_space (c : ascii) : bool :=
  between 9 13 c || between 28 32 c.

Definition is_upper (c : ascii) : bool := between 65 90 c.
Definition is_lower (c : ascii) : bool := between 97 122 c.
Definition is_digit (c : ascii) : bool := between 48 57 c.

(** [\w] of [re]: letters, digits and the underscore. *)
Definition is_word (c : ascii) : bool :=
  is_upper c || is_lower c || is_digit c || Ascii.eqb c "_".

Definition lower_char (c : ascii) : ascii :=
  if is_upper c then ascii_of_nat (code c + 32) else c.

Definition upper_char (c : ascii) : ascii :=
  if is_lower c then ascii_of_nat (code c - 32) else c.

Fixpoint map_chars (f : ascii -> ascii) (s : string) : string :=
  match s with
  | EmptyString => EmptyString
  | String c s' => String (f c) (map_chars f s')
  end.

(** [s.lower()], [s.upper()]; [s.casefold()] agrees with [lower] on ASCII. *)
Definition lower : string -> string := map_chars lower_char.
Definition upper : string -> string := map_chars upper_char.
Definition casefold : string -> string := lower.

(** Truth value of a [str]: non-empty. *)
Definition truthy (s : string) : bool :=
  match s with EmptyString => false | _ => true end.

(** [s.startswith(p)]. *)
Fixpoint startswith (p s : string) : bool :=
  match p, s with
  | EmptyString, _ => true
  | String a p', String b s' => Ascii.eqb a b && startswith p' s'
  | String _ _, EmptyString => false
  end.

(** The rest of [s] after the prefix [p], when [s] starts with [p]. *)
Fixpoint strip_prefix (p s : string) : option string :=
  match p, s with
  | EmptyString, _ => Some s
  | String a p', String b s' =>
      if Ascii.eqb a b then strip_prefix p' s' else None
  | String _ _, EmptyString => None
  end.

(** [s.removeprefix(p)]. *)
Definition removeprefix (p s : string) : string :=
  match strip_prefix p s with Some r => r | None => s end.

(** [needle in hay]. *)
Fixpoint contains (needle hay : string) : bool :=
  startswith needle hay ||
  match hay with
  | EmptyString => false
  | String _ hay' => contains needle hay'
  end.

Fixpoint lstrip (s : string) : string :=
  match s with
  | String c s' => if is_space c then lstrip s' else s
  | EmptyString => EmptyString
  end.

Fixpoint rstrip (s : string) : string :=
  match s with
  | EmptyString => EmptyString
  | String c s' =>
      match rstrip s' with
      | EmptyString => if is_space c then EmptyString else String c EmptyString
      | r => String c r
      end
  end.

(** [s.strip()]. *)
Definition strip (s : string) : string := rstrip (lstrip s).

(** [s.split()]: the maximal runs of non-space characters, in order.
    [cur] is the word being read. *)
Fixpoint split_go (cur s : string) : list string :=
  match s with
  | EmptyString => if truthy cur then [cur] else []
  | String c s' =>
      if is_space c
      then (if truthy cur then cur :: split_go EmptyString s'
            else split_go EmptyString s')
      else split_go (cur ++ String c EmptyString) s'
  end.

Definition split (s : string) : list string := split_go EmptyString s.

(** [len(s.split())]. *)
Definition word_count (s : string) : Z := Z.of_nat (List.length (split s)).

Fixpoint repeat_char (c : ascii) (n : nat) : string :=
  match n with
  | O => EmptyString
  | S n' => String c (repeat_char c n')
  end.

(** [s.zfill(width)]: zeros on the left up to [width]; a leading sign
    stays in front of the zeros. *)
Definition zfill (width : nat) (s : string) : string :=
  let fill := repeat_char "0" (width - String.length s) in
  match s with
  | String c rest =>
      if Ascii.eqb c "+" || Ascii.eqb c "-"
      then String c (fill ++ rest)
      else fill ++ s
  | EmptyString => fill
  end.

(** [str(n)] for an [int]. *)
Definition str_of_Z (z : Z) : string :=
  NilZero.string_of_int (Z.to_int z).

(** [sep.join(parts)]. *)
Fixpoint join (sep : string) (parts : list string) : string :=
  match parts with
  | [] => EmptyString
  | [p] => p
  | p :: rest => p ++ sep ++ join sep rest
  end.

End PyStr.

(* ===================================================================== *)
(** ** The fragment of Python's [re] the program uses *)
(* ===================================================================== *)

Module Regex.

(** Items of a character set. *)
Inductive item : Type :=
| IChar (a : ascii)          (* a literal character *)
| IRange (lo hi : ascii)     (* [lo-hi] *)
| ISpace                     (* \s *)
| IDigit                     (* \d *)
| IAny.                      (* . : anything but a newline *)

Definition item_mem (i : item) (c : ascii) : bool :=
  match i with
  | IChar a => Ascii.eqb a c
  | IRange lo hi => PyStr.between (PyStr.code lo) (PyStr.code hi) c
  | ISpace => PyStr.is_space c
  | IDigit => PyStr.is_digit c
  | IAny => negb (Ascii.eqb c "010")
  end.

Definition cset := list item.

Definition cset_mem (cs : cset) (c : ascii) : bool :=
  existsb (fun i => item_mem i c) cs.

(** Patterns.  Repetition is only ever applied to a single character set
    in the program's patterns; [Maybe] is the greedy [?]; [Group] is the
    capturing group number 1. *)
Inductive re : Type :=
| Eps
| Fail
| One (cs : cset)
| Many0 (cs : cset)
| Maybe (r : re)
| WordB
| Cat (r1 r2 : re)
| Or (r1 r2 : re)
| Group (r : re).

(** *** Parsing the pattern syntax *)

Fixpoint repeat_re (r : re) (n : nat) : re :=
  match n with
  | O => Eps
  | S n' => Cat r (repeat_re r n')
  end.

Fixpoint read_nat (acc : nat) (s : string) : nat * string :=
  match s with
  | String c s' =>
      if PyStr.is_digit c
      then read_nat (10 * acc + (PyStr.code c - 48)) s'
      else (acc, s)
  | EmptyString => (acc, s)
  end.

(** The quantifier that follows an atom, if any. *)
Definition quantify (a : re) (s : string) : option (re * string) :=
  match s with
  | String "?" rest => Some (Maybe a, rest)
  | String "+" rest =>
      match a with
      | One cs => Some (Cat (One cs) (Many0 cs), rest)
      | _ => None
      end
  | String "*" rest =>
      match a with
      | One cs => Some (Many0 cs, rest)
      | _ => None
      end
  | String "{" rest =>
      match read_nat 0 rest with
      | (n, String "}" rest') => Some (repeat_re a n, rest')
      | _ => None
      end
  | _ => Some (a, s)
  end.

(** An escape [\c]. *)
Definition escape_item (c : ascii) : item :=
  if Ascii.eqb c "s" then ISpace
  else if Ascii.eqb c "d" then IDigit
  else IChar c.

(** The inside of [[...]], up to the closing bracket. *)
Fixpoint parse_set (acc : cset) (s : string) : option (cset * string) :=
  match s with
  | String "]" rest => Some (acc, rest)
  | String "\" (String c rest) => parse_set (acc ++ [escape_item c])%list rest
  | String lo (String "-" (String hi rest)) =>
      if Ascii.eqb hi "]"
      then Some ((acc ++ [IChar lo; IChar "-"])%list, rest)
      else parse_set (acc ++ [IRange lo hi])%list rest
  | String c rest => parse_set (acc ++ [IChar c])%list rest
  | EmptyString => None
  end.

Fixpoint parse_alt (fuel : nat) (s : string) : option (re * string) :=
  match fuel with
  | O => None
  | S fuel' =>
      match parse_seq fuel' s with
      | Some (r, String "|" rest) =>
          match parse_alt fuel' rest with
          | Some (r2, rest') => Some (Or r r2, rest')
          | None => None
          end
      | other => other
      end
  end
with parse_seq (fuel : nat) (s : string) : option (re * string) :=
  match fuel with
  | O => None
  | S fuel' =>
      match s with
      | EmptyString | String ")" _ | String "|" _ => Some (Eps, s)
      | _ =>
          match parse_atom fuel' s with
          | Some (a, rest) =>
              match quantify a rest with
              | Some (a', rest') =>
                  match parse_seq fuel' rest' with
                  | Some (Eps, rest'') => Some (a', rest'')
                  | Some (r, rest'') => Some (Cat a' r, rest'')
                  | None => None
                  end
              | None => None
              end
          | None => None
          end
      end
  end
with parse_atom (fuel : nat) (s : string) : option (re * string) :=
  match fuel with
  | O => None
  | S fuel' =>
      match s with
      | String "(" (String "?" (String ":" rest)) =>
          match parse_alt fuel' rest with
          | Some (r, String ")" rest') => Some (r, rest')
          | _ => None
          end
      | String "(" rest =>
          match parse_alt fuel' rest with
          | Some (r, String ")" rest') => Some (Group r, rest')
          | _ => None
          end
      | String "[" rest =>
          match parse_set [] rest with
          | Some (cs, rest') => Some (One cs, rest')
          | None => None
          end
      | String "\" (String c rest) =>
          if Ascii.eqb c "b" then Some (WordB, rest)
          else Some (One [escape_item c], rest)
      | String "." rest => Some (One [IAny], rest)
      | String c rest =>
          if existsb (Ascii.eqb c) ["?"; "+"; "*"; "{"; "}"; "]"; "\"]%char
          then None
          else Some (One [IChar c], rest)
      | EmptyString => None
      end
  end.

(** [re.compile(pattern)]; a pattern outside the fragment matches nothing. *)
Definition compile (pattern : string) : re :=
  match parse_alt (3 * String.length pattern + 3) pattern with
  | Some (r, EmptyString) => r
  | _ => Fail
  end.

(** *** Matching, with Python's backtracking order *)

(** [\b]: exactly one of the characters around the position is a word
    character. *)
Definition is_word_opt (c : option ascii) : bool :=
  match c with Some a => PyStr.is_word a | None => false end.

Definition head_char (s : string) : option ascii :=
  match s with String c _ => Some c | EmptyString => None end.

Definition boundary (prev : option ascii) (s : string) : bool :=
  xorb (is_word_opt prev) (is_word_opt (head_char s)).

(** The text consumed between [s] and its suffix [s']. *)
Definition consumed (s s' : string) : string :=
  String.substring 0 (String.length s - String.length s') s.

Section Matcher.
Context {R : Type}.

(** A continuation receives the character just before the position, the
    rest of the text and the text of group 1 so far. *)
Definition cont := option ascii -> string -> option string -> option R.

(** Greedy [cs*]: the longest run first, then shorter ones. *)
Fixpoint many0 (cs : cset) (prev : option ascii) (s : string)
    (k : option ascii -> string -> option R) : option R :=
  match s with
  | String a s' =>
      if cset_mem cs a
      then match many0 cs (Some a) s' k with
           | Some x => Some x
           | None => k prev s
           end
      else k prev s
  | EmptyString => k prev s
  end.

Fixpoint run (r : re) (prev : option ascii) (s : string)
    (g : option string) (k : cont) : option R :=
  match r with
  | Eps => k prev s g
  | Fail => None
  | One cs =>
      match s with
      | String a s' => if cset_mem cs a then k (Some a) s' g else None
      | EmptyString => None
      end
  | Many0 cs => many0 cs prev s (fun p s' => k p s' g)
  | Maybe r1 =>
      match run r1 prev s g k with
      | Some x => Some x
      | None => k prev s g
      end
  | WordB => if boundary prev s then k prev s g else None
  | Cat r1 r2 => run r1 prev s g (fun p s' g' => run r2 p s' g' k)
  | Or r1 r2 =>
      match run r1 prev s g k with
      | Some x => Some x
      | None => run r2 prev s g k
      end
  | Group r1 => run r1 prev s g (fun p s' _ => k p s' (Some (consumed s s')))
  end.
End Matcher.

(** A match at the current position: the text of group 1, if it took part. *)
Definition match_here (r : re) (prev : option ascii) (s : string)
    : option (option string) :=
  run r prev s None (fun _ _ g => Some g).

(** The leftmost match, scanning start positions from left to right. *)
Fixpoint search_from (r : re) (prev : option ascii) (s : string)
    : option (option string) :=
  match match_here r prev s with
  | Some g => Some g
  | None =>
      match s with
      | String c s' => search_from r (Some c) s'
      | EmptyString => None
      end
  end.

(** [re.search(pattern, text)] as a truth value. *)
Definition search (pattern text : string) : bool :=
  match search_from (compile pattern) None text with
  | Some _ => true
  | None => false
  end.

(** [re.search(pattern, text).group(1)] when there is a match. *)
Definition search_group1 (pattern text : string) : option string :=
  match search_from (compile pattern) None text with
  | Some (Some g) => Some g
  | _ => None
  end.

End Regex.

(* ===================================================================== *)
(** ** agents/models.py: enumerations and result records *)
(* ===================================================================== *)

(** Modelled from the spec: [icda.classifier] (the declaration of the
    [QueryIntent] and [QueryComplexity] enumerations) is not among the
    sources; the members are the fixed sets of the data model. *)
Module QueryIntent.
Inductive t : Set :=
| LOOKUP | SEARCH | STATS | ANALYSIS | COMPARISON | RECOMMENDATION.

Definition eqb (a b : t) : bool :=
  match a, b with
  | LOOKUP, LOOKUP | SEARCH, SEARCH | STATS, STATS
  | ANALYSIS, ANALYSIS | COMPARISON, COMPARISON
  | RECOMMENDATION, RECOMMENDATION => true
  | _, _ => false
  end.
End QueryIntent.

Module QueryComplexity.
Inductive t : Set := SIMPLE | MEDIUM | COMPLEX.

Definition eqb (a b : t) : bool :=
  match a, b with
  | SIMPLE, SIMPLE | MEDIUM, MEDIUM | COMPLEX, COMPLEX => true
  | _, _ => false
  end.
End QueryComplexity.

Module QueryDomain.
Inductive t : Set := CUSTOMER | ADDRESS | KNOWLEDGE | STATS | GENERAL.

Definition eqb (a b : t) : bool :=
  match a, b with
  | CUSTOMER, CUSTOMER | ADDRESS, ADDRESS | KNOWLEDGE, KNOWLEDGE
  | STATS, STATS | GENERAL, GENERAL => true
  | _, _ => false
  end.
End QueryDomain.

(** [list(dict.fromkeys(xs))]: duplicates removed, first occurrences kept
    in order. *)
Fixpoint dedup_keep_first (seen xs : list string) : list string :=
  match xs with
  | [] => []
  | x :: xs' =>
      if existsb (String.eqb x) seen then dedup_keep_first seen xs'
      else x :: dedup_keep_first (x :: seen) xs'
  end.

Record IntentResult : Type := mkIntentResult {
  primary_intent : QueryIntent.t;
  secondary_intents : list QueryIntent.t;
  confidence : float;
  domains : list QueryDomain.t;
  complexity : QueryComplexity.t;
  suggested_tools : list string;
  raw_signals : list string          (* signals["patterns_matched"] *)
}.

(* ===================================================================== *)
(** ** agents/intent_agent.py *)
(* ===================================================================== *)

Module IntentAgent.

Definition LOOKUP_PATTERNS : list string :=
  [ "\bcrid[-\s]?\d+";
    "\bcustomer\s+id";
    "\blook\s*up\b";
    "\bfind\s+customer\b";
    "\bget\s+customer\b";
    "\bshow\s+me\s+customer\b";
    "\bpull\s+up\b";
    "\bcustomer\s+record\b";
    "\bcustomer\s+details\b" ].

Definition STATS_PATTERNS : list string :=
  [ "\bhow\s+many\b";
    "\bcount\b";
    "\bstatistics?\b";
    "\btotals?\b";
    "\bper\s+state\b";
    "\bby\s+state\b";
    "\bbreakdown\b";
    "\bnumbers?\b";
    "\bsummary\b";
    "\baggregate\b" ].

Definition SEARCH_PATTERNS : list string :=
  [ "\bsearch\b";
    "\bfind\b";
    "\bshow\b";
    "\blist\b";
    "\bgive\s+me\b";
    "\bcustomers?\s+in\b";
    "\bpeople\s+in\b";
    "\bwho\s+lives?\b";
    "\bresidents?\b";
    "\bliving\s+in\b";
    "\bfrom\b";
    "\bmoved\b";
    "\bmovers?\b";
    "\brelocated\b";
    "\bhigh\s+movers?\b";
    "\bfrequent\b" ].

Definition ANALYSIS_PATTERNS : list string :=
  [ "\btrend\b";
    "\bpattern\b";
    "\banalyze\b";
    "\banalysis\b";
    "\binsight\b";
    "\bwhy\b";
    "\bmigration\b";
    "\bmovement\b";
    "\bbehavior\b" ].

Definition COMPARISON_PATTERNS : list string :=
  [ "\bcompare\b";
    "\bvs\.?\b";
    "\bversus\b";
    "\bdifference\b";
    "\bbetween\b";
    "\bcomparison\b" ].

Definition RECOMMENDATION_PATTERNS : list string :=
  [ "\brecommend\b";
    "\bsuggest\b";
    "\bshould\b";
    "\bpredict\b";
    "\bforecast\b";
    "\bwhich\s+customers?\b" ].

Definition ADDRESS_PATTERNS : list string :=
  [ "\baddress\b";
    "\bverify\b";
    "\bvalidate\b";
    "\bnormalize\b";
    "\bstreet\b";
    "\bzip\s*code\b";
    "\bpostal\b" ].

Definition KNOWLEDGE_PATTERNS : list string :=
  [ "\bpolicy\b";
    "\bprocedure\b";
    "\bdocumentation\b";
    "\bhow\s+do\s+i\b";
    "\bwhat\s+is\s+the\s+process\b";
    "\brules?\b";
    "\bguidelines?\b" ].

Definition COMPLEX_INDICATORS : list string :=
  [ "\btrend\b";
    "\bpattern\b";
    "\banalyze\b";
    "\banalysis\b";
    "\brecommend\b";
    "\bpredict\b";
    "\binsight\b";
    "\bwhy\b";
    "\bforecast\b";
    "\bmigration\b";
    "\bbehavior\b" ].

Definition MEDIUM_INDICATORS : list string :=
  [ "\bcompare\b";
    "\bfilter\b";
    "\bbetween\b";
    "\bsummary\b";
    "\bper\s+state\b";
    "\bwho\s+moved\b";
    "\bwhich\b";
    "\bmultiple\b";
    "\bseveral\b";
    "\ball\b";
    "\bmost\b";
    "\bleast\b";
    "\btop\b";
    "\bbottom\b" ].

(** The pattern of the extra check in [_detect_intent]. *)
Definition CRID_PATTERN : string := "crid[-\s]?\d+".

Definition _match_patterns (text : string) (patterns : list string) : bool :=
  existsb (fun p => Regex.search p text) patterns.

(** [_detect_intent(query, signals)]: the intent, its confidence, and
    [signals["patterns_matched"]] after the call. *)
Definition _detect_intent (query : string) (signals : list string)
    : QueryIntent.t * float * list string :=
  if _match_patterns query LOOKUP_PATTERNS then
    let signals := (signals ++ ["lookup"])%list in
    if Regex.search CRID_PATTERN query
    then (QueryIntent.LOOKUP, 0.95%float, signals)
    else (QueryIntent.LOOKUP, 0.8%float, signals)
  else if _match_patterns query STATS_PATTERNS then
    (QueryIntent.STATS, 0.85%float, (signals ++ ["stats"])%list)
  else if _match_patterns query COMPARISON_PATTERNS then
    (QueryIntent.COMPARISON, 0.8%float, (signals ++ ["comparison"])%list)
  else if _match_patterns query ANALYSIS_PATTERNS then
    (QueryIntent.ANALYSIS, 0.8%float, (signals ++ ["analysis"])%list)
  else if _match_patterns query RECOMMENDATION_PATTERNS then
    (QueryIntent.RECOMMENDATION, 0.75%float,
     (signals ++ ["recommendation"])%list)
  else if _match_patterns query SEARCH_PATTERNS then
    (QueryIntent.SEARCH, 0.85%float, (signals ++ ["search"])%list)
  else
    (QueryIntent.SEARCH, 0.6%float, (signals ++ ["default_search"])%list).

Definition intent_patterns : list (QueryIntent.t * list string) :=
  [ (QueryIntent.LOOKUP, LOOKUP_PATTERNS);
    (QueryIntent.STATS, STATS_PATTERNS);
    (QueryIntent.SEARCH, SEARCH_PATTERNS);
    (QueryIntent.ANALYSIS, ANALYSIS_PATTERNS);
    (QueryIntent.COMPARISON, COMPARISON_PATTERNS);
    (QueryIntent.RECOMMENDATION, RECOMMENDATION_PATTERNS) ].

Definition _detect_secondary_intents (query : string)
    (primary : QueryIntent.t) : list QueryIntent.t :=
  let secondary :=
    List.map fst
      (List.filter
         (fun ip => negb (QueryIntent.eqb (fst ip) primary)
                    && _match_patterns query (snd ip))
         intent_patterns) in
  firstn 2 secondary.

Definition has_domain (d : QueryDomain.t) (ds : list QueryDomain.t) : bool :=
  existsb (QueryDomain.eqb d) ds.

Definition _detect_domains (query : string) (primary_intent : QueryIntent.t)
    : list QueryDomain.t :=
  let domains := [] in
  let domains :=
    match primary_intent with
    | QueryIntent.LOOKUP | QueryIntent.SEARCH | QueryIntent.STATS =>
        (domains ++ [QueryDomain.CUSTOMER])%list
    | _ => domains
    end in
  let domains :=
    if _match_patterns query ADDRESS_PATTERNS
    then (domains ++ [QueryDomain.ADDRESS])%list else domains in
  let domains :=
    if _match_patterns query KNOWLEDGE_PATTERNS
    then (domains ++ [QueryDomain.KNOWLEDGE])%list else domains in
  let domains :=
    if QueryIntent.eqb primary_intent QueryIntent.STATS
       || _match_patterns query STATS_PATTERNS
    then (if has_domain QueryDomain.STATS domains then domains
          else (domains ++ [QueryDomain.STATS])%list)
    else domains in
  match domains with
  | [] => [QueryDomain.CUSTOMER]
  | _ => domains
  end.

Definition _assess_complexity (query : string) : QueryComplexity.t :=
  if _match_patterns query COMPLEX_INDICATORS then QueryComplexity.COMPLEX
  else if _match_patterns query MEDIUM_INDICATORS then QueryComplexity.MEDIUM
  else
    let word_count := PyStr.word_count query in
    if 15 <? word_count then QueryComplexity.COMPLEX
    else if 8 <? word_count then QueryComplexity.MEDIUM
    else QueryComplexity.SIMPLE.

Definition _suggest_tools (primary_intent : QueryIntent.t)
    (domains : list QueryDomain.t) (complexity : QueryComplexity.t)
    : list string :=
  let tools :=
    match primary_intent with
    | QueryIntent.LOOKUP => ["lookup_crid"]
    | QueryIntent.SEARCH =>
        if negb (QueryComplexity.eqb complexity QueryComplexity.SIMPLE)
        then ["search_customers"; "fuzzy_search"; "semantic_search"]
        else ["search_customers"]
    | QueryIntent.STATS => ["get_stats"]
    | QueryIntent.ANALYSIS | QueryIntent.COMPARISON =>
        ["get_stats"; "search_customers"; "semantic_search"]
    | QueryIntent.RECOMMENDATION =>
        ["search_customers"; "semantic_search"; "get_stats"]
    end in
  let tools :=
    if has_domain QueryDomain.ADDRESS domains
    then (tools ++ ["verify_address"])%list else tools in
  let tools :=
    if has_domain QueryDomain.KNOWLEDGE domains
    then (tools ++ ["search_knowledge"])%list else tools in
  let tools :=
    if QueryComplexity.eqb complexity QueryComplexity.COMPLEX
    then (if existsb (String.eqb "hybrid_search") tools then tools
          else (tools ++ ["hybrid_search"])%list)
    else tools in
  dedup_keep_first [] tools.

Definition _calculate_confidence (query : string)
    (primary_intent : QueryIntent.t) (intent_confidence : float)
    (signals : list string) : float :=
  let confidence := intent_confidence in
  let confidence :=
    if 1 <? Z.of_nat (List.length signals)
    then PyFloat.py_min (confidence + 0.1)%float 1.0%float
    else confidence in
  let confidence :=
    if PyStr.word_count query <? 3
    then (confidence * 0.9)%float else confidence in
  let confidence :=
    if 20 <? PyStr.word_count query
    then (confidence * 0.85)%float else confidence in
  PyFloat.round3 confidence.

(** [classify(query, session_id)]; the session identifier is not read. *)
Definition classify (query : string) : IntentResult :=
  let q := PyStr.strip (PyStr.lower query) in
  let '(primary_intent, intent_confidence, signals) := _detect_intent q [] in
  let secondary_intents := _detect_secondary_intents q primary_intent in
  let domains := _detect_domains q primary_intent in
  let complexity := _assess_complexity q in
  let suggested_tools := _suggest_tools primary_intent domains complexity in
  let confidence :=
    _calculate_confidence q primary_intent intent_confidence signals in
  {| primary_intent := primary_intent;
     secondary_intents := secondary_intents;
     confidence := confidence;
     domains := domains;
     complexity := complexity;
     suggested_tools := suggested_tools;
     raw_signals := signals |}.

End IntentAgent.

(* ===================================================================== *)
(** ** Conversation messages and sessions *)
(* ===================================================================== *)

(** A content block of a message in the converse format; only the text
    blocks are read by the code below. *)
Inductive Block : Type :=
| BText (text : string)        (* {"text": ...} *)
| BOther.                      (* toolUse, toolResult, ... *)

(** The value under ["content"]: a string, a list of blocks (the default
    when the key is missing is the empty list), or anything else. *)
Inductive Content : Type :=
| CStr (s : string)
| CBlocks (blocks : list Block)
| COther.

Record Message : Type := mkMessage {
  role : string;
  content : Content
}.

(** Modelled from the spec: [icda/session.py] is not among the sources.
    A session is the record of a conversation's prior turns, keyed by an
    opaque identifier; [add_message(role, text)] appends one turn and
    [get_history(max_messages)] returns the last [max_messages] turns in
    order. *)
Module Session.
Record t : Type := mk {
  session_id : string;
  messages : list Message
}.

Definition add_message (r text : string) (s : t) : t :=
  {| session_id := session_id s;
     messages := (messages s ++ [mkMessage r (CBlocks [BText text])])%list |}.

Definition get_history (max_messages : nat) (s : t) : list Message :=
  skipn (List.length (messages s) - max_messages) (messages s).
End Session.

(* ===================================================================== *)
(** ** agents/context_agent.py *)
(* ===================================================================== *)

(** The [geographic_context] dictionary: its three keys. *)
Module Geo.
Record t : Type := mk {
  state : option string;
  city : option string;
  zip_code : option string
}.

(** Truth value of an entry: [None] and the empty string are false. *)
Definition truthy (v : option string) : bool :=
  match v with Some s => PyStr.truthy s | None => false end.

(** [geographic.values()]. *)
Definition values (g : t) : list (option string) :=
  [state g; city g; zip_code g].
End Geo.

(** The fields of [QueryContext] that the properties below are about;
    [referenced_entities], [user_preferences] and [prior_results] are
    computed from the history alone and feed none of these. *)
Record QueryContext : Type := mkQueryContext {
  session_history : list Message;
  geographic_context : Geo.t;
  is_follow_up : bool;
  context_confidence : float
}.

Module ContextAgent.

Definition VALID_STATES : list string :=
  [ "AL"; "AK"; "AZ"; "AR"; "CA"; "CO"; "CT"; "DE"; "FL"; "GA";
    "HI"; "ID"; "IL"; "IN"; "IA"; "KS"; "KY"; "LA"; "ME"; "MD";
    "MA"; "MI"; "MN"; "MS"; "MO"; "MT"; "NE"; "NV"; "NH"; "NJ";
    "NM"; "NY"; "NC"; "ND"; "OH"; "OK"; "OR"; "PA"; "PR"; "RI"; "SC";
    "SD"; "TN"; "TX"; "UT"; "VT"; "VA"; "WA"; "WV"; "WI"; "WY"; "DC" ].

(** The dictionary in its insertion order, which is the order the loop of
    [_extract_geographic] visits it in. *)
Definition STATE_NAMES : list (string * string) :=
  [ ("alabama", "AL"); ("alaska", "AK"); ("arizona", "AZ"); ("arkansas", "AR");
    ("california", "CA"); ("colorado", "CO"); ("connecticut", "CT"); ("delaware", "DE");
    ("florida", "FL"); ("georgia", "GA"); ("hawaii", "HI"); ("idaho", "ID");
    ("illinois", "IL"); ("indiana", "IN"); ("iowa", "IA"); ("kansas", "KS");
    ("kentucky", "KY"); ("louisiana", "LA"); ("maine", "ME"); ("maryland", "MD");
    ("massachusetts", "MA"); ("michigan", "MI"); ("minnesota", "MN"); ("mississippi", "MS");
    ("missouri", "MO"); ("montana", "MT"); ("nebraska", "NE"); ("nevada", "NV");
    ("new hampshire", "NH"); ("new jersey", "NJ"); ("new mexico", "NM"); ("new york", "NY");
    ("north carolina", "NC"); ("north dakota", "ND"); ("ohio", "OH"); ("oklahoma", "OK");
    ("oregon", "OR"); ("pennsylvania", "PA"); ("puerto rico", "PR"); ("rhode island", "RI");
    ("south carolina", "SC"); ("south dakota", "SD"); ("tennessee", "TN"); ("texas", "TX");
    ("utah", "UT"); ("vermont", "VT"); ("virginia", "VA"); ("washington", "WA");
    ("west virginia", "WV"); ("wisconsin", "WI"); ("wyoming", "WY");
    ("district of columbia", "DC"); ("d.c.", "DC"); ("dc", "DC") ].

Definition FOLLOW_UP_PATTERNS : list string :=
  [ "\bthose\b";
    "\bthem\b";
    "\bthey\b";
    "\bit\b";
    "\bthe same\b";
    "\bsame\s+customers?\b";
    "\bmore\s+about\b";
    "\bmore\s+details?\b";
    "\bwhat\s+about\b";
    "\bhow\s+about\b";
    "\band\s+also\b";
    "\bcan\s+you\s+also\b";
    "\btell\s+me\s+more\b";
    "\bshow\s+me\s+more\b" ].

Definition block_texts (blocks : list Block) : list string :=
  flat_map (fun b => match b with BText t => [t] | BOther => [] end) blocks.

Definition _get_message_text (msg : Message) : string :=
  match content msg with
  | CStr s => s
  | CBlocks blocks => PyStr.join " " (block_texts blocks)
  | COther => EmptyString
  end.

(** [_get_session_history(session_id)].  The session manager is optional;
    its store is a map from identifiers to sessions, and a failing or
    empty lookup gives the empty history. *)
Definition _get_session_history (session_manager : option (gmap string Session.t))
    (session_id : option string) : list Message :=
  match session_id, session_manager with
  | Some sid, Some store =>
      if PyStr.truthy sid then
        match store !! sid with
        | Some session =>
            match Session.messages session with
            | [] => []
            | _ => Session.get_history 10 session
            end
        | None => []
        end
      else []
  | _, _ => []
  end.

(** The first name of [STATE_NAMES] that occurs in the lowercased text. *)
Fixpoint first_state_name (names : list (string * string))
    (text_lower : string) : option string :=
  match names with
  | [] => None
  | (name, code) :: rest =>
      if PyStr.contains name text_lower then Some code
      else first_state_name rest text_lower
  end.

(** One turn of the loop of [_extract_geographic] over [all_text]. *)
Definition geo_step (context : Geo.t) (text : string) : Geo.t :=
  let text_lower := PyStr.lower text in
  let st :=
    if negb (Geo.truthy (Geo.state context)) then
      match Regex.search_group1 "\b([A-Z]{2})\b" text with
      | Some g =>
          if existsb (String.eqb g) VALID_STATES then Some g
          else match first_state_name STATE_NAMES text_lower with
               | Some code => Some code
               | None => Geo.state context
               end
      | None =>
          match first_state_name STATE_NAMES text_lower with
          | Some code => Some code
          | None => Geo.state context
          end
      end
    else Geo.state context in
  let zp :=
    if negb (Geo.truthy (Geo.zip_code context)) then
      match Regex.search_group1 "\b(\d{5})(?:-\d{4})?\b" text with
      | Some g => Some g
      | None => Geo.zip_code context
      end
    else Geo.zip_code context in
  let ct :=
    if negb (Geo.truthy (Geo.city context)) && Geo.truthy st then
      let city_pattern :=
        "([A-Z][a-z]+(?:\s+[A-Z][a-z]+)?)\s*,?\s*" ++ default EmptyString st in
      match Regex.search_group1 city_pattern text with
      | Some g => Some g
      | None => Geo.city context
      end
    else Geo.city context in
  Geo.mk st ct zp.

Definition _extract_geographic (history : list Message)
    (current_query : string) : Geo.t :=
  let context := Geo.mk None None None in
  let all_text :=
    current_query :: List.map _get_message_text (List.rev history) in
  fold_left geo_step all_text context.

Definition nonempty {A} (l : list A) : bool :=
  match l with [] => false | _ => true end.

Definition _detect_follow_up (query : string) (history : list Message) : bool :=
  if negb (nonempty history) then false
  else
    let query_lower := PyStr.lower query in
    if existsb (fun pattern => Regex.search pattern query_lower)
         FOLLOW_UP_PATTERNS
    then true
    else if (PyStr.word_count query <=? 3) && nonempty history then true
    else false.

Definition _calculate_confidence (history : list Message)
    (geographic : Geo.t) (is_follow_up : bool) : float :=
  let confidence := 0.5%float in
  let confidence :=
    if nonempty history
    then (confidence
          + 0.1 * PyFloat.of_Z (Z.min (Z.of_nat (List.length history)) 5) / 5)%float
    else confidence in
  let geo_count :=
    Z.of_nat (List.length (List.filter Geo.truthy (Geo.values geographic))) in
  let confidence := (confidence + 0.1 * PyFloat.of_Z geo_count / 3)%float in
  let confidence :=
    if is_follow_up && nonempty history
    then (confidence + 0.2)%float else confidence in
  let confidence :=
    if is_follow_up && negb (nonempty history)
    then (confidence - 0.3)%float else confidence in
  PyFloat.py_max 0.0%float
    (PyFloat.py_min 1.0%float (PyFloat.round3 confidence)).

(** [extract(session_id, query, intent)]. *)
Definition extract (session_manager : option (gmap string Session.t))
    (session_id : option string) (query : string) (intent : IntentResult)
    : QueryContext :=
  let history := _get_session_history session_manager session_id in
  let geographic_context := _extract_geographic history query in
  let is_follow_up := _detect_follow_up query history in
  let context_confidence :=
    _calculate_confidence history geographic_context is_follow_up in
  {| session_history := history;
     geographic_context := geographic_context;
     is_follow_up := is_follow_up;
     context_confidence := context_confidence |}.

(** *** Inferred preferences *)

(** [sys.get_int_max_str_digits()] as CPython sets it: [int] refuses a
    text of more digits. *)
Definition INT_MAX_STR_DIGITS : Z := 4300.

(** [int(s)] for the text the limit pattern captures, a run of decimal
    digits; [None] is the ValueError of any other text, and of a run of
    more than [INT_MAX_STR_DIGITS] digits, leading zeros included. *)
Fixpoint digits_value (acc : Z) (s : string) : option Z :=
  match s with
  | EmptyString => Some acc
  | String c s' =>
      if PyStr.is_digit c
      then digits_value (10 * acc + (Z.of_nat (PyStr.code c) - 48)) s'
      else None
  end.

Definition int_of_digits (s : string) : option Z :=
  match s with
  | EmptyString => None
  | _ =>
      if INT_MAX_STR_DIGITS <? Z.of_nat (String.length s) then None
      else digits_value 0 s
  end.

Record Preferences : Type := mkPreferences {
  preferred_limit : Z;
  prefers_details : bool;
  prefers_summary : bool
}.

Definition LIMIT_PATTERN : string :=
  "\b(\d+)\s+(?:results?|customers?|records?)\b".

Definition DETAIL_WORDS : list string :=
  [ "detail"; "full"; "complete"; "all info" ].

Definition SUMMARY_WORDS : list string :=
  [ "summary"; "brief"; "quick"; "overview" ].

(** [any(word in text for word in words)]. *)
Definition any_word (words : list string) (text : string) : bool :=
  existsb (fun word => PyStr.contains word text) words.

(** One turn of the loop of [_infer_preferences]; [None] when [int]
    raises. *)
Definition preferences_step (preferences : Preferences) (msg : Message)
    : option Preferences :=
  if negb (String.eqb (role msg) "user") then Some preferences
  else
    let text := PyStr.lower (_get_message_text msg) in
    let limit :=
      match Regex.search_group1 LIMIT_PATTERN text with
      | Some digits =>
          match int_of_digits digits with
          | Some n => Some (Z.min n 100)
          | None => None
          end
      | None => Some (preferred_limit preferences)
      end in
    match limit with
    | Some limit =>
        Some {| preferred_limit := limit;
                prefers_details :=
                  if any_word DETAIL_WORDS text then true
                  else prefers_details preferences;
                prefers_summary :=
                  if any_word SUMMARY_WORDS text then true
                  else prefers_summary preferences |}
    | None => None
    end.

Fixpoint preferences_loop (preferences : Preferences) (history : list Message)
    : option Preferences :=
  match history with
  | [] => Some preferences
  | msg :: rest =>
      match preferences_step preferences msg with
      | Some preferences' => preferences_loop preferences' rest
      | None => None
      end
  end.

(** [_infer_preferences(history)]. *)
Definition _infer_preferences (history : list Message) : option Preferences :=
  preferences_loop (mkPreferences 10 false false) history.

End ContextAgent.

(* ===================================================================== *)
(** ** datasource.py *)
(* ===================================================================== *)

(** A customer record: a dictionary read through these keys; [None] is a
    missing key. *)
Module Customer.
Record t : Type := mk {
  crid : option string;
  name : option string;
  state : option string;
  city : option string;
  move_count : option Z;
  customer_type : option string;
  address : option string
}.

(** ["key" in c]. *)
Definition has {A} (field : option A) : bool :=
  match field with Some _ => true | None => false end.

(** Truth value of the dictionary: it has at least one key. *)
Definition truthy (c : t) : bool :=
  has (crid c) || has (name c) || has (state c)
  || has (city c) || has (move_count c)
  || has (customer_type c) || has (address c).
End Customer.

Definition STATE_CODE_TO_NAME : list (string * string) :=
  [ ("AL", "Alabama"); ("AK", "Alaska"); ("AZ", "Arizona"); ("AR", "Arkansas");
    ("CA", "California"); ("CO", "Colorado"); ("CT", "Connecticut"); ("DE", "Delaware");
    ("FL", "Florida"); ("GA", "Georgia"); ("HI", "Hawaii"); ("ID", "Idaho");
    ("IL", "Illinois"); ("IN", "Indiana"); ("IA", "Iowa"); ("KS", "Kansas");
    ("KY", "Kentucky"); ("LA", "Louisiana"); ("ME", "Maine"); ("MD", "Maryland");
    ("MA", "Massachusetts"); ("MI", "Michigan"); ("MN", "Minnesota"); ("MS", "Mississippi");
    ("MO", "Missouri"); ("MT", "Montana"); ("NE", "Nebraska"); ("NV", "Nevada");
    ("NH", "New Hampshire"); ("NJ", "New Jersey"); ("NM", "New Mexico"); ("NY", "New York");
    ("NC", "North Carolina"); ("ND", "North Dakota"); ("OH", "Ohio"); ("OK", "Oklahoma");
    ("OR", "Oregon"); ("PA", "Pennsylvania"); ("PR", "Puerto Rico"); ("RI", "Rhode Island");
    ("SC", "South Carolina"); ("SD", "South Dakota"); ("TN", "Tennessee"); ("TX", "Texas");
    ("UT", "Utah"); ("VT", "Vermont"); ("VA", "Virginia"); ("WA", "Washington");
    ("WV", "West Virginia"); ("WI", "Wisconsin"); ("WY", "Wyoming"); ("DC", "Washington DC") ].

(** [d.get(key)] on a dictionary kept in insertion order. *)
Fixpoint assoc_get {V} (key : string) (d : list (string * V)) : option V :=
  match d with
  | [] => None
  | (k, v) :: rest => if String.eqb k key then Some v else assoc_get key rest
  end.

(** [d[key] = f(d.get(key))]: an existing key keeps its place, a new one
    goes last. *)
Fixpoint assoc_update {V} (key : string) (f : option V -> V)
    (d : list (string * V)) : list (string * V) :=
  match d with
  | [] => [(key, f None)]
  | (k, v) :: rest =>
      if String.eqb k key then (k, f (Some v)) :: rest
      else (k, v) :: assoc_update key f rest
  end.

(** [sorted(items, key=lambda x: x[1], reverse=True)]: descending by
    count, and stable: equal counts keep their original order. *)
Fixpoint insert_desc (x : string * Z) (l : list (string * Z))
    : list (string * Z) :=
  match l with
  | [] => [x]
  | y :: l' =>
      if snd y <=? snd x then x :: y :: l' else y :: insert_desc x l'
  end.

Definition sorted_desc (items : list (string * Z)) : list (string * Z) :=
  fold_right insert_desc [] items.

(** [seq[:n]] for an [int] bound; a negative bound counts from the end. *)
Definition slice_to {A} (n : Z) (l : list A) : list A :=
  if n <? 0 then firstn (List.length l - Z.to_nat (- n)) l
  else firstn (Z.to_nat n) l.

(** The fields of the metadata that [lookup], [search] and [stats] read. *)
Module DataSourceMetadata.
Record t : Type := mk {
  total_records : Z;
  available_states : list string;
  state_counts : list (string * Z);
  source_type : string
}.

(** [DataSourceMetadata()]. *)
Definition empty : t := mk 0 [] [] "unknown".

(** [has_state(state)]: the uppercased value is one of the available
    states. *)
Definition has_state (self : t) (state : string) : bool :=
  existsb (String.eqb (PyStr.upper state)) (available_states self).
End DataSourceMetadata.

(** Result dictionaries of [lookup] and [search]. *)
Inductive LookupResult : Type :=
| LookupFound (data : Customer.t)          (* success: True *)
| LookupNotFound (error : string).         (* success: False *)

Inductive SearchResponse : Type :=
| SearchOk (total : Z) (data : list Customer.t)
| SearchStateNotAvailable
    (requested_state requested_state_name : string)
    (available_states : list string)
    (available_states_with_counts : list (string * Z))
    (suggestion : string).

Definition search_success (r : SearchResponse) : bool :=
  match r with SearchOk _ _ => true | SearchStateNotAvailable _ _ _ _ _ => false end.

Definition search_error (r : SearchResponse) : option string :=
  match r with
  | SearchOk _ _ => None
  | SearchStateNotAvailable _ _ _ _ _ => Some "state_not_available"
  end.

Definition search_data (r : SearchResponse) : list Customer.t :=
  match r with SearchOk _ d => d | SearchStateNotAvailable _ _ _ _ _ => [] end.

Module DataSource.

Record t : Type := mk {
  _metadata : option DataSourceMetadata.t;
  _customers : list Customer.t;
  _by_crid : gmap string Customer.t;
  _by_state : gmap string (list Customer.t)
}.

(** [DataSource.__init__]. *)
Definition init : t := mk None [] ∅ ∅.

(** The [metadata] property: an unset metadata reads as the empty one. *)
Definition metadata (self : t) : DataSourceMetadata.t :=
  default DataSourceMetadata.empty (_metadata self).

(** [customer.get("state", "").upper()]. *)
Definition state_key (c : Customer.t) : string :=
  PyStr.upper (default EmptyString (Customer.state c)).

Definition count_state (state_counts : list (string * Z)) (customer : Customer.t)
    : list (string * Z) :=
  let state := state_key customer in
  if PyStr.truthy state
  then assoc_update state (fun v => default 0 v + 1) state_counts
  else state_counts.

Definition _build_metadata (self : t) : DataSourceMetadata.t :=
  let state_counts := fold_left count_state (_customers self) [] in
  let sorted_states := sorted_desc state_counts in
  {| DataSourceMetadata.total_records := Z.of_nat (List.length (_customers self));
     DataSourceMetadata.available_states := List.map fst sorted_states;
     DataSourceMetadata.state_counts := state_counts;
     DataSourceMetadata.source_type := "unknown" |}.

Definition index_crid (m : gmap string Customer.t) (c : Customer.t)
    : gmap string Customer.t :=
  match Customer.crid c with
  | Some k => <[k := c]> m
  | None => m
  end.

Definition index_state (m : gmap string (list Customer.t)) (c : Customer.t)
    : gmap string (list Customer.t) :=
  let state := state_key c in
  if PyStr.truthy state
  then <[state := (default [] (m !! state) ++ [c])%list]> m
  else m.

(** [_build_indexes]: the record-ID index and the state index. *)
Definition _build_indexes (self : t) : t :=
  {| _metadata := _metadata self;
     _customers := _customers self;
     _by_crid := fold_left index_crid (_customers self) ∅;
     _by_state := fold_left index_state (_customers self) ∅ |}.

(** [load()] of a source that read [data]: the customers are stored, the
    indexes built, then the metadata. *)
Definition load (data : list Customer.t) : t :=
  let self := mk None data ∅ ∅ in
  let self := _build_indexes self in
  {| _metadata := Some (_build_metadata self);
     _customers := _customers self;
     _by_crid := _by_crid self;
     _by_state := _by_state self |}.

(** The candidate keys [lookup] tries, in order, for the uppercased
    identifier [crid]. *)
Definition crid_formats (crid : string) : list string :=
  let num := PyStr.removeprefix "CRID-" crid in
  [ "CRID-" ++ PyStr.zfill 6 num;
    "CRID-" ++ PyStr.zfill 5 num;
    "CRID-" ++ PyStr.zfill 3 num;
    crid ].

(** The first candidate whose entry is present and true. *)
Fixpoint first_hit (by_crid : gmap string Customer.t) (fmts : list string)
    : option Customer.t :=
  match fmts with
  | [] => None
  | fmt :: rest =>
      match by_crid !! fmt with
      | Some data => if Customer.truthy data then Some data
                     else first_hit by_crid rest
      | None => first_hit by_crid rest
      end
  end.

Definition lookup (self : t) (crid : string) : LookupResult :=
  let crid := PyStr.upper crid in
  let not_found := LookupNotFound ("CRID " ++ crid ++ " not found") in
  if PyStr.startswith "CRID-" crid then
    match first_hit (_by_crid self) (crid_formats crid) with
    | Some data => LookupFound data
    | None => not_found
    end
  else not_found.

Definition lookup_success (r : LookupResult) : bool :=
  match r with LookupFound _ => true | LookupNotFound _ => false end.

(** Truth values of the optional arguments of [search]. *)
Definition truthy_str (o : option string) : bool :=
  match o with Some s => PyStr.truthy s | None => false end.

Definition truthy_int (o : option Z) : bool :=
  match o with Some n => negb (n =? 0) | None => false end.

Definition truthy_bool (o : option bool) : bool :=
  match o with Some b => b | None => false end.

Definition moves_filter (min_moves : option Z) (c : Customer.t) : bool :=
  default 0 min_moves <=? default 0 (Customer.move_count c).

Definition city_filter (city : option string) (c : Customer.t) : bool :=
  PyStr.contains (PyStr.casefold (default EmptyString city))
    (PyStr.casefold (default EmptyString (Customer.city c))).

Definition type_filter (customer_type : option string) (c : Customer.t) : bool :=
  String.eqb (PyStr.upper (default EmptyString (Customer.customer_type c)))
    (PyStr.upper (default EmptyString customer_type)).

Definition apartment_filter (c : Customer.t) : bool :=
  let a := PyStr.lower (default EmptyString (Customer.address c)) in
  PyStr.contains "apt" a || PyStr.contains "unit" a.

(** The four filters of [search], applied in the order of the code. *)
Definition apply_filters (min_moves : option Z) (city customer_type : option string)
    (has_apartment : option bool) (results : list Customer.t)
    : list Customer.t :=
  let results :=
    if truthy_int min_moves
    then List.filter (moves_filter min_moves) results else results in
  let results :=
    if truthy_str city
    then List.filter (city_filter city) results else results in
  let results :=
    if truthy_str customer_type
    then List.filter (type_filter customer_type) results else results in
  let results :=
    if truthy_bool has_apartment
    then List.filter apartment_filter results else results in
  results.

Definition state_name (state_upper state : string) : string :=
  default state (assoc_get state_upper STATE_CODE_TO_NAME).

Definition search (self : t) (state city : option string)
    (min_moves : option Z) (customer_type : option string)
    (has_apartment : option bool) (limit : option Z) : SearchResponse :=
  let finish (results : list Customer.t) :=
    let results :=
      apply_filters min_moves city customer_type has_apartment results in
    let data :=
      if truthy_int limit then slice_to (default 0 limit) results
      else results in
    SearchOk (Z.of_nat (List.length results)) data in
  if truthy_str state then
    let state := default EmptyString state in
    let state_upper := PyStr.upper state in
    match _by_state self !! state_upper with
    | None =>
        SearchStateNotAvailable
          state_upper
          (state_name state_upper state)
          (DataSourceMetadata.available_states (metadata self))
          (DataSourceMetadata.state_counts (metadata self))
          (state_name state_upper state ++ " is not in our database. "
           ++ "We have data for "
           ++ PyStr.str_of_Z
                (Z.of_nat (List.length
                   (DataSourceMetadata.available_states (metadata self))))
           ++ " states.")
    | Some indexed => finish indexed
    end
  else finish (_customers self).


(** The dictionary returned by [stats()]. *)
Record Stats : Type := mkStats {
  stats_data : list (string * Z);
  stats_total : Z;
  stats_states : Z;
  stats_source_type : string
}.

Definition stats (self : t) : Stats :=
  {| stats_data := DataSourceMetadata.state_counts (metadata self);
     stats_total := DataSourceMetadata.total_records (metadata self);
     stats_states :=
       Z.of_nat (List.length
                   (DataSourceMetadata.available_states (metadata self)));
     stats_source_type := DataSourceMetadata.source_type (metadata self) |}.

(** [has_state(state)]: the uppercased value is a key of the state index. *)
Definition has_state (self : t) (state : string) : bool :=
  match _by_state self !! PyStr.upper state with
  | Some _ => true
  | None => false
  end.

Definition get_available_states (self : t) : list string :=
  DataSourceMetadata.available_states (metadata self).

Definition get_state_counts (self : t) : list (string * Z) :=
  DataSourceMetadata.state_counts (metadata self).

(** *** Autocomplete

    The three autocomplete indexes are assigned by [_build_indexes]
    together with the indexes above, from [_customers] alone (and are
    empty before the first load, as [_customers] is); they are the
    functions of [_customers] below. *)

(** [sorted(entries, key=lambda x: x[0])]: ascending by the string, and
    stable. *)
Fixpoint insert_key (x : string * Customer.t) (l : list (string * Customer.t))
    : list (string * Customer.t) :=
  match l with
  | [] => [x]
  | y :: l' =>
      if String.leb (fst x) (fst y) then x :: y :: l' else y :: insert_key x l'
  end.

Definition sorted_key (entries : list (string * Customer.t))
    : list (string * Customer.t) :=
  fold_right insert_key [] entries.

(** [[(c[f].lower(), c) for c in customers if c.get(f)]]. *)
Definition index_entries (get : Customer.t -> option string)
    (customers : list Customer.t) : list (string * Customer.t) :=
  flat_map
    (fun c => if truthy_str (get c)
              then [(PyStr.lower (default EmptyString (get c)), c)] else [])
    customers.

Definition _address_index (self : t) : list (string * Customer.t) :=
  sorted_key (index_entries Customer.address (_customers self)).

Definition _name_index (self : t) : list (string * Customer.t) :=
  sorted_key (index_entries Customer.name (_customers self)).

Definition _city_index (self : t) : list (string * Customer.t) :=
  sorted_key (index_entries Customer.city (_customers self)).

(** [bisect_left(a, (x,))] on a list of pairs: an entry [(value, customer)]
    is below the one-element tuple [(x,)] exactly when [value < x], so the
    records themselves are never compared.  The loop halves [hi - lo];
    [fuel] bounds its iterations. *)
Fixpoint bisect_loop (fuel : nat) (a : list (string * Customer.t)) (x : string)
    (lo hi : nat) : nat :=
  match fuel with
  | O => lo
  | S fuel' =>
      if (lo <? hi)%nat then
        let mid := ((lo + hi) / 2)%nat in
        match nth_error a mid with
        | Some (value, _) =>
            if String.ltb value x then bisect_loop fuel' a x (mid + 1)%nat hi
            else bisect_loop fuel' a x lo mid
        | None => lo
        end
      else lo
  end.

Definition bisect_left (a : list (string * Customer.t)) (x : string) : nat :=
  bisect_loop (List.length a) a x 0%nat (List.length a).

(** An entry of [data] in the answer of [autocomplete]. *)
Inductive AcItem : Type :=
| AcCity (value state : string) (count : Z)
| AcRecord (crid value name city state : string).

(** The outcome of a block whose subscripts [customer[key]] may raise. *)
Inductive Subscript (A : Type) : Type :=
| Got (a : A)
| KeyError (key : string).
Arguments Got {A} a.
Arguments KeyError {A} key.

(** [customer[key]] for the keys that hold text. *)
Definition get_text (customer : Customer.t) (key : string) : option string :=
  if String.eqb key "crid" then Customer.crid customer
  else if String.eqb key "name" then Customer.name customer
  else if String.eqb key "state" then Customer.state customer
  else if String.eqb key "city" then Customer.city customer
  else if String.eqb key "customer_type" then Customer.customer_type customer
  else if String.eqb key "address" then Customer.address customer
  else None.

Definition getitem {B} (customer : Customer.t) (key : string)
    (k : string -> Subscript B) : Subscript B :=
  match get_text customer key with
  | Some v => k v
  | None => KeyError key
  end.

(** [sum(1 for c in self._customers if c.get("city", "").lower() == city_key)]. *)
Definition city_count (self : t) (city_key : string) : Z :=
  Z.of_nat
    (List.length
       (List.filter
          (fun c => String.eqb (PyStr.lower (default EmptyString (Customer.city c)))
                      city_key)
          (_customers self))).

(** The dictionary appended for a record of the address or name index. *)
Definition record_item (field : string) (customer : Customer.t)
    : Subscript AcItem :=
  getitem customer "crid" (fun crid =>
  getitem customer field (fun value =>
  getitem customer "name" (fun name =>
  getitem customer "city" (fun city =>
  getitem customer "state" (fun state =>
  Got (AcRecord crid value name city state)))))).

(** The [while] loop of [autocomplete] from position [pos] on: [entries]
    is [index[pos:]]. *)
Fixpoint autocomplete_loop (self : t) (field prefix_lower : string) (limit : Z)
    (entries : list (string * Customer.t)) (results : list AcItem)
    (seen_values : list string) : Subscript (list AcItem) :=
  match entries with
  | [] => Got results
  | (value, customer) :: rest =>
      if Z.of_nat (List.length results) <? limit then
        if PyStr.startswith prefix_lower value then
          if String.eqb field "city" then
            getitem customer "city" (fun city =>
            let city_key := PyStr.lower city in
            if existsb (String.eqb city_key) seen_values
            then autocomplete_loop self field prefix_lower limit rest
                   results seen_values
            else
              getitem customer "city" (fun value =>
              getitem customer "state" (fun state =>
              autocomplete_loop self field prefix_lower limit rest
                (results ++ [AcCity value state (city_count self city_key)])%list
                (city_key :: seen_values))))
          else
            match record_item field customer with
            | Got item =>
                autocomplete_loop self field prefix_lower limit rest
                  (results ++ [item])%list seen_values
            | KeyError key => KeyError key
            end
        else Got results
      else Got results
  end.

(** The answer of [autocomplete]; [AcRaised] is the KeyError that leaves
    the call. *)
Inductive AcResult : Type :=
| AcOk (field prefix : string) (count : Z) (data : list AcItem)
| AcError (error : string)
| AcRaised (key : string).

(** [{"address": ..., "name": ..., "city": ...}.get(field)]. *)
Definition index_for (self : t) (field : string)
    : option (list (string * Customer.t)) :=
  if String.eqb field "address" then Some (_address_index self)
  else if String.eqb field "name" then Some (_name_index self)
  else if String.eqb field "city" then Some (_city_index self)
  else None.

Definition autocomplete (self : t) (field prefix : string) (limit : Z)
    : AcResult :=
  let prefix_lower := PyStr.strip (PyStr.lower prefix) in
  if negb (PyStr.truthy prefix_lower) then AcError "Empty prefix"
  else
    let unknown := AcError ("Unknown field: " ++ field) in
    match index_for self field with
    | Some [] | None => unknown
    | Some index =>
        let pos := bisect_left index prefix_lower in
        match autocomplete_loop self field prefix_lower limit
                (skipn pos index) [] [] with
        | Got results =>
            AcOk field prefix (Z.of_nat (List.length results)) results
        | KeyError key => AcRaised key
        end
    end.

End DataSource.

(* ===================================================================== *)
(** ** agents/nova_agent.py *)
(* ===================================================================== *)

Module SearchResult.
Record t : Type := mk {
  results : list Customer.t;
  total_matches : Z
}.
End SearchResult.

Module KnowledgeContext.
Record t : Type := mk {
  relevant_chunks : list (string * string)     (* text, source *)
}.
End KnowledgeContext.

Record NovaResponse : Type := mkNovaResponse {
  response_text : string;
  tools_used : list string;
  tool_results : list string;        (* raw tool outputs, as documents *)
  model_used : string;
  tokens_used : Z;
  ai_confidence : float
}.

Module NovaAgent.

(** The agent's own state: the model identifier and the availability flag.
    The remote client and the tool registry are the environment. *)
Record t : Type := mk {
  _model : string;
  _available : bool
}.

(** [__init__]: available exactly when credentials are configured and the
    client could be created. *)
Definition init (model : string) (has_credentials client_created : bool) : t :=
  mk model (has_credentials && client_created).

(** What the body of the [try] in [generate] does: message building, tool
    selection and the remote conversation either return the text with the
    tools used and their outputs, or raise. *)
Inductive Attempt : Type :=
| Returned (response : string) (tools_used : list string)
    (tool_results : list string)
| RaisedClientError (error_msg : string)
| RaisedException.

Definition get_or_na (field : option string) : string :=
  default "N/A" field.

Definition fallback_line (customer : Customer.t) : string :=
  "  - " ++ get_or_na (Customer.crid customer) ++ ": "
  ++ get_or_na (Customer.name customer) ++ " ("
  ++ get_or_na (Customer.city customer) ++ ", "
  ++ get_or_na (Customer.state customer) ++ ")".

(** The text of the templated answer built from the search results. *)
Definition fallback_text (search_result : SearchResult.t) : string :=
  let total := SearchResult.total_matches search_result in
  let header := "Found " ++ PyStr.str_of_Z total ++ " customer(s):" in
  let more := "  ... and " ++ PyStr.str_of_Z (total - 5) ++ " more" in
  let lines :=
    header
    :: List.map fallback_line (firstn 5 (SearchResult.results search_result)) in
  let lines := if 5 <? total then (lines ++ [more])%list else lines in
  PyStr.join (String "010" EmptyString) lines.

Definition AI_UNAVAILABLE : string :=
  "AI features are not available. Please use direct search or autocomplete endpoints.".

Definition _fallback_response (query : string) (search_result : SearchResult.t)
    (knowledge : KnowledgeContext.t) : NovaResponse :=
  match SearchResult.results search_result with
  | _ :: _ =>
      {| response_text := fallback_text search_result;
         tools_used := [];
         tool_results := [];
         model_used := "fallback";
         tokens_used := 0;
         ai_confidence := 0.5%float |}
  | [] =>
      {| response_text := AI_UNAVAILABLE;
         tools_used := [];
         tool_results := [];
         model_used := "fallback";
         tokens_used := 0;
         ai_confidence := 0.1%float |}
  end.

Definition uncertain_phrases : list string :=
  [ "i'm not sure"; "i don't know"; "i cannot"; "unable to" ].

Definition _estimate_confidence (response : string) (tools_used : list string)
    : float :=
  let confidence := 0.7%float in
  let confidence :=
    match tools_used with
    | _ :: _ => (confidence + 0.15)%float
    | [] => confidence
    end in
  let confidence :=
    if existsb (fun phrase => PyStr.contains phrase (PyStr.lower response))
         uncertain_phrases
    then (confidence - 0.2)%float else confidence in
  PyFloat.py_max 0.1%float
    (PyFloat.py_min 1.0%float (PyFloat.round3 confidence)).

(** The test of the [ClientError] handler. *)
Definition is_access_error (error_msg : string) : bool :=
  PyStr.contains "Access" error_msg
  || PyStr.contains "credentials" (PyStr.lower error_msg).

(** [generate]: the response and the agent afterwards. *)
Definition generate (self : t) (query : string)
    (search_result : SearchResult.t) (knowledge : KnowledgeContext.t)
    (attempt : Attempt) : NovaResponse * t :=
  if negb (_available self) then
    (_fallback_response query search_result knowledge, self)
  else
    match attempt with
    | Returned response tools_used tool_results =>
        ({| response_text := response;
            tools_used := tools_used;
            tool_results := tool_results;
            model_used := _model self;
            tokens_used := 0;
            ai_confidence := _estimate_confidence response tools_used |},
         self)
    | RaisedClientError error_msg =>
        let self :=
          if is_access_error error_msg then mk (_model self) false
          else self in
        (_fallback_response query search_result knowledge, self)
    | RaisedException =>
        (_fallback_response query search_result knowledge, self)
    end.

(** One call of [generate] with everything it receives. *)
Record Call : Type := mkCall {
  call_query : string;
  call_search : SearchResult.t;
  call_knowledge : KnowledgeContext.t;
  call_attempt : Attempt
}.

Definition generate_call (self : t) (c : Call) : NovaResponse * t :=
  generate self (call_query c) (call_search c) (call_knowledge c)
    (call_attempt c).

(** A sequence of calls on the same agent. *)
Fixpoint generate_all (self : t) (calls : list Call)
    : list NovaResponse * t :=
  match calls with
  | [] => ([], self)
  | c :: rest =>
      let '(r, self') := generate_call self c in
      let '(rs, self'') := generate_all self' rest in
      (r :: rs, self'')
  end.

(** *** Building the request and talking to the model *)

Definition is_text (b : Block) : bool :=
  match b with BText _ => true | BOther => false end.

(** The text blocks [_build_messages] keeps of a message's content. *)
Definition text_blocks (content : Content) : list Block :=
  match content with
  | CBlocks blocks => List.filter is_text blocks
  | CStr s => [BText s]
  | COther => []
  end.

Definition is_chat_role (role : string) : bool :=
  String.eqb role "user" || String.eqb role "assistant".

(** [_build_messages(query, context)]: the text of the last six turns,
    then the query. *)
Definition _build_messages (query : string) (context : QueryContext)
    : list Message :=
  let history := session_history context in
  let recent := skipn (List.length history - 6) history in
  let kept :=
    flat_map
      (fun msg =>
         let blocks := text_blocks (content msg) in
         if ContextAgent.nonempty blocks && is_chat_role (role msg)
         then [mkMessage (role msg) (CBlocks blocks)] else [])
      recent in
  (kept ++ [mkMessage "user" (CBlocks [BText query])])%list.

(** [enumerate(results[:5], 1)] rendered for the prompt. *)
Fixpoint context_lines (i : Z) (customers : list Customer.t) : list string :=
  match customers with
  | [] => []
  | customer :: rest =>
      ("  " ++ PyStr.str_of_Z i ++ ". " ++ get_or_na (Customer.crid customer)
       ++ ": " ++ get_or_na (Customer.name customer) ++ " - "
       ++ get_or_na (Customer.city customer) ++ ", "
       ++ get_or_na (Customer.state customer) ++ " ("
       ++ PyStr.str_of_Z (default 0 (Customer.move_count customer)) ++ " moves)")
      :: context_lines (i + 1) rest
  end.

Definition chunk_line (chunk : string * string) : string :=
  "  - " ++ String.substring 0 200 (fst chunk) ++ "... (from " ++ snd chunk ++ ")".

(** [_build_context(search_result, knowledge)]. *)
Definition _build_context (search_result : SearchResult.t)
    (knowledge : KnowledgeContext.t) : string :=
  let total := SearchResult.total_matches search_result in
  let more := "  ... and " ++ PyStr.str_of_Z (total - 5) ++ " more" in
  let data :=
    match SearchResult.results search_result with
    | [] => []
    | results =>
        (("CUSTOMER DATA:" :: context_lines 1 (firstn 5 results))
         ++ (if 5 <? total then [more] else []))%list
    end in
  let docs :=
    match KnowledgeContext.relevant_chunks knowledge with
    | [] => []
    | chunks =>
        (String "010" "RELEVANT DOCUMENTATION:")
        :: List.map chunk_line (firstn 3 chunks)
    end in
  PyStr.join (String "010" EmptyString) (data ++ docs)%list.

(** A content block of a reply of the model. *)
Inductive ABlock : Type :=
| AText (text : string)                       (* {"text": ...} *)
| AToolUse (name input toolUseId : string)    (* {"toolUse": {...}} *)
| AOther.

(** What a call of the remote client gives: the content of the reply, a
    [ClientError] with its message, or another exception (a reply of
    another shape included).  The request itself (messages, system
    prompts, tool configuration) only reaches the client. *)
Inductive Reply : Type :=
| Replied (content : list ABlock)
| ClientError (error_msg : string)
| Failed.

(** [next((b["text"] for b in content if "text" in b), None)]. *)
Fixpoint first_text (content : list ABlock) : option string :=
  match content with
  | [] => None
  | AText text :: _ => Some text
  | _ :: rest => first_text rest
  end.

(** [[b["toolUse"] for b in content if "toolUse" in b]]. *)
Definition tool_uses (content : list ABlock) : list (string * string) :=
  flat_map
    (fun b => match b with AToolUse name input _ => [(name, input)] | _ => [] end)
    content.

(** The loop over the tool uses: every tool is run through the registry,
    in order; [None] when the registry raises. *)
Fixpoint run_tools (execute : string -> string -> option string)
    (uses : list (string * string)) : option (list string * list string) :=
  match uses with
  | [] => Some ([], [])
  | (tool_name, tool_input) :: rest =>
      match execute tool_name tool_input with
      | Some result =>
          match run_tools execute rest with
          | Some (tools_used, tool_results_list) =>
              Some (tool_name :: tools_used, result :: tool_results_list)
          | None => None
          end
      | None => None
      end
  end.

Definition NO_RESPONSE : string := "I couldn't generate a response.".

(** [_converse]: [reply] answers the first request and [follow_reply] the
    one that carries the tool results, made only when tools were used. *)
Definition _converse (execute : string -> string -> option string)
    (reply follow_reply : Reply) : Attempt :=
  match reply with
  | ClientError error_msg => RaisedClientError error_msg
  | Failed => RaisedException
  | Replied content =>
      let from_content tools_used tool_results_list :=
        match first_text content with
        | Some text =>
            if PyStr.truthy text
            then Returned text tools_used tool_results_list
            else Returned NO_RESPONSE tools_used tool_results_list
        | None => Returned NO_RESPONSE tools_used tool_results_list
        end in
      match tool_uses content with
      | [] => from_content [] []
      | uses =>
          match run_tools execute uses with
          | None => RaisedException
          | Some (tools_used, tool_results_list) =>
              match follow_reply with
              | ClientError error_msg => RaisedClientError error_msg
              | Failed => RaisedException
              | Replied follow_content =>
                  match first_text follow_content with
                  | Some text =>
                      if PyStr.truthy text
                      then Returned text tools_used tool_results_list
                      else from_content tools_used tool_results_list
                  | None => from_content tools_used tool_results_list
                  end
              end
          end
      end
  end.

(** [generate] with the conversation it runs spelled out. *)
Definition generate_with (self : t) (query : string)
    (search_result : SearchResult.t) (knowledge : KnowledgeContext.t)
    (execute : string -> string -> option string)
    (reply follow_reply : Reply) : NovaResponse * t :=
  generate self query search_result knowledge
    (_converse execute reply follow_reply).

End NovaAgent.

(* ===================================================================== *)
(** ** main.py: the guardrail patterns of the prototype *)
(* ===================================================================== *)

Module Guardrails.

Definition BLOCKED_PATTERNS : list (string * string) :=
  [ ("\b(ssn|social\s*security)\b", "SSN not accessible");
    ("\b(credit\s*card|bank\s*account)\b", "Financial info not accessible");
    ("\b(password|secret|token)\b", "Credentials not accessible");
    ("\b(weather|poem|story|joke)\b", "I only help with customer data queries") ].

Fixpoint check_patterns (patterns : list (string * string)) (query : string)
    : option string :=
  match patterns with
  | [] => None
  | (pattern, message) :: rest =>
      if Regex.search pattern (PyStr.lower query) then Some message
      else check_patterns rest query
  end.

Definition check (query : string) : option string :=
  check_patterns BLOCKED_PATTERNS query.

End Guardrails.

(* ===================================================================== *)
(** ** router.py *)
(* ===================================================================== *)

(** Modelled from the spec: [icda/vector_index.py] (the declaration of
    [RouteType]) is not among the sources; the members are the three routes
    a query can take: cache hit, direct database tool call, AI pipeline. *)
Module RouteType.
Inductive t : Set := CACHE_HIT | DATABASE | NOVA.

Definition eqb (a b : t) : bool :=
  match a, b with
  | CACHE_HIT, CACHE_HIT | DATABASE, DATABASE | NOVA, NOVA => true
  | _, _ => false
  end.
End RouteType.

(** The dictionary returned by [Router.route], without [latency_ms]
    (a wall-clock reading). *)
Module Response.
Record t : Type := mk {
  success : bool;
  query : string;
  response : string;
  route : RouteType.t;
  cached : bool;
  blocked : bool;
  tool : option string;
  session_id : option string;
  quality_score : option float;
  nova_route : option string
}.
End Response.

Module Router.

(** A customer row as the database and the semantic search return it to
    the router: the keys the router reads are present. *)
Record Row : Type := mkRow {
  row_name : string;
  row_crid : string;
  row_city : string;
  row_state : string;
  row_move_count : Z;
  row_status : string
}.

(** [result["data"]] of a database tool. *)
Inductive DbData : Type :=
| DbCustomer (c : Row)
| DbCustomers (customers : list Row)
| DbStats (stats : list (string * Z))
| DbNothing.

Record DbResult : Type := mkDbResult {
  db_success : bool;
  db_data : DbData;
  db_total : Z
}.

Record RagResult : Type := mkRagResult {
  rag_success : bool;
  rag_count : Z;
  rag_data : list Row
}.

(** The dictionary returned by [nova.query]. *)
Record NovaResult : Type := mkNovaResult {
  nova_success : bool;
  nova_response : string;
  nova_tool : option string;
  nova_quality_score : option float;
  nova_result_route : option string;
  nova_error : option string
}.

(** A cached value: the JSON text of [{"response": ...}];
    [json.dumps] builds it and [json.loads] reads it back.  The text is
    never empty, so a hit is always true. *)
Inductive CachedDoc : Type :=
| JsonResponse (response : string).

Definition loads_response (doc : CachedDoc) : string :=
  match doc with JsonResponse r => r end.

(** Modelled from the spec: [icda/cache.py] and [icda/session.py] are not
    among the sources.  The cache is a store from keys to values with
    [get(key) -> value?] and [set(key, value)]; the session store maps
    identifiers to sessions with [get(session_id)] a read (an unknown or
    absent identifier gives a new session that is not yet stored) and
    [save(session)] the write. *)
Record World : Type := mkWorld {
  cache_store : gmap string CachedDoc;
  session_store : gmap string Session.t
}.

(** The calls the router makes on its collaborators. *)
Inductive Event : Type :=
| EvSessionGet (session_id : option string)
| EvSessionSave (session : Session.t)
| EvCacheGet (key : string)
| EvCacheSet (key : string) (value : CachedDoc)
| EvFindRoute (q : string)
| EvDbExecute (tool q : string)
| EvSemanticSearch (q : string)
| EvNovaQuery (q : string).

(** State of the two stores, and the calls made so far. *)
Definition M (A : Type) : Type := World -> A * World * list Event.

Definition ret {A} (a : A) : M A := fun w => (a, w, []).

Definition bind {A B} (m : M A) (f : A -> M B) : M B :=
  fun w =>
    let '(a, w1, e1) := m w in
    let '(b, w2, e2) := f a w1 in
    (b, w2, (e1 ++ e2)%list).

Notation "'do' x <- m ; k" := (bind m (fun x => k))
  (at level 10, x name, m at level 100, k at level 200).
Notation "'do_' m ; k" := (bind m (fun _ => k))
  (at level 10, m at level 100, k at level 200).

Definition call {A} (e : Event) (a : A) : M A := fun w => (a, w, [e]).

(** The three parts of a run: the value, the stores afterwards and the
    calls made. *)
Definition value_of {A} (out : A * World * list Event) : A := fst (fst out).
Definition world_of {A} (out : A * World * list Event) : World := snd (fst out).
Definition events_of {A} (out : A * World * list Event) : list Event := snd out.

Definition cache_get (key : string) : M (option CachedDoc) :=
  fun w => (cache_store w !! key, w, [EvCacheGet key]).

Definition cache_set (key : string) (value : CachedDoc) : M unit :=
  fun w =>
    (tt, mkWorld (<[key := value]> (cache_store w)) (session_store w),
     [EvCacheSet key value]).

Definition sessions_save (session : Session.t) : M unit :=
  fun w =>
    (tt,
     mkWorld (cache_store w)
       (<[Session.session_id session := session]> (session_store w)),
     [EvSessionSave session]).

Definition is_write (e : Event) : bool :=
  match e with
  | EvSessionSave _ | EvCacheSet _ _ => true
  | _ => false
  end.

Definition is_cache_get (e : Event) : bool :=
  match e with EvCacheGet _ => true | _ => false end.

Definition is_cache_set (e : Event) : bool :=
  match e with EvCacheSet _ _ => true | _ => false end.

Definition newline : string := String "010" EmptyString.

Section Collaborators.
(** [GuardrailFlags] and [Guardrails.check(text, flags)]: the blocked
    message, or [None]. *)
Variable GuardrailFlags : Type.
Variable guardrails_check : string -> option GuardrailFlags -> option string.
(** [RedisCache.make_key]. *)
Variable make_key : string -> string.
(** The session [SessionManager.get] creates for an identifier it does
    not know. *)
Variable new_session : option string -> Session.t.
(** [vector_index.find_route]: the route and [metadata.get("tool")]. *)
Variable find_route : string -> RouteType.t * option string.
(** [db.execute(tool, q)]. *)
Variable db_execute : string -> string -> DbResult.
(** [json.dumps(result)]. *)
Variable json_dumps : DbResult -> string.
(** Whether [nova.orchestrator] is set. *)
Variable orchestrator : bool.
(** [vector_index.search_customers_semantic(q, limit=5)]. *)
Variable search_customers_semantic : string -> RagResult.
(** [nova.query(q, history, context, session_id)]. *)
Variable nova_query :
  string -> option (list Message) -> option string -> string -> NovaResult.

(** The session [SessionManager.get(session_id)] returns. *)
Definition session_for (w : World) (session_id : option string) : Session.t :=
  let found :=
    match session_id with
    | Some sid => session_store w !! sid
    | None => None
    end in
  default (new_session session_id) found.

Definition sessions_get (session_id : option string) : M Session.t :=
  fun w => (session_for w session_id, w, [EvSessionGet session_id]).

Definition db_line (c : Row) : string :=
  "- " ++ row_name c ++ " (" ++ row_crid c ++ "): " ++ row_city c ++ ", "
  ++ row_state c ++ " - " ++ PyStr.str_of_Z (row_move_count c) ++ " moves".

Definition stats_line (entry : string * Z) : string :=
  "- " ++ fst entry ++ ": " ++ PyStr.str_of_Z (snd entry).

(** [_format_db_result(result, tool)].  The database returns the data
    of the tool it ran: one row for [lookup_crid], rows for
    [search_customers], counts per state for [get_stats]; data of another
    shape is outside that contract and is given the plain dump here. *)
Definition _format_db_result (result : DbResult) (tool : string) : string :=
  if String.eqb tool "lookup_crid" then
    match db_data result with
    | DbCustomer c =>
        "Customer " ++ row_name c ++ " (" ++ row_crid c ++ "): "
        ++ row_city c ++ ", " ++ row_state c ++ ". Moved "
        ++ PyStr.str_of_Z (row_move_count c) ++ " times."
    | _ => json_dumps result
    end
  else if String.eqb tool "search_customers" then
    match db_data result with
    | DbCustomers customers =>
        PyStr.join newline
          (("Found " ++ PyStr.str_of_Z (db_total result) ++ " customers:")
           :: List.map db_line customers)
    | _ => json_dumps result
    end
  else if String.eqb tool "get_stats" then
    match db_data result with
    | DbStats stats =>
        PyStr.join newline
          (("Customer count by state (Total: "
            ++ PyStr.str_of_Z (db_total result) ++ "):")
           :: List.map stats_line (sorted_desc stats))
    | _ => json_dumps result
    end
  else json_dumps result.

Definition rag_line (c : Row) : string :=
  "- " ++ row_name c ++ " (CRID: " ++ row_crid c ++ "): " ++ row_city c
  ++ ", " ++ row_state c ++ ", " ++ PyStr.str_of_Z (row_move_count c)
  ++ " moves. Status: " ++ row_status c.

(** [_response(query, response, route, start, **kwargs)] with the
    keyword arguments spelled out. *)
Definition _response (query response : string) (route : RouteType.t)
    (success cached blocked : bool) (tool session_id : option string)
    (quality_score : option float) (nova_route : option string)
    : Response.t :=
  {| Response.success := success;
     Response.query := query;
     Response.response := response;
     Response.route := route;
     Response.cached := cached;
     Response.blocked := blocked;
     Response.tool := tool;
     Response.session_id := session_id;
     Response.quality_score := quality_score;
     Response.nova_route :=
       match nova_route with
       | Some r => if PyStr.truthy r then Some r else None
       | None => None
       end |}.

(** Step 5 of [route]: the AI pipeline. *)
Definition route_nova (q key : string) (session : Session.t)
    : M Response.t :=
  let sid := Some (Session.session_id session) in
  let history :=
    match Session.messages session with
    | [] => None
    | _ => Some (Session.get_history 20 session)
    end in
  do context <-
    (if negb orchestrator then
       do rag_result <-
         call (EvSemanticSearch q) (search_customers_semantic q);
       ret (if rag_success rag_result && (0 <? rag_count rag_result)
            then Some (PyStr.join newline
                         ("Found relevant customer records:"
                          :: List.map rag_line (rag_data rag_result)))
            else None)
     else ret None);
  do result <-
    call (EvNovaQuery q)
      (nova_query q history context (Session.session_id session));
  if nova_success result then
    let response := nova_response result in
    let session := Session.add_message "user" q session in
    let session := Session.add_message "assistant" response session in
    do_ sessions_save session;
    do_ (if Z.of_nat (List.length (Session.messages session)) <=? 2
         then cache_set key (JsonResponse response)
         else ret tt);
    ret (_response q response RouteType.NOVA true false false
           (nova_tool result) sid (nova_quality_score result)
           (nova_result_route result))
  else
    ret (_response q (default "Unknown error" (nova_error result))
           RouteType.NOVA false false false None sid None None).

(** Steps 3 and 4 of [route]: the semantic router and the database. *)
Definition route_execute (q key : string) (session : Session.t)
    : M Response.t :=
  let sid := Some (Session.session_id session) in
  do found <- call (EvFindRoute q) (find_route q);
  let '(route_type, metadata_tool) := found in
  if RouteType.eqb route_type RouteType.DATABASE then
    let tool := default "search_customers" metadata_tool in
    do result <- call (EvDbExecute tool q) (db_execute tool q);
    if db_success result then
      let response := _format_db_result result tool in
      let session := Session.add_message "user" q session in
      let session := Session.add_message "assistant" response session in
      do_ sessions_save session;
      do_ (if Z.of_nat (List.length (Session.messages session)) <=? 2
           then cache_set key (JsonResponse response)
           else ret tt);
      ret (_response q response RouteType.DATABASE true false false
             (Some tool) sid None None)
    else route_nova q key session
  else route_nova q key session.

(** The blocked message when [Guardrails.check] returns a true value. *)
Definition blocked_message (q : string) (flags : option GuardrailFlags)
    : option string :=
  match guardrails_check q flags with
  | Some message => if PyStr.truthy message then Some message else None
  | None => None
  end.

Definition route (query : string) (bypass_cache : bool)
    (guardrails : option GuardrailFlags) (session_id : option string)
    : M Response.t :=
  let q := PyStr.strip query in
  do session <- sessions_get session_id;
  let sid := Some (Session.session_id session) in
  match blocked_message q guardrails with
  | Some blocked =>
      ret (_response q blocked RouteType.CACHE_HIT true false true
             None sid None None)
  | None =>
      let key := make_key q in
      if negb bypass_cache && negb (ContextAgent.nonempty (Session.messages session))
      then
        do hit <- cache_get key;
        match hit with
        | Some data =>
            ret (_response q (loads_response data) RouteType.CACHE_HIT
                   true true false None sid None None)
        | None => route_execute q key session
        end
      else route_execute q key session
  end.

End Collaborators.

End Router.

(* ===================================================================== *)
(** ** Sample data and collaborators *)
(* ===================================================================== *)

Module Demo.

Definition customer (id st ct : string) (moves : Z) : Customer.t :=
  Customer.mk (Some id) (Some "Pat Doe") (Some st) (Some ct) (Some moves)
    None None.

Definition customers : list Customer.t :=
  [ customer "CRID-000042" "nv" "Reno" 3;
    customer "CRID-007" "CA" "Los Angeles" 1;
    customer "CRID-000043" "NV" "Las Vegas" 2;
    customer "CRID-9" "ca" "Fresno" 0;
    customer "CRID-10" "Ca" "Fresno" 0 ].

Definition source : DataSource.t := DataSource.load customers.

(** 120 customers, all in Nevada. *)
Definition many_customers : list Customer.t :=
  List.map
    (fun i => customer ("CRID-" ++ PyStr.zfill 6 (PyStr.str_of_Z (Z.of_nat i)))
                "NV" "Reno" 1)
    (List.seq 1 120).

Definition turn : Message :=
  mkMessage "user" (CBlocks [BText "customers in NV"]).

Definition store : gmap string Session.t :=
  {[ "s1" := Session.mk "s1" [turn] ]}.

(** Collaborators for a run of the router: the prototype's guardrails, the
    normalised text as the cache key, a database that knows one customer
    and a pipeline that always answers. *)
Definition guardrails_check (q : string) (flags : option unit) : option string :=
  Guardrails.check q.

Definition make_key (q : string) : string := PyStr.strip (PyStr.lower q).

Definition new_session (session_id : option string) : Session.t :=
  Session.mk (default "fresh" session_id) [].

Definition find_route (q : string) : RouteType.t * option string :=
  if Regex.search "\bcrid[-\s]?\d+" (PyStr.lower q)
  then (RouteType.DATABASE, Some "lookup_crid")
  else (RouteType.NOVA, None).

Definition db_execute (tool q : string) : Router.DbResult :=
  Router.mkDbResult true
    (Router.DbCustomer
       (Router.mkRow "Pat Doe" "CRID-000042" "Reno" "NV" 3 "active"))
    1.

Definition json_dumps (r : Router.DbResult) : string := "{}".

Definition search_customers_semantic (q : string) : Router.RagResult :=
  Router.mkRagResult true 0 [].

Definition nova_query (q : string) (history : option (list Message))
    (context : option string) (session_id : string) : Router.NovaResult :=
  Router.mkNovaResult true "Two customers live in Nevada." (Some "get_stats")
    None None None.

Definition world : Router.World := Router.mkWorld ∅ store.

Definition route : string -> bool -> option unit -> option string
    -> Router.M Response.t :=
  Router.route unit guardrails_check make_key new_session find_route
    db_execute json_dumps true search_customers_semantic nova_query.

End Demo.

(* ===================================================================== *)
(** ** main.py: the single-file prototype *)
(* ===================================================================== *)

Module Main.

(** A cached value: the JSON text of [{"response": ...}], which
    [json.dumps] builds and [json.loads] reads back; the text is never
    empty, so a hit is always true. *)
Inductive Doc : Type :=
| JsonResponse (response : string).

Definition loads_response (doc : Doc) : string :=
  match doc with JsonResponse r => r end.

(** [Cache]: values with their expiry time.  [now] is the reading of
    [time.time()] the method makes. *)
Module Cache.
Record t : Type := mk {
  _data : gmap string (Doc * float);
  ttl : Z
}.

Definition init (ttl : Z) : t := mk ∅ ttl.

Definition get (now : float) (key : string) (self : t) : option Doc * t :=
  match _data self !! key with
  | Some (value, expiry) =>
      if (now <? expiry)%float then (Some value, self)
      else (None, mk (delete key (_data self)) (ttl self))
  | None => (None, self)
  end.

Definition set (now : float) (key : string) (value : Doc) (self : t) : t :=
  mk (<[key := (value, (now + PyFloat.of_Z (ttl self))%float)]> (_data self))
     (ttl self).

Definition clear (self : t) : t := mk ∅ (ttl self).

(** [make_key(query)]: the first 16 hexadecimal digits of the SHA-256 of
    the lowercased, stripped query; [sha256_hex] is [hashlib]'s digest. *)
Definition make_key (sha256_hex : string -> string) (query : string) : string :=
  String.substring 0 16 (sha256_hex (PyStr.strip (PyStr.lower query))).
End Cache.

(** [CustomerData]: the loaded records with the two indexes built by
    [__init__]. *)
Module CustomerData.
Record t : Type := mk {
  customers : list Customer.t;
  crid_index : gmap string Customer.t;
  state_index : gmap string (list Customer.t)
}.

(** [{c["crid"]: c for c in customers}]. *)
Fixpoint build_crid_index (customers : list Customer.t)
    (index : gmap string Customer.t)
    : DataSource.Subscript (gmap string Customer.t) :=
  match customers with
  | [] => DataSource.Got index
  | c :: rest =>
      match Customer.crid c with
      | Some crid => build_crid_index rest (<[crid := c]> index)
      | None => DataSource.KeyError "crid"
      end
  end.

(** [state_index.setdefault(c["state"], []).append(c)] for every record. *)
Fixpoint build_state_index (customers : list Customer.t)
    (index : gmap string (list Customer.t))
    : DataSource.Subscript (gmap string (list Customer.t)) :=
  match customers with
  | [] => DataSource.Got index
  | c :: rest =>
      match Customer.state c with
      | Some state =>
          build_state_index rest
            (<[state := (default [] (index !! state) ++ [c])%list]> index)
      | None => DataSource.KeyError "state"
      end
  end.

(** The records [_load] returns when the data file is missing. *)
Definition FALLBACK : list Customer.t :=
  [ Customer.mk (Some "CRID-000001") (Some "John Smith") (Some "NV")
      (Some "Las Vegas") (Some 3) None (Some "123 Main St");
    Customer.mk (Some "CRID-000002") (Some "Jane Doe") (Some "NV")
      (Some "Reno") (Some 2) None (Some "456 Oak Ave") ].

(** [__init__] on the records [_load] returned. *)
Definition init (customers : list Customer.t) : DataSource.Subscript t :=
  match build_crid_index customers ∅ with
  | DataSource.Got crid_index =>
      match build_state_index customers ∅ with
      | DataSource.Got state_index =>
          DataSource.Got (mk customers crid_index state_index)
      | DataSource.KeyError key => DataSource.KeyError key
      end
  | DataSource.KeyError key => DataSource.KeyError key
  end.

(** A list comprehension whose condition subscripts the record. *)
Fixpoint keep_if (test : Customer.t -> DataSource.Subscript bool)
    (results : list Customer.t) : DataSource.Subscript (list Customer.t) :=
  match results with
  | [] => DataSource.Got []
  | c :: rest =>
      match test c with
      | DataSource.Got b =>
          match keep_if test rest with
          | DataSource.Got kept =>
              DataSource.Got (if b then c :: kept else kept)
          | DataSource.KeyError key => DataSource.KeyError key
          end
      | DataSource.KeyError key => DataSource.KeyError key
      end
  end.

(** [c["move_count"] >= min_moves]. *)
Definition moves_test (min_moves : Z) (c : Customer.t)
    : DataSource.Subscript bool :=
  match Customer.move_count c with
  | Some n => DataSource.Got (min_moves <=? n)
  | None => DataSource.KeyError "move_count"
  end.

(** [city.lower() in c["city"].lower()]. *)
Definition city_test (city : string) (c : Customer.t)
    : DataSource.Subscript bool :=
  match Customer.city c with
  | Some v => DataSource.Got (PyStr.contains (PyStr.lower city) (PyStr.lower v))
  | None => DataSource.KeyError "city"
  end.

Record Found : Type := mkFound {
  total_matches : Z;
  data : list Customer.t
}.

(** [search(state, city, min_moves, limit)]; it always reports success. *)
Definition search (self : t) (state city : option string)
    (min_moves : option Z) (limit : Z) : DataSource.Subscript Found :=
  let results :=
    if DataSource.truthy_str state
    then default [] (state_index self !! PyStr.upper (default EmptyString state))
    else customers self in
  match (if DataSource.truthy_int min_moves
         then keep_if (moves_test (default 0 min_moves)) results
         else DataSource.Got results) with
  | DataSource.Got results =>
      match (if DataSource.truthy_str city
             then keep_if (city_test (default EmptyString city)) results
             else DataSource.Got results) with
      | DataSource.Got results =>
          let limit := Z.min limit 100 in
          DataSource.Got
            (mkFound (Z.of_nat (List.length results)) (slice_to limit results))
      | DataSource.KeyError key => DataSource.KeyError key
      end
  | DataSource.KeyError key => DataSource.KeyError key
  end.
End CustomerData.

(** What [bedrock.query] returns: a response with the tool used, or an
    error. *)
Inductive BedrockResult : Type :=
| BedrockOk (response : string) (tool_used : option string)
| BedrockError (error : string).

(** The three shapes of the answer of [process_query]. *)
Inductive QueryReply : Type :=
| Blocked (query response : string)        (* success False, blocked True *)
| Cached (query response : string)         (* success True, cached True *)
| Answered (success : bool) (query : string) (response : option string)
    (tool_used : option string).           (* cached False *)

(** [process_query(request)] on the module's cache.  [t_get] and [t_set]
    are the clock readings of [cache.get] and [cache.set]; [bedrock_query]
    is what the remote model answers to this request.  The response of a
    fresh answer is [result.get("response") or result.get("error")]. *)
Definition process_query (sha256_hex : string -> string)
    (bedrock_query : string -> BedrockResult)
    (t_get t_set : float) (query : string) (bypass_cache : bool)
    (cache : Cache.t) : QueryReply * Cache.t :=
  let query := PyStr.strip query in
  let blocked :=
    match Guardrails.check query with
    | Some message => if PyStr.truthy message then Some message else None
    | None => None
    end in
  match blocked with
  | Some blocked => (Blocked query blocked, cache)
  | None =>
      let key := Cache.make_key sha256_hex query in
      let ask (cache : Cache.t) :=
        match bedrock_query query with
        | BedrockOk response tool_used =>
            (Answered true query
               (if PyStr.truthy response then Some response else None)
               tool_used,
             Cache.set t_set key (JsonResponse response) cache)
        | BedrockError error => (Answered false query (Some error) None, cache)
        end in
      if bypass_cache then ask cache
      else
        match Cache.get t_get key cache with
        | (Some cached, cache) => (Cached query (loads_response cached), cache)
        | (None, cache) => ask cache
        end
  end.

End Main.

(* ===================================================================== *)
(** ** nova.py: the client behind [nova.query] *)
(* ===================================================================== *)

Module NovaClient.

(** The client's own state: the availability flag, the orchestrator switch
    and whether an orchestrator was created. *)
Record t : Type := mk {
  available : bool;
  _use_orchestrator : bool;
  _orchestrator : bool
}.

(** [__init__]: without credentials, or when the client cannot be
    created, the client stays unavailable and has no orchestrator; the
    orchestrator is created only on request, and its failure leaves the
    simple mode. *)
Definition init (has_credentials client_created use_orchestrator
    orchestrator_created : bool) : t :=
  let available := has_credentials && client_created in
  mk available use_orchestrator
     (available && use_orchestrator && orchestrator_created).

(** What [_orchestrator.process] gives: the fields of its result that
    [_query_orchestrated] reads, or an exception. *)
Inductive Processed : Type :=
| ProcessResult (success : bool) (response : string)
    (tools_used : list string) (route : string) (quality_score : float)
| ProcessRaised.

Definition failure (error : string) : Router.NovaResult :=
  Router.mkNovaResult false EmptyString None None None (Some error).

Definition LITE_MODE : string :=
  "AI features not available (no AWS credentials). Running in LITE MODE - use /api/search or /api/autocomplete endpoints.".

Definition ACCESS_DENIED : string :=
  "AWS access denied - check IAM permissions".

(** The two exception handlers of [_query_simple]; [str_e] is the text of
    an exception other than a [ClientError]. *)
Definition on_client_error (self : t) (error_msg : string)
    : Router.NovaResult * t :=
  if NovaAgent.is_access_error error_msg
  then (failure ACCESS_DENIED,
        mk false (_use_orchestrator self) (_orchestrator self))
  else (failure ("Nova: " ++ error_msg), self).

(** [_query_simple]: the replies of the client and the tools are the
    environment, as in [NovaAgent._converse]; the request built from the
    text, the history and the context only reaches the client. *)
Definition _query_simple (self : t)
    (execute : string -> string -> option string)
    (reply follow_reply : NovaAgent.Reply) (str_e : string)
    : Router.NovaResult * t :=
  match reply with
  | NovaAgent.ClientError error_msg => on_client_error self error_msg
  | NovaAgent.Failed => (failure str_e, self)
  | NovaAgent.Replied content =>
      let from_content :=
        match NovaAgent.first_text content with
        | Some out =>
            if PyStr.truthy out
            then Router.mkNovaResult true out None None None None
            else failure "No response"
        | None => failure "No response"
        end in
      match NovaAgent.tool_uses content with
      | [] => (from_content, self)
      | tools =>
          match NovaAgent.run_tools execute tools with
          | None => (failure str_e, self)
          | Some (tool_names, _) =>
              match follow_reply with
              | NovaAgent.ClientError error_msg =>
                  on_client_error self error_msg
              | NovaAgent.Failed => (failure str_e, self)
              | NovaAgent.Replied follow_content =>
                  match NovaAgent.first_text follow_content with
                  | Some out =>
                      if PyStr.truthy out
                      then (Router.mkNovaResult true out
                              (Some (PyStr.join ", " tool_names))
                              None None None, self)
                      else (from_content, self)
                  | None => (from_content, self)
                  end
              end
          end
      end
  end.

(** Everything the environment contributes to one call of [query]. *)
Record Call : Type := mkCall {
  call_use_orchestrator : option bool;
  call_processed : Processed;
  call_execute : string -> string -> option string;
  call_reply : NovaAgent.Reply;
  call_follow_reply : NovaAgent.Reply;
  call_str_e : string
}.

(** [query(text, history, context, session_id, use_orchestrator)]. *)
Definition query (self : t) (c : Call) : Router.NovaResult * t :=
  if negb (available self) then (failure LITE_MODE, self)
  else
    let should_use_orchestrator :=
      match call_use_orchestrator c with
      | Some b => b
      | None => _use_orchestrator self && _orchestrator self
      end in
    let simple :=
      _query_simple self (call_execute c) (call_reply c)
        (call_follow_reply c) (call_str_e c) in
    if should_use_orchestrator && _orchestrator self then
      match call_processed c with
      | ProcessResult success response tools_used route quality_score =>
          (Router.mkNovaResult success response
             (match tools_used with
              | [] => None
              | _ => Some (PyStr.join ", " tools_used)
              end)
             (Some quality_score) (Some route) None,
           self)
      | ProcessRaised => simple
      end
    else simple.

(** A sequence of calls on the same client. *)
Fixpoint query_all (self : t) (calls : list Call)
    : list Router.NovaResult * t :=
  match calls with
  | [] => ([], self)
  | c :: rest =>
      let '(r, self') := query self c in
      let '(rs, self'') := query_all self' rest in
      (r :: rs, self'')
  end.

End NovaClient.

(* ===================================================================== *)
(** ** Vocabulary of the properties *)
(* ===================================================================== *)

(** The customer's state key is [s]. *)
Definition in_state (s : string) (c : Customer.t) : bool :=
  String.eqb (DataSource.state_key c) s.

(** The customer passes every filter of [search] that is switched on. *)
Definition matches (state city : option string) (min_moves : option Z)
    (customer_type : option string) (has_apartment : option bool)
    (c : Customer.t) : bool :=
  (if DataSource.truthy_str state
   then in_state (PyStr.upper (default EmptyString state)) c else true)
  && (if DataSource.truthy_int min_moves
      then DataSource.moves_filter min_moves c else true)
  && (if DataSource.truthy_str city
      then DataSource.city_filter city c else true)
  && (if DataSource.truthy_str customer_type
      then DataSource.type_filter customer_type c else true)
  && (if DataSource.truthy_bool has_apartment
      then DataSource.apartment_filter c else true).

(** No two adjacent characters of the text are both uppercase letters. *)
Fixpoint no_upper_pair (s : string) : bool :=
  match s with
  | String a (String b _ as s') =>
      negb (PyStr.is_upper a && PyStr.is_upper b) && no_upper_pair s'
  | _ => true
  end.

(** The last character of the text, [prev] for the empty text. *)
Fixpoint last_char (prev : option ascii) (s : string) : option ascii :=
  match s with
  | EmptyString => prev
  | String c s' => last_char (Some c) s'
  end.

Definition is_upper_opt (c : option ascii) : bool :=
  match c with Some a => PyStr.is_upper a | None => false end.

(** The names listed before [name] in a name table. *)
Fixpoint names_before (name : string) (names : list (string * string))
    : list string :=
  match names with
  | [] => []
  | (n, _) :: rest =>
      if String.eqb n name then [] else n :: names_before name rest
  end.

(** None of the names occurs in the text. *)
Definition mentions_none (names : list string) (text_lower : string) : bool :=
  forallb (fun n => negb (PyStr.contains n text_lower)) names.

(** The compiled pattern of the state-code search. *)
Definition STATE_RE : Regex.re :=
  Eval vm_compute in Regex.compile "\b([A-Z]{2})\b".

(** The fallback answer to a call of [generate]. *)
Definition fallback_of (c : NovaAgent.Call) : NovaResponse :=
  NovaAgent._fallback_response (NovaAgent.call_query c)
    (NovaAgent.call_search c) (NovaAgent.call_knowledge c).

(** What a run of steps 3 to 5 of [route] leaves behind for [session]: no
    cache read, never the cache-hit route, and on success the two turns
    are saved and the answer is cached exactly when the session then holds
    at most two messages. *)
Definition pipeline_post (q key : string) (session : Session.t)
    (out : Response.t * Router.World * list Router.Event) : Prop :=
  let r := Router.value_of out in
  let events := Router.events_of out in
  let session' :=
    Session.add_message "assistant" (Response.response r)
      (Session.add_message "user" q session) in
  existsb Router.is_cache_get events = false /\
  Response.route r <> RouteType.CACHE_HIT /\
  (Response.success r = true ->
     In (Router.EvSessionSave session') events /\
     (In (Router.EvCacheSet key (Router.JsonResponse (Response.response r)))
         events
      <-> Z.of_nat (List.length (Session.messages session')) <= 2) /\
     (existsb Router.is_cache_set events = true
      <-> Z.of_nat (List.length (Session.messages session')) <= 2)).

(** After the two turns are appended, decide the cache test and read the
    recorded calls off the run. *)
Ltac settle_writes :=
  cbn [Session.add_message Session.messages fst snd Response.response
       Router._response];
  rewrite ?length_app; cbn [List.length];
  let L := fresh "L" in
  match goal with
  | |- context [Z.of_nat ?n <=? 2] => destruct (Z.of_nat n <=? 2) eqn:L
  end; cbn;
  [apply Z.leb_le in L | apply Z.leb_gt in L];
  repeat split; try discriminate; intros; auto 10; try lia;
  repeat match goal with H : _ \/ _ |- _ => destruct H end;
  try discriminate; try contradiction; try lia.

(** The state is a valid code or unset, and a city comes with a state. *)
Definition geo_ok (g : Geo.t) : Prop :=
  match Geo.state g with
  | Some s => In s ContextAgent.VALID_STATES
  | None => True
  end /\
  (Geo.truthy (Geo.city g) = true -> Geo.truthy (Geo.state g) = true).

(** The customer carries the record ID [k]. *)
Definition has_crid (k : string) (c : Customer.t) : bool :=
  match Customer.crid c with
  | Some k' => String.eqb k' k
  | None => false
  end.

(** [counts.get(s, 0)]. *)
Definition count_of (counts : list (string * Z)) (s : string) : Z :=
  default 0 (assoc_get s counts).

(** The customer has a non-empty state key, so the metadata counts it. *)
Definition has_state_key (c : Customer.t) : bool :=
  PyStr.truthy (DataSource.state_key c).

(** [sum(counts.values())]. *)
Definition sum_counts (counts : list (string * Z)) : Z :=
  fold_right Z.add 0 (List.map snd counts).

(** The order [sorted(..., key=count, reverse=True)] leaves between two
    neighbours. *)
Definition pair_desc (a b : string * Z) : Prop := snd b <= snd a.

(** Two index entries are in key order. *)
Definition key_le (x y : string * Customer.t) : Prop :=
  String.leb (fst x) (fst y) = true.

(** The entry's key is below [x]: the test of the binary search. *)
Definition below (x : string) (e : string * Customer.t) : bool :=
  String.ltb (fst e) x.

(** The entry's key starts with [p]: the test of the scan. *)
Definition starts (p : string) (e : string * Customer.t) : bool :=
  PyStr.startswith p (fst e).

(** The fields [autocomplete] has an index for. *)
Definition ac_field (field : string) : bool :=
  String.eqb field "address" || String.eqb field "name" || String.eqb field "city".

(** The value a record is indexed under, for such a field. *)
Definition field_value (field : string) (c : Customer.t) : option string :=
  if ac_field field then DataSource.get_text c field else None.

Definition item_value (item : DataSource.AcItem) : string :=
  match item with
  | DataSource.AcCity value _ _ => value
  | DataSource.AcRecord _ value _ _ _ => value
  end.

Definition item_key (item : DataSource.AcItem) : string :=
  PyStr.lower (item_value item).

(** What an entry of the answer says is true of the loaded records: its
    value starts with the prefix once lowercased; a city entry names the
    city and state of a loaded record with the number of records of that
    city, a record entry is the summary of a loaded record. *)
Definition item_ok (self : DataSource.t) (field p : string)
    (item : DataSource.AcItem) : Prop :=
  PyStr.startswith p (item_key item) = true /\
  match item with
  | DataSource.AcCity value state count =>
      field = "city" /\
      (exists c, In c (DataSource._customers self) /\
                 Customer.city c = Some value /\ Customer.state c = Some state) /\
      count = DataSource.city_count self (PyStr.lower value) /\ 1 <= count
  | DataSource.AcRecord crid value name city state =>
      field <> "city" /\
      exists c, In c (DataSource._customers self) /\
                DataSource.record_item field c
                = DataSource.Got (DataSource.AcRecord crid value name city state)
  end.

(** The longest prefix of [l] whose elements pass [P]. *)
Fixpoint take_while {A} (P : A -> bool) (l : list A) : list A :=
  match l with
  | [] => []
  | x :: l' => if P x then x :: take_while P l' else []
  end.

(** An index entry pairs a loaded record with its lowercased, non-empty
    value of the field. *)
Definition entry_ok (self : DataSource.t) (field : string)
    (e : string * Customer.t) : Prop :=
  In (snd e) (DataSource._customers self) /\
  exists v, DataSource.get_text (snd e) field = Some v /\
            PyStr.truthy v = true /\ fst e = PyStr.lower v.

(** The answer accounts for the entry: its city is listed, or the summary
    of its record is. *)
Definition covered (field : string) (out : list DataSource.AcItem)
    (e : string * Customer.t) : Prop :=
  if String.eqb field "city"
  then exists item, In item out /\ item_key item = fst e
  else exists item, In item out /\
                    DataSource.record_item field (snd e) = DataSource.Got item.

(** The summaries of the records, in order, up to the first that lacks a
    key. *)
Fixpoint collect (field : string) (customers : list Customer.t)
    : DataSource.Subscript (list DataSource.AcItem) :=
  match customers with
  | [] => DataSource.Got []
  | c :: rest =>
      match DataSource.record_item field c with
      | DataSource.Got item =>
          match collect field rest with
          | DataSource.Got items => DataSource.Got (item :: items)
          | DataSource.KeyError key => DataSource.KeyError key
          end
      | DataSource.KeyError key => DataSource.KeyError key
      end
  end.

(** The call is the AI query, or the semantic search that prepares it. *)
Definition is_nova_query (e : Router.Event) : bool :=
  match e with Router.EvNovaQuery _ => true | _ => false end.

Definition is_semantic_search (e : Router.Event) : bool :=
  match e with Router.EvSemanticSearch _ => true | _ => false end.

(** Split the goal and the hypotheses into their cases and close each by
    the equations at hand. *)
Ltac settle_calls :=
  repeat split; intros;
  repeat match goal with
         | H : _ /\ _ |- _ => destruct H
         | H : _ \/ _ |- _ => destruct H
         | H : is_Some _ |- _ => destruct H
         | H : ?A -> _, HA : ?A |- _ =>
             match type of A with Prop => specialize (H HA) end
         end;
  try discriminate; try congruence; try contradiction; eauto.

(** A message the converse API accepts as history: a chat role and a
    non-empty content of text blocks only. *)
Definition clean_message (msg : Message) : Prop :=
  NovaAgent.is_chat_role (role msg) = true /\
  exists blocks, content msg = CBlocks blocks /\ blocks <> [] /\
                 forallb NovaAgent.is_text blocks = true.

(** The context with another session history. *)
Definition with_history (context : QueryContext) (history : list Message)
    : QueryContext :=
  mkQueryContext history (geographic_context context) (is_follow_up context)
    (context_confidence context).

(** The words the prototype's guardrails block. *)
Definition blocked_words : list string :=
  [ "ssn"; "social security"; "credit card"; "bank account"; "password";
    "secret"; "token"; "weather"; "poem"; "story"; "joke" ].

(** The text holds [w] as a word of its own: between [pre] and [suf], with
    no word character on either side. *)
Definition stands_alone (w text : string) : Prop :=
  exists pre suf,
    text = pre ++ w ++ suf /\
    Regex.is_word_opt (last_char None pre) = false /\
    Regex.is_word_opt (Regex.head_char suf) = false.

(** The pattern has no capturing group. *)
Fixpoint group_free (r : Regex.re) : bool :=
  match r with
  | Regex.Group _ => false
  | Regex.Maybe r1 => group_free r1
  | Regex.Cat r1 r2 | Regex.Or r1 r2 => group_free r1 && group_free r2
  | _ => true
  end.

(** Every character of the text passes [P]. *)
Fixpoint all_chars (P : ascii -> bool) (s : string) : bool :=
  match s with
  | EmptyString => true
  | String c s' => P c && all_chars P s'
  end.

Definition is_user (msg : Message) : bool := String.eqb (role msg) "user".

(** A user message whose lowercased text holds one of the words. *)
Definition says_any (words : list string) (msg : Message) : bool :=
  is_user msg
  && ContextAgent.any_word words (PyStr.lower (ContextAgent._get_message_text msg)).

(** A user message whose limit is written with more digits than [int]
    converts. *)
Definition long_limit (msg : Message) : bool :=
  is_user msg
  && match Regex.search_group1 ContextAgent.LIMIT_PATTERN
             (PyStr.lower (ContextAgent._get_message_text msg)) with
     | Some digits =>
         ContextAgent.INT_MAX_STR_DIGITS <? Z.of_nat (String.length digits)
     | None => false
     end.

(** The user's message [text]. *)
Definition user_says (text : string) : Message :=
  {| role := "user"; content := CStr text |}.

(** The text a reply speaks: its first text block, when that is not
    empty. *)
Definition spoken (content : list NovaAgent.ABlock) : option string :=
  match NovaAgent.first_text content with
  | Some text => if PyStr.truthy text then Some text else None
  | None => None
  end.

(** The record's state, as stored, is [s]. *)
Definition raw_state_is (s : string) (c : Customer.t) : bool :=
  match Customer.state c with
  | Some v => String.eqb v s
  | None => false
  end.

(** The two filters of the prototype's [search], when they are on. *)
Definition moves_ok (min_moves : option Z) (c : Customer.t) : bool :=
  if DataSource.truthy_int min_moves
  then default 0 min_moves <=? default 0 (Customer.move_count c) else true.

Definition city_ok (city : option string) (c : Customer.t) : bool :=
  if DataSource.truthy_str city
  then PyStr.contains (PyStr.lower (default EmptyString city))
         (PyStr.lower (default EmptyString (Customer.city c)))
  else true.

(** The prototype's data built from the fallback records. *)
Definition fallback_data : Main.CustomerData.t :=
  match Main.CustomerData.init Main.CustomerData.FALLBACK with
  | DataSource.Got cd => cd
  | DataSource.KeyError _ => Main.CustomerData.mk [] ∅ ∅
  end.

(** The call runs the simple mode on an available client [self]. *)
Definition simple_mode (self : NovaClient.t) (c : NovaClient.Call) : Prop :=
  (match NovaClient.call_use_orchestrator c with
   | Some b => b
   | None => NovaClient._use_orchestrator self && NovaClient._orchestrator self
   end && NovaClient._orchestrator self = false)
  \/ NovaClient.call_processed c = NovaClient.ProcessRaised.

(** The simple mode meets a [ClientError] with message [error_msg] on the
    call: the first request raises it, or the follow-up request does,
    after every tool the first reply asked for has run. *)
Definition raises_client_error (c : NovaClient.Call) (error_msg : string)
    : Prop :=
  NovaClient.call_reply c = NovaAgent.ClientError error_msg
  \/ exists content,
       NovaClient.call_reply c = NovaAgent.Replied content /\
       NovaAgent.tool_uses content <> [] /\
       NovaAgent.run_tools (NovaClient.call_execute c)
         (NovaAgent.tool_uses content) <> None /\
       NovaClient.call_follow_reply c = NovaAgent.ClientError error_msg.

(* ===================================================================== *)
(** * Properties *)
(* ===================================================================== *)

(** ** The embedding on the scenarios of the specification *)

Example round3_below_tie :
  PyFloat.round3 (0.95 * 0.85)%float = 0.807%float.
Proof. vm_compute. reflexivity. Qed.

Example split_words :
  PyStr.split "  show  me CRID-1 " = ["show"; "me"; "CRID-1"].
Proof. reflexivity. Qed.

Example zfill_widths :
  PyStr.zfill 6 "42" = "000042" /\ PyStr.zfill 6 "-5" = "-00005"
  /\ PyStr.zfill 3 "12345" = "12345".
Proof. repeat split. Qed.

Example search_examples :
  Regex.search "\bcrid[-\s]?\d+" "show me crid-000042" = true
  /\ Regex.search "\bcrid[-\s]?\d+" "xcrid-000042" = false
  /\ Regex.search "\bvs\.?\b" "nv vs. ca" = true
  /\ Regex.search "\bit\b" "item" = false.
Proof. repeat split. Qed.

Example group_examples :
  Regex.search_group1 "\b([A-Z]{2})\b" "customers in NV or CA" = Some "NV"
  /\ Regex.search_group1 "\b(\d{5})(?:-\d{4})?\b" "zip 89101-1234 or 12345"
     = Some "89101"
  /\ Regex.search_group1
       ("([A-Z][a-z]+(?:\s+[A-Z][a-z]+)?)\s*,?\s*" ++ "NV")
       "people in Las Vegas, NV" = Some "Las Vegas".
Proof. repeat split. Qed.

(** Every pattern of the tables is inside the parsed fragment. *)
Example patterns_compile :
  forallb (fun p => match Regex.compile p with Regex.Fail => false | _ => true end)
    (IntentAgent.LOOKUP_PATTERNS ++ IntentAgent.STATS_PATTERNS
     ++ IntentAgent.SEARCH_PATTERNS ++ IntentAgent.ANALYSIS_PATTERNS
     ++ IntentAgent.COMPARISON_PATTERNS ++ IntentAgent.RECOMMENDATION_PATTERNS
     ++ IntentAgent.ADDRESS_PATTERNS ++ IntentAgent.KNOWLEDGE_PATTERNS
     ++ IntentAgent.COMPLEX_INDICATORS ++ IntentAgent.MEDIUM_INDICATORS
     ++ ContextAgent.FOLLOW_UP_PATTERNS
     ++ List.map fst Guardrails.BLOCKED_PATTERNS
     ++ [IntentAgent.CRID_PATTERN; "\b([A-Z]{2})\b"; "\b(\d{5})(?:-\d{4})?\b";
         "([A-Z][a-z]+(?:\s+[A-Z][a-z]+)?)\s*,?\s*NV"])%list = true.
Proof. vm_compute. reflexivity. Qed.

(** Scenario 1: a record-ID query is a LOOKUP with the lookup tool. *)
Example scenario_lookup :
  IntentAgent.classify "Show me customer CRID-000042" =
  {| primary_intent := QueryIntent.LOOKUP;
     secondary_intents := [QueryIntent.SEARCH];
     confidence := 0.95%float;
     domains := [QueryDomain.CUSTOMER];
     complexity := QueryComplexity.SIMPLE;
     suggested_tools := ["lookup_crid"];
     raw_signals := ["lookup"] |}.
Proof. vm_compute. reflexivity. Qed.

(** Scenario 2: a count query is STATS, with the state resolved to NV. *)
Example scenario_stats :
  let r := IntentAgent.classify "how many customers in Nevada" in
  primary_intent r = QueryIntent.STATS
  /\ domains r = [QueryDomain.CUSTOMER; QueryDomain.STATS]
  /\ Geo.state (ContextAgent._extract_geographic []
                  "how many customers in Nevada") = Some "NV".
Proof. vm_compute. repeat split. Qed.

Example geographic_examples :
  ContextAgent._extract_geographic [] "customers in Las Vegas, NV 89101"
  = Geo.mk (Some "NV") (Some "Las Vegas") (Some "89101")
  /\ ContextAgent._extract_geographic [Demo.turn] "and Reno"
     = Geo.mk (Some "NV") None None.
Proof. vm_compute. repeat split. Qed.

Example metadata_example :
  DataSourceMetadata.available_states (DataSource.metadata Demo.source)
  = ["CA"; "NV"]
  /\ DataSourceMetadata.state_counts (DataSource.metadata Demo.source)
     = [("NV", 2); ("CA", 3)].
Proof. vm_compute. repeat split. Qed.

Example fallback_example :
  response_text
    (NovaAgent._fallback_response "q"
       (SearchResult.mk [Demo.customer "CRID-1" "NV" "Reno" 1] 7)
       (KnowledgeContext.mk []))
  = PyStr.join Router.newline
      [ "Found 7 customer(s):";
        "  - CRID-1: Pat Doe (Reno, NV)";
        "  ... and 2 more" ].
Proof. vm_compute. reflexivity. Qed.

(** Scenario 1 through the router: the database answers, the turn is
    saved and, the session being new, the answer is cached. *)
Example scenario_database_route :
  let out := Demo.route "Show me customer CRID-000042" false None None Demo.world in
  let answer := "Customer Pat Doe (CRID-000042): Reno, NV. Moved 3 times." in
  Response.route (Router.value_of out) = RouteType.DATABASE
  /\ Response.tool (Router.value_of out) = Some "lookup_crid"
  /\ Response.response (Router.value_of out) = answer
  /\ Router.cache_store (Router.world_of out)
       !! "show me customer crid-000042" = Some (Router.JsonResponse answer)
  /\ List.length (Router.events_of out) = 6%nat.
Proof. vm_compute. repeat split. Qed.

(** A second turn in a session with history is answered but not cached. *)
Example scenario_follow_up_not_cached :
  let out := Demo.route "tell me more about them" false None (Some "s1") Demo.world in
  Response.route (Router.value_of out) = RouteType.NOVA
  /\ Response.success (Router.value_of out) = true
  /\ Router.cache_store (Router.world_of out) = ∅
  /\ existsb Router.is_cache_get (Router.events_of out) = false
  /\ existsb Router.is_cache_set (Router.events_of out) = false.
Proof. vm_compute. repeat split. Qed.

(* --------------------------------------------------------------------- *)
(** ** Confidence values *)
(* --------------------------------------------------------------------- *)

(** [_detect_intent] returns one of five confidences and records exactly
    one matched category. *)
Lemma detect_intent_cases (q : string) :
  let r := IntentAgent._detect_intent q [] in
  In (snd (fst r)) [0.95; 0.8; 0.85; 0.75; 0.6]%float
  /\ List.length (snd r) = 1%nat.
Proof.
  unfold IntentAgent._detect_intent.
  repeat match goal with
         | |- context [if ?b then _ else _] => destruct b
         end; simpl; tauto.
Qed.

Lemma intent_bounds (query : string) :
  let c := confidence (IntentAgent.classify query) in
  (0 <=? c)%float = true /\ (c <=? 1)%float = true.
Proof.
  unfold IntentAgent.classify.
  set (q := PyStr.strip (PyStr.lower query)).
  pose proof (detect_intent_cases q) as H.
  destruct (IntentAgent._detect_intent q []) as [[i c] sig].
  cbn [fst snd] in H. destruct H as [Hc Hl].
  cbn [confidence]. unfold IntentAgent._calculate_confidence.
  rewrite Hl. change (1 <? Z.of_nat 1) with false. cbv iota.
  destruct (PyStr.word_count q <? 3), (20 <? PyStr.word_count q);
    simpl in Hc; intuition subst; vm_compute; auto.
Qed.

Lemma geo_count_cases (g : Geo.t) :
  let n := Z.of_nat (List.length (List.filter Geo.truthy (Geo.values g))) in
  n = 0 \/ n = 1 \/ n = 2 \/ n = 3.
Proof.
  destruct g as [s c z]. unfold Geo.values.
  cbn [Geo.state Geo.city Geo.zip_code List.filter].
  destruct (Geo.truthy s), (Geo.truthy c), (Geo.truthy z); cbn; lia.
Qed.

Lemma history_weight_cases (history : list Message) :
  history <> [] ->
  let m := Z.min (Z.of_nat (List.length history)) 5 in
  m = 1 \/ m = 2 \/ m = 3 \/ m = 4 \/ m = 5.
Proof.
  intros H. destruct history as [|x l]; [congruence|]. cbn [List.length]. lia.
Qed.

Lemma context_bounds (history : list Message) (g : Geo.t) (f : bool) :
  let c := ContextAgent._calculate_confidence history g f in
  (0 <=? c)%float = true /\ (c <=? 1)%float = true.
Proof.
  unfold ContextAgent._calculate_confidence.
  pose proof (geo_count_cases g) as Hg. cbv zeta in Hg.
  set (n := Z.of_nat (List.length (List.filter Geo.truthy (Geo.values g)))) in *.
  destruct history as [|x l].
  - cbn [ContextAgent.nonempty].
    destruct f; destruct Hg as [-> | [-> | [-> | ->]]]; vm_compute; auto.
  - pose proof (history_weight_cases (x :: l) ltac:(discriminate)) as Hm.
    cbv zeta in Hm.
    set (m := Z.min (Z.of_nat (List.length (x :: l))) 5) in *.
    cbn [ContextAgent.nonempty].
    destruct f; destruct Hg as [-> | [-> | [-> | ->]]];
      destruct Hm as [-> | [-> | [-> | [-> | ->]]]]; vm_compute; auto.
Qed.

Lemma nova_bounds (response : string) (tools : list string) :
  let c := NovaAgent._estimate_confidence response tools in
  (0.1 <=? c)%float = true /\ (c <=? 1)%float = true.
Proof.
  unfold NovaAgent._estimate_confidence.
  destruct tools; destruct (existsb _ _); vm_compute; auto.
Qed.

(** C7: every confidence the agents produce lies in [0,1]: the confidence
    of [IntentAgent.classify], the context confidence of
    [ContextAgent.extract] and the confidence estimate of
    [NovaAgent._estimate_confidence], for every input. *)
Theorem confidence_in_unit_interval :
  (forall query : string,
     let c := confidence (IntentAgent.classify query) in
     (0 <=? c)%float = true /\ (c <=? 1)%float = true)
  /\ (forall (session_manager : option (gmap string Session.t))
        (session_id : option string) (query : string) (intent : IntentResult),
       let c := context_confidence
                  (ContextAgent.extract session_manager session_id query intent) in
       (0 <=? c)%float = true /\ (c <=? 1)%float = true)
  /\ (forall (response : string) (tools_used : list string),
       let c := NovaAgent._estimate_confidence response tools_used in
       (0 <=? c)%float = true /\ (c <=? 1)%float = true).
Proof.
  split; [exact intent_bounds|]. split.
  - intros mgr sid query intent. unfold ContextAgent.extract.
    cbn [context_confidence]. apply context_bounds.
  - intros response tools c. subst c.
    unfold NovaAgent._estimate_confidence.
    destruct tools; destruct (existsb _ _); vm_compute; auto.
Qed.

(* --------------------------------------------------------------------- *)
(** ** Follow-up detection and the context confidence *)
(* --------------------------------------------------------------------- *)

Lemma short_query_follow_up (query : string) (history : list Message) :
  PyStr.word_count query <= 3 -> history <> [] ->
  ContextAgent._detect_follow_up query history = true.
Proof.
  intros Hw Hh. unfold ContextAgent._detect_follow_up.
  destruct history; [congruence|]. cbn [ContextAgent.nonempty negb].
  destruct (existsb _ _); [reflexivity|].
  apply Z.leb_le in Hw. rewrite Hw. reflexivity.
Qed.

(** C1, as the code has it: for a query of fewer than 3 words, extraction
    with an empty history gives [is_follow_up = false] (the short-query
    rule needs a non-empty history), extraction with at least one prior
    turn gives [is_follow_up = true], and the context confidence with the
    empty history is strictly below the one with history. *)
Theorem extract_short_query_history
    (mgr0 mgr1 : option (gmap string Session.t)) (sid0 sid1 : option string)
    (query : string) (intent : IntentResult) :
  PyStr.word_count query < 3 ->
  ContextAgent._get_session_history mgr0 sid0 = [] ->
  ContextAgent._get_session_history mgr1 sid1 <> [] ->
  let c0 := ContextAgent.extract mgr0 sid0 query intent in
  let c1 := ContextAgent.extract mgr1 sid1 query intent in
  is_follow_up c0 = false /\ is_follow_up c1 = true /\
  (context_confidence c0 <? context_confidence c1)%float = true.
Proof.
  intros Hw H0 H1. unfold ContextAgent.extract. rewrite H0.
  set (h := ContextAgent._get_session_history mgr1 sid1) in *.
  cbn [is_follow_up context_confidence].
  rewrite (short_query_follow_up query h) by (lia || assumption).
  change (ContextAgent._detect_follow_up query []) with false.
  split; [reflexivity|]. split; [reflexivity|].
  unfold ContextAgent._calculate_confidence.
  pose proof (geo_count_cases (ContextAgent._extract_geographic [] query)) as Hg0.
  pose proof (geo_count_cases (ContextAgent._extract_geographic h query)) as Hg1.
  pose proof (history_weight_cases h H1) as Hm.
  cbv zeta in Hg0, Hg1, Hm.
  destruct h as [|x l]; [congruence|].
  cbn [ContextAgent.nonempty andb negb].
  destruct Hg0 as [-> | [-> | [-> | ->]]];
    destruct Hg1 as [-> | [-> | [-> | ->]]];
    destruct Hm as [-> | [-> | [-> | [-> | ->]]]]; vm_compute; reflexivity.
Qed.

Lemma extract_short_query_history_witness :
  let intent := IntentAgent.classify "and Reno" in
  let c0 := ContextAgent.extract None None "and Reno" intent in
  let c1 := ContextAgent.extract (Some Demo.store) (Some "s1") "and Reno" intent in
  is_follow_up c0 = false /\ is_follow_up c1 = true /\
  (context_confidence c0 <? context_confidence c1)%float = true.
Proof.
  apply (extract_short_query_history None (Some Demo.store) None (Some "s1")).
  - vm_compute. reflexivity.
  - reflexivity.
  - vm_compute. discriminate.
Defined.

(** C1 as stated fails: the one-word query "hello" with an empty history
    is not a follow-up. *)
Lemma extract_empty_history_counterexample :
  PyStr.word_count "hello" < 3 /\
  ContextAgent._get_session_history None None = [] /\
  is_follow_up
    (ContextAgent.extract None None "hello" (IntentAgent.classify "hello"))
  <> true.
Proof. vm_compute. repeat split; discriminate. Qed.

(* --------------------------------------------------------------------- *)
(** ** Record-ID queries *)
(* --------------------------------------------------------------------- *)

(** Dropping a leading word boundary can only add matches. *)
Lemma match_here_drop_boundary (r : Regex.re) prev s g :
  Regex.match_here (Regex.Cat Regex.WordB r) prev s = Some g ->
  Regex.match_here r prev s = Some g.
Proof.
  unfold Regex.match_here. cbn [Regex.run].
  destruct (Regex.boundary prev s); [auto | discriminate].
Qed.

Lemma search_from_drop_boundary (r : Regex.re) s : forall prev,
  Regex.search_from (Regex.Cat Regex.WordB r) prev s <> None ->
  Regex.search_from r prev s <> None.
Proof.
  induction s as [|c s IH]; intros prev; cbn [Regex.search_from].
  - destruct (Regex.match_here (Regex.Cat Regex.WordB r) prev "") eqn:E;
      [|congruence].
    apply match_here_drop_boundary in E. rewrite E. congruence.
  - destruct (Regex.match_here (Regex.Cat Regex.WordB r) prev (String c s)) eqn:E.
    + apply match_here_drop_boundary in E. rewrite E. congruence.
    + intros H. destruct (Regex.match_here r prev (String c s)); [congruence|].
      now apply IH.
Qed.

(** A match of the first LOOKUP pattern is a match of the pattern of the
    extra check. *)
Lemma crid_word_implies_crid (text : string) :
  Regex.search "\bcrid[-\s]?\d+" text = true ->
  Regex.search IntentAgent.CRID_PATTERN text = true.
Proof.
  unfold Regex.search, IntentAgent.CRID_PATTERN.
  set (r := Regex.compile "crid[-\s]?\d+").
  replace (Regex.compile "\bcrid[-\s]?\d+") with (Regex.Cat Regex.WordB r)
    by (vm_compute; reflexivity).
  intros H.
  pose proof (search_from_drop_boundary r text None) as D.
  destruct (Regex.search_from (Regex.Cat Regex.WordB r) None text);
    [|discriminate].
  destruct (Regex.search_from r None text); [reflexivity|].
  exfalso. apply D; congruence.
Qed.

(** C2, as the code has it: when the normalised query contains a record-ID
    token, intent detection gives LOOKUP with confidence 0.95 and records
    one matched category, so the primary intent is LOOKUP, and the final
    confidence is 0.855 for fewer than 3 words, 0.807 for more than 20
    words and 0.95 otherwise; in every case it is at least 0.8. *)
Theorem classify_record_id (query : string) :
  let q := PyStr.strip (PyStr.lower query) in
  Regex.search "\bcrid[-\s]?\d+" q = true ->
  let r := IntentAgent.classify query in
  IntentAgent._detect_intent q [] = (QueryIntent.LOOKUP, 0.95%float, ["lookup"]) /\
  primary_intent r = QueryIntent.LOOKUP /\
  confidence r =
    (if PyStr.word_count q <? 3 then 0.855%float
     else if 20 <? PyStr.word_count q then 0.807%float else 0.95%float) /\
  (0.8 <=? confidence r)%float = true.
Proof.
  intros q H r. subst r.
  assert (Hd : IntentAgent._detect_intent q []
               = (QueryIntent.LOOKUP, 0.95%float, ["lookup"])).
  { unfold IntentAgent._detect_intent.
    assert (Hl : IntentAgent._match_patterns q IntentAgent.LOOKUP_PATTERNS = true).
    { unfold IntentAgent._match_patterns, IntentAgent.LOOKUP_PATTERNS.
      cbn [existsb]. rewrite H. reflexivity. }
    rewrite Hl, (crid_word_implies_crid q H). reflexivity. }
  split; [exact Hd|].
  unfold IntentAgent.classify. fold q. rewrite Hd.
  cbn [primary_intent confidence].
  split; [reflexivity|].
  unfold IntentAgent._calculate_confidence.
  change (1 <? Z.of_nat (List.length ["lookup"])) with false.
  cbv iota.
  destruct (PyStr.word_count q <? 3) eqn:E1, (20 <? PyStr.word_count q) eqn:E2.
  - apply Z.ltb_lt in E1, E2. lia.
  - vm_compute. auto.
  - vm_compute. auto.
  - vm_compute. auto.
Qed.

Lemma classify_record_id_witness :
  let r := IntentAgent.classify "Show me customer CRID-000042" in
  IntentAgent._detect_intent "show me customer crid-000042" []
  = (QueryIntent.LOOKUP, 0.95%float, ["lookup"]) /\
  primary_intent r = QueryIntent.LOOKUP /\
  confidence r = 0.95%float /\
  (0.8 <=? confidence r)%float = true.
Proof.
  apply (classify_record_id "Show me customer CRID-000042").
  vm_compute. reflexivity.
Defined.

(** C2 as stated fails: the query "CRID-000042" matches the record-ID
    pattern of the extra check, yet its final confidence is 0.855, not
    0.95. *)
Lemma classify_short_record_id_counterexample :
  Regex.search IntentAgent.CRID_PATTERN
    (PyStr.strip (PyStr.lower "CRID-000042")) = true /\
  primary_intent (IntentAgent.classify "CRID-000042") = QueryIntent.LOOKUP /\
  confidence (IntentAgent.classify "CRID-000042") = 0.855%float /\
  confidence (IntentAgent.classify "CRID-000042") <> 0.95%float.
Proof.
  repeat split; try (vm_compute; reflexivity).
  intros E.
  assert (X : (confidence (IntentAgent.classify "CRID-000042") =? 0.95)%float
              = true) by (rewrite E; vm_compute; reflexivity).
  vm_compute in X. discriminate.
Qed.

(* --------------------------------------------------------------------- *)
(** ** State names and state codes *)
(* --------------------------------------------------------------------- *)

Lemma upper_set (a : ascii) :
  Regex.cset_mem [Regex.IRange "A" "Z"] a = PyStr.is_upper a.
Proof. unfold Regex.cset_mem. cbn [existsb Regex.item_mem]. apply orb_false_r. Qed.

Lemma state_re_no_match prev s :
  match s with
  | String a (String b _) => PyStr.is_upper a && PyStr.is_upper b = false
  | _ => True
  end ->
  Regex.match_here STATE_RE prev s = None.
Proof.
  unfold Regex.match_here, STATE_RE. cbn [Regex.run].
  destruct (Regex.boundary prev s); [|reflexivity].
  destruct s as [|a [|b s]]; [reflexivity| |].
  - intros _. destruct (Regex.cset_mem _ a); reflexivity.
  - rewrite !upper_set. intros H.
    destruct (PyStr.is_upper a); [|reflexivity].
    destruct (PyStr.is_upper b); [discriminate|reflexivity].
Qed.

Lemma search_no_upper_pair s : forall prev,
  no_upper_pair s = true -> Regex.search_from STATE_RE prev s = None.
Proof.
  induction s as [|a s IH]; intros prev H.
  - cbn [Regex.search_from]. now rewrite state_re_no_match.
  - cbn [Regex.search_from]. rewrite state_re_no_match.
    + apply IH. destruct s; [reflexivity|]. cbn [no_upper_pair] in H.
      apply andb_prop in H. tauto.
    + destruct s; [exact I|]. cbn [no_upper_pair] in H.
      apply andb_prop in H. destruct H as [H _]. now apply negb_true_iff in H.
Qed.

Lemma consumed_two a b s :
  Regex.consumed (String a (String b s)) s = String a (String b EmptyString).
Proof.
  unfold Regex.consumed. cbn [String.length].
  replace (S (S (String.length s)) - String.length s)%nat with 2%nat by lia.
  destruct s; reflexivity.
Qed.

Lemma not_word_not_upper c : PyStr.is_word c = false -> PyStr.is_upper c = false.
Proof. unfold PyStr.is_word. destruct (PyStr.is_upper c); [discriminate|reflexivity]. Qed.

Lemma search_finds_code (suf : string) :
  Regex.is_word_opt (Regex.head_char suf) = false ->
  forall pre prev,
  no_upper_pair pre = true ->
  Regex.is_word_opt (last_char prev pre) = false ->
  Regex.search_from STATE_RE prev (pre ++ "NV" ++ suf) = Some (Some "NV").
Proof.
  intros Hs. induction pre as [|a pre IH]; intros prev Hp Hl.
  - cbn [last_char] in Hl.
    change ("" ++ "NV" ++ suf) with (String "N" (String "V" suf)).
    cbn [Regex.search_from].
    unfold Regex.match_here, STATE_RE. cbn [Regex.run].
    unfold Regex.boundary at 1. rewrite Hl. cbn [Regex.head_char Regex.is_word_opt].
    change (PyStr.is_word "N") with true. cbn [xorb].
    rewrite !upper_set. change (PyStr.is_upper "N") with true.
    change (PyStr.is_upper "V") with true. cbv iota.
    unfold Regex.boundary. rewrite Hs. cbn [Regex.is_word_opt].
    change (PyStr.is_word "V") with true. cbn [xorb].
    rewrite consumed_two. reflexivity.
  - change ((String a pre) ++ "NV" ++ suf) with (String a (pre ++ "NV" ++ suf)).
    cbn [Regex.search_from]. rewrite state_re_no_match.
    + apply IH.
      * destruct pre; [reflexivity|]. cbn [no_upper_pair] in Hp.
        apply andb_prop in Hp. tauto.
      * exact Hl.
    + destruct pre as [|b pre].
      * cbn [String.append]. cbn [last_char] in Hl. cbn [Regex.is_word_opt] in Hl.
        rewrite (not_word_not_upper a Hl). reflexivity.
      * cbn [String.append]. cbn [no_upper_pair] in Hp.
        apply andb_prop in Hp. destruct Hp as [Hp _]. now apply negb_true_iff in Hp.
Qed.

Lemma no_upper_pair_app a : forall prev b,
  no_upper_pair a = true -> no_upper_pair b = true ->
  is_upper_opt (last_char prev a) && is_upper_opt (Regex.head_char b) = false ->
  (a = EmptyString -> is_upper_opt prev && is_upper_opt (Regex.head_char b) = false) ->
  no_upper_pair (a ++ b) = true.
Proof.
  induction a as [|x a IH]; intros prev b Ha Hb Hl _.
  - exact Hb.
  - destruct a as [|y a].
    + cbn [last_char] in Hl. destruct b as [|z b]; [reflexivity|].
      change (String x "" ++ String z b) with (String x (String z b)).
      cbn [is_upper_opt Regex.head_char] in Hl.
      change (no_upper_pair (String x (String z b)))
        with (negb (PyStr.is_upper x && PyStr.is_upper z) && no_upper_pair (String z b)).
      rewrite Hl, Hb. reflexivity.
    + cbn [no_upper_pair] in Ha. apply andb_prop in Ha. destruct Ha as [Ha1 Ha2].
      change (String x (String y a) ++ b) with (String x (String y (a ++ b))).
      change (no_upper_pair (String x (String y (a ++ b))))
        with (negb (PyStr.is_upper x && PyStr.is_upper y) && no_upper_pair (String y (a ++ b))).
      rewrite Ha1. cbn [andb].
      change (String y (a ++ b)) with ((String y a) ++ b).
      apply (IH (Some x)); auto. discriminate.
Qed.

Lemma lower_app a b : PyStr.lower (a ++ b) = PyStr.lower a ++ PyStr.lower b.
Proof.
  unfold PyStr.lower. induction a as [|x a IH]; [reflexivity|].
  change (String x a ++ b) with (String x (a ++ b)).
  cbn [PyStr.map_chars]. rewrite IH. reflexivity.
Qed.

Lemma startswith_app n b : PyStr.startswith n (n ++ b) = true.
Proof.
  induction n as [|x n IH]; [reflexivity|].
  change (String x n ++ b) with (String x (n ++ b)).
  cbn [PyStr.startswith]. rewrite Ascii.eqb_refl. exact IH.
Qed.

Lemma contains_app_r n a b :
  PyStr.contains n b = true -> PyStr.contains n (a ++ b) = true.
Proof.
  intros H. induction a as [|x a IH]; [exact H|].
  change (String x a ++ b) with (String x (a ++ b)).
  cbn [PyStr.contains]. rewrite IH. apply orb_true_r.
Qed.

Lemma contains_infix n a b : PyStr.contains n (a ++ n ++ b) = true.
Proof.
  apply contains_app_r. destruct (n ++ b) eqn:E; cbn [PyStr.contains];
  rewrite <- E, startswith_app; reflexivity.
Qed.

Lemma first_state_name_at names : forall name text_lower,
  mentions_none (names_before name names) text_lower = true ->
  PyStr.contains name text_lower = true ->
  ContextAgent.first_state_name names text_lower = assoc_get name names.
Proof.
  induction names as [|[n c] rest IH]; intros name t Hn Hc; [reflexivity|].
  cbn [ContextAgent.first_state_name assoc_get names_before] in *.
  destruct (String.eqb n name) eqn:E.
  - apply String.eqb_eq in E. subst n. rewrite Hc. reflexivity.
  - cbn [mentions_none forallb] in Hn. apply andb_prop in Hn. destruct Hn as [H1 H2].
    apply negb_true_iff in H1. rewrite H1. now apply IH.
Qed.

(** C8, as the code has it: two queries that differ only in carrying
    "Nevada" or "NV" at the same place both give the state code "NV",
    provided the code stands as a token of its own (no word character
    next to it), the rest of the query has no two adjacent uppercase
    letters, and no state name listed before "nevada" occurs in the
    lowercased query. *)
Theorem nevada_and_code_agree (pre suf : string) :
  no_upper_pair pre = true ->
  no_upper_pair suf = true ->
  Regex.is_word_opt (last_char None pre) = false ->
  Regex.is_word_opt (Regex.head_char suf) = false ->
  mentions_none (names_before "nevada" ContextAgent.STATE_NAMES)
    (PyStr.lower (pre ++ "Nevada" ++ suf)) = true ->
  Geo.state (ContextAgent._extract_geographic [] (pre ++ "Nevada" ++ suf)) = Some "NV" /\
  Geo.state (ContextAgent._extract_geographic [] (pre ++ "NV" ++ suf)) = Some "NV".
Proof.
  intros Hp Hs Hl Hh Hn.
  unfold ContextAgent._extract_geographic. cbn [List.rev List.map fold_left].
  unfold ContextAgent.geo_step. cbn [Geo.state Geo.truthy negb].
  unfold Regex.search_group1.
  change (Regex.compile "\b([A-Z]{2})\b") with STATE_RE.
  split.
  - rewrite search_no_upper_pair.
    + rewrite (first_state_name_at _ "nevada"); [reflexivity | exact Hn |].
      rewrite !lower_app. apply contains_infix.
    + apply (no_upper_pair_app pre None); auto.
      * destruct suf as [|z [|z' suf]]; [reflexivity|reflexivity|].
        cbn [String.append no_upper_pair] in *. 
        change (PyStr.is_upper "a") with false. change (PyStr.is_upper "N") with true.
        change (PyStr.is_upper "e") with false. change (PyStr.is_upper "v") with false.
        change (PyStr.is_upper "d") with false. cbn [andb negb]. exact Hs.
      * destruct (last_char None pre); [|reflexivity].
        cbn [Regex.is_word_opt] in Hl. cbn [is_upper_opt]. 
        rewrite (not_word_not_upper _ Hl). reflexivity.
  - rewrite (search_finds_code suf Hh pre None Hp Hl). reflexivity.
Qed.

Lemma nevada_and_code_agree_witness :
  Geo.state (ContextAgent._extract_geographic [] ("customers in " ++ "Nevada" ++ "")) = Some "NV" /\
  Geo.state (ContextAgent._extract_geographic [] ("customers in " ++ "NV" ++ "")) = Some "NV".
Proof.
  apply (nevada_and_code_agree "customers in " ""); vm_compute; reflexivity.
Defined.

(** C8 as stated fails: with "Arkansas or " in front, the name query gives
    AR and the code query NV; with "US customers in " in front, the name
    query gives NV and the code query no state at all. *)
Lemma nevada_code_counterexample :
  Geo.state (ContextAgent._extract_geographic [] ("Arkansas or " ++ "Nevada")) = Some "AR" /\
  Geo.state (ContextAgent._extract_geographic [] ("Arkansas or " ++ "NV")) = Some "NV" /\
  Geo.state (ContextAgent._extract_geographic [] ("US customers in " ++ "Nevada")) = Some "NV" /\
  Geo.state (ContextAgent._extract_geographic [] ("US customers in " ++ "NV")) = None.
Proof. vm_compute. repeat split. Qed.

(* --------------------------------------------------------------------- *)
(** ** The data source *)
(* --------------------------------------------------------------------- *)

Lemma filter_snoc {A} (P : A -> bool) l x :
  List.filter P (l ++ [x])%list = (List.filter P l ++ (if P x then [x] else []))%list.
Proof. induction l as [|y l IH]; cbn; [destruct (P x); reflexivity|]. rewrite IH. destruct (P y); reflexivity. Qed.

Lemma fold_left_snoc {A B} (f : A -> B -> A) l x a :
  fold_left f (l ++ [x])%list a = f (fold_left f l a) x.
Proof. apply fold_left_app. Qed.

Lemma by_state_spec (data : list Customer.t) (s : string) :
  fold_left DataSource.index_state data (∅ : gmap string (list Customer.t)) !! s =
  let l := List.filter (in_state s) data in
  if PyStr.truthy s && ContextAgent.nonempty l then Some l else None.
Proof.
  induction data as [|c data IH] using rev_ind.
  - cbn. rewrite lookup_empty. now rewrite andb_false_r.
  - rewrite fold_left_snoc, filter_snoc. cbv zeta in *.
    set (m := fold_left DataSource.index_state data ∅) in *.
    set (l := List.filter (in_state s) data) in *.
    unfold DataSource.index_state.
    set (k := DataSource.state_key c).
    replace (in_state s c) with (String.eqb k s) by reflexivity.
    destruct (String.eqb k s) eqn:E.
    + apply String.eqb_eq in E. subst s.
      destruct (PyStr.truthy k) eqn:T.
      * rewrite lookup_insert_eq. rewrite IH. cbn [andb].
        destruct l; cbn; reflexivity.
      * rewrite IH. reflexivity.
    + apply String.eqb_neq in E. rewrite app_nil_r.
      destruct (PyStr.truthy k); [rewrite lookup_insert_ne by exact E|]; exact IH.
Qed.

Lemma assoc_get_update {V} key f (d : list (string * V)) s :
  assoc_get s (assoc_update key f d) =
  if String.eqb key s then Some (f (assoc_get key d)) else assoc_get s d.
Proof.
  induction d as [|[k v] d IH]; cbn [assoc_update assoc_get].
  - destruct (String.eqb key s); reflexivity.
  - destruct (String.eqb k key) eqn:E.
    + apply String.eqb_eq in E. subst k. cbn [assoc_get].
      destruct (String.eqb key s); reflexivity.
    + cbn [assoc_get]. rewrite IH.
      destruct (String.eqb k s) eqn:E2; [|reflexivity].
      apply String.eqb_eq in E2. subst k. rewrite String.eqb_sym, E. reflexivity.
Qed.

Lemma state_counts_spec (data : list Customer.t) (s : string) :
  assoc_get s (fold_left DataSource.count_state data []) =
  let n := Z.of_nat (List.length (List.filter (in_state s) data)) in
  if PyStr.truthy s && (0 <? n) then Some n else None.
Proof.
  induction data as [|c data IH] using rev_ind.
  - cbn. now rewrite andb_false_r.
  - rewrite fold_left_snoc, filter_snoc. cbv zeta in *.
    set (d := fold_left DataSource.count_state data []) in *.
    set (l := List.filter (in_state s) data) in *.
    unfold DataSource.count_state.
    set (k := DataSource.state_key c).
    replace (in_state s c) with (String.eqb k s) by reflexivity.
    destruct (String.eqb k s) eqn:E.
    + apply String.eqb_eq in E. subst s.
      destruct (PyStr.truthy k) eqn:T.
      * rewrite assoc_get_update, String.eqb_refl, IH. cbn [andb].
        rewrite length_app. cbn [List.length].
        destruct (0 <? Z.of_nat (List.length l)) eqn:P.
        -- cbn [default id].
           assert ((0 <? Z.of_nat (List.length l + 1)) = true) as ->
             by (apply Z.ltb_lt; lia).
           f_equal. lia.
        -- apply Z.ltb_ge in P. assert (List.length l = 0%nat) as -> by lia. reflexivity.
      * rewrite IH. reflexivity.
    + rewrite app_nil_r.
      destruct (PyStr.truthy k); [rewrite assoc_get_update, E|]; exact IH.
Qed.

Lemma insert_desc_perm x l : Permutation (insert_desc x l) (x :: l).
Proof.
  induction l as [|y l IH]; cbn [insert_desc]; [reflexivity|].
  destruct (snd y <=? snd x); [reflexivity|].
  rewrite IH. apply perm_swap.
Qed.

Lemma sorted_desc_perm l : Permutation (sorted_desc l) l.
Proof.
  unfold sorted_desc. induction l as [|x l IH]; cbn [fold_right]; [reflexivity|].
  rewrite insert_desc_perm. now constructor.
Qed.

Lemma assoc_get_in {V} s (d : list (string * V)) :
  In s (List.map fst d) <-> assoc_get s d <> None.
Proof.
  induction d as [|[k v] d IH]; cbn [List.map In assoc_get fst].
  - tauto.
  - destruct (String.eqb k s) eqn:E.
    + apply String.eqb_eq in E. split; [congruence | auto].
    + apply String.eqb_neq in E. rewrite <- IH. tauto.
Qed.

(** *** The structured answer for a state that is not loaded *)

Lemma pos_length_nonempty {A} (l : list A) :
  (0 <? Z.of_nat (List.length l)) = ContextAgent.nonempty l.
Proof. destruct l; [reflexivity|]. apply Z.ltb_lt. cbn [List.length]. lia. Qed.


Lemma available_states_spec (data : list Customer.t) (s : string) :
  In s (DataSourceMetadata.available_states (DataSource.metadata (DataSource.load data)))
  <-> is_Some (DataSource._by_state (DataSource.load data) !! s).
Proof.
  cbn [DataSource.load DataSource.metadata DataSource._metadata default
       DataSource._build_indexes DataSource._by_state DataSource._customers
       DataSource._build_metadata DataSourceMetadata.available_states from_option id].
  rewrite (Permutation_in' eq_refl (Permutation_map fst (sorted_desc_perm _))).
  rewrite assoc_get_in, state_counts_spec, by_state_spec. cbv zeta.
  set (l := List.filter (in_state s) data).
  destruct (PyStr.truthy s); cbn [andb].
  - rewrite pos_length_nonempty. destruct l as [|c l]; cbn [ContextAgent.nonempty].
    + split; [congruence | intros [? ?]; discriminate].
    + split; [eauto | congruence].
  - split; [congruence | intros [? ?]; discriminate].
Qed.

Lemma state_counts_agree (data : list Customer.t) (s : string) (l : list Customer.t) :
  DataSource._by_state (DataSource.load data) !! s = Some l ->
  assoc_get s (DataSourceMetadata.state_counts (DataSource.metadata (DataSource.load data)))
  = Some (Z.of_nat (List.length l)).
Proof.
  cbn [DataSource.load DataSource.metadata DataSource._metadata default
       DataSource._build_indexes DataSource._by_state DataSource._customers
       DataSource._build_metadata DataSourceMetadata.state_counts from_option id].
  rewrite state_counts_spec, by_state_spec. cbv zeta.
  destruct (PyStr.truthy s); cbn [andb]; [|discriminate].
  rewrite pos_length_nonempty.
  destruct (List.filter (in_state s) data) eqn:E; cbn [ContextAgent.nonempty];
    intros H; [discriminate|].
  injection H as <-. reflexivity.
Qed.

(** C4: on a loaded data source, a search with a state filter whose
    uppercased value is not a key of the state index returns
    [success = false] with the error "state_not_available", the requested
    state, and the metadata's available states and counts, which are
    exactly the keys of the state index and the sizes of its entries. *)
Theorem search_unknown_state (data : list Customer.t) (state : string)
    (city : option string) (min_moves : option Z) (customer_type : option string)
    (has_apartment : option bool) (limit : option Z) :
  let ds := DataSource.load data in
  let md := DataSource.metadata ds in
  PyStr.truthy state = true ->
  DataSource._by_state ds !! PyStr.upper state = None ->
  let r := DataSource.search ds (Some state) city min_moves customer_type
             has_apartment limit in
  search_success r = false /\
  search_error r = Some "state_not_available" /\
  (exists name suggestion,
     r = SearchStateNotAvailable (PyStr.upper state) name
           (DataSourceMetadata.available_states md)
           (DataSourceMetadata.state_counts md) suggestion) /\
  (forall s, In s (DataSourceMetadata.available_states md)
             <-> is_Some (DataSource._by_state ds !! s)) /\
  (forall s l, DataSource._by_state ds !! s = Some l ->
     assoc_get s (DataSourceMetadata.state_counts md)
     = Some (Z.of_nat (List.length l))) /\
  ~ In (PyStr.upper state) (DataSourceMetadata.available_states md).
Proof.
  intros ds md Ht Hk r.
  assert (Hr : r = SearchStateNotAvailable (PyStr.upper state)
           (DataSource.state_name (PyStr.upper state) state)
           (DataSourceMetadata.available_states md)
           (DataSourceMetadata.state_counts md)
           (DataSource.state_name (PyStr.upper state) state
            ++ " is not in our database. " ++ "We have data for "
            ++ PyStr.str_of_Z (Z.of_nat (List.length (DataSourceMetadata.available_states md)))
            ++ " states.")).
  { subst r. unfold DataSource.search. cbn [DataSource.truthy_str default from_option id].
    rewrite Ht. fold ds. rewrite Hk. reflexivity. }
  rewrite Hr. cbn [search_success search_error].
  split; [reflexivity|]. split; [reflexivity|]. split; [eauto|].
  split; [apply available_states_spec|]. split; [apply state_counts_agree|].
  intros Hin. apply available_states_spec in Hin. fold ds in Hin. rewrite Hk in Hin.
  destruct Hin; discriminate.
Qed.

(** *** The limit of [search] *)

Lemma filter_and {A} (P Q : A -> bool) (l : list A) :
  List.filter Q (List.filter P l) = List.filter (fun x => P x && Q x) l.
Proof.
  induction l as [|x l IH]; [reflexivity|]. cbn [List.filter].
  destruct (P x); cbn [List.filter andb]; [destruct (Q x)|]; now rewrite IH.
Qed.

Lemma filter_true {A} (l : list A) : List.filter (fun _ => true) l = l.
Proof. induction l as [|x l IH]; [reflexivity|]. cbn. now rewrite IH. Qed.

Lemma filter_ext' {A} (P Q : A -> bool) (l : list A) :
  (forall x, P x = Q x) -> List.filter P l = List.filter Q l.
Proof.
  intros H. induction l as [|x l IH]; [reflexivity|]. cbn. now rewrite H, IH.
Qed.

Lemma apply_filters_spec (state city : option string) (min_moves : option Z)
    (customer_type : option string) (has_apartment : option bool)
    (base : Customer.t -> bool) (data : list Customer.t) :
  (forall c, base c =
     if DataSource.truthy_str state
     then in_state (PyStr.upper (default EmptyString state)) c else true) ->
  DataSource.apply_filters min_moves city customer_type has_apartment
    (List.filter base data)
  = List.filter (matches state city min_moves customer_type has_apartment) data.
Proof.
  intros Hb. unfold DataSource.apply_filters, matches.
  destruct (DataSource.truthy_int min_moves), (DataSource.truthy_str city),
    (DataSource.truthy_str customer_type), (DataSource.truthy_bool has_apartment);
  rewrite ?filter_and; apply filter_ext'; intros c; cbv beta; rewrite <- Hb;
  rewrite ?andb_true_r, ?andb_assoc; reflexivity.
Qed.

(** C9: [search] does not cap the limit.  With no limit, or limit 0, it
    returns every matching record in data order; a positive limit [n] is
    the slice bound as given, whatever its size. *)
Theorem search_limit_verbatim (data : list Customer.t) (state city : option string)
    (min_moves : option Z) (customer_type : option string)
    (has_apartment : option bool) (limit : option Z) :
  let ds := DataSource.load data in
  let found :=
    List.filter (matches state city min_moves customer_type has_apartment) data in
  let r := DataSource.search ds state city min_moves customer_type
             has_apartment limit in
  (DataSource.truthy_str state = true ->
   is_Some (DataSource._by_state ds !! PyStr.upper (default EmptyString state))) ->
  (limit = None \/ limit = Some 0 ->
   r = SearchOk (Z.of_nat (List.length found)) found) /\
  (forall n, limit = Some n -> 0 < n ->
   r = SearchOk (Z.of_nat (List.length found)) (firstn (Z.to_nat n) found)).
Proof.
  intros ds found r Hs.
  assert (Hr : r = SearchOk (Z.of_nat (List.length found))
                 (if DataSource.truthy_int limit
                  then slice_to (default 0 limit) found else found)).
  { subst r. unfold DataSource.search.
    destruct (DataSource.truthy_str state) eqn:T.
    - destruct (Hs eq_refl) as [l Hl]. rewrite Hl.
      assert (l = List.filter (in_state (PyStr.upper (default EmptyString state))) data) as ->.
      { subst ds. cbn [DataSource.load DataSource._build_indexes DataSource._by_state
                       DataSource._customers] in Hl.
        rewrite by_state_spec in Hl. cbv zeta in Hl.
        destruct (_ && _); congruence. }
      rewrite (apply_filters_spec state) by (intros c; rewrite T; reflexivity).
      reflexivity.
    - replace (DataSource._customers ds) with (List.filter (fun _ : Customer.t => true) data)
        by (apply filter_true).
      rewrite (apply_filters_spec state) by (intros c; rewrite T; reflexivity).
      reflexivity. }
  rewrite Hr. split.
  - intros [-> | ->]; reflexivity.
  - intros n -> Hn. cbn [DataSource.truthy_int default from_option id].
    replace (n =? 0) with false by (symmetry; apply Z.eqb_neq; lia).
    cbn [negb]. unfold slice_to.
    replace (n <? 0) with false by (symmetry; apply Z.ltb_ge; lia).
    reflexivity.
Qed.

Lemma search_limit_verbatim_witness :
  DataSource.search (DataSource.load Demo.many_customers) (Some "nv") None None None None (Some 150)
  = SearchOk 120 Demo.many_customers.
Proof.
  refine (proj2 (search_limit_verbatim Demo.many_customers (Some "nv") None None None None (Some 150) _)
            150 eq_refl _).
  - intros _. vm_compute. eexists. reflexivity.
  - lia.
Defined.

(** *** [lookup] *)

Lemma index_crid_keys (data : list Customer.t) : forall m : gmap string Customer.t,
  (forall k c, m !! k = Some c -> Customer.crid c = Some k) ->
  forall k c, fold_left DataSource.index_crid data m !! k = Some c ->
              Customer.crid c = Some k.
Proof.
  induction data as [|x data IH]; intros m Hm; [exact Hm|].
  cbn [fold_left]. apply IH. intros k c.
  unfold DataSource.index_crid. destruct (Customer.crid x) as [kx|] eqn:E; [|apply Hm].
  destruct (decide (kx = k)) as [->|Hne].
  - rewrite lookup_insert_eq. intros [= <-]. exact E.
  - rewrite lookup_insert_ne by exact Hne. apply Hm.
Qed.

Lemma by_crid_truthy (data : list Customer.t) (k : string) (c : Customer.t) :
  DataSource._by_crid (DataSource.load data) !! k = Some c ->
  Customer.crid c = Some k /\ Customer.truthy c = true.
Proof.
  cbn [DataSource.load DataSource._build_indexes DataSource._by_crid DataSource._customers].
  intros H. apply index_crid_keys in H.
  - split; [exact H|]. unfold Customer.truthy. rewrite H. reflexivity.
  - intros k' c'. rewrite lookup_empty. discriminate.
Qed.

Section FirstHit.
Variable m : gmap string Customer.t.
Hypothesis m_truthy : forall k c, m !! k = Some c -> Customer.truthy c = true.

Lemma first_hit_none (fmts : list string) :
  DataSource.first_hit m fmts = None <-> (forall f, In f fmts -> m !! f = None).
Proof.
  induction fmts as [|f fmts IH]; cbn [DataSource.first_hit In].
  - split; [intros _ f [] | reflexivity].
  - destruct (m !! f) as [c|] eqn:E.
    + rewrite (m_truthy f c E). split; [discriminate|].
      intros H. rewrite <- E. apply H. now left.
    + rewrite IH. split.
      * intros H g [<-|Hg]; [exact E | now apply H].
      * intros H g Hg. apply H. now right.
Qed.

Lemma first_hit_some (fmts : list string) (d : Customer.t) :
  DataSource.first_hit m fmts = Some d <->
  exists pre fmt post, fmts = (pre ++ fmt :: post)%list /\ m !! fmt = Some d /\
                       (forall f, In f pre -> m !! f = None).
Proof.
  induction fmts as [|f fmts IH]; cbn [DataSource.first_hit].
  - split; [discriminate|]. intros (pre & fmt & post & H & _). destruct pre; discriminate.
  - destruct (m !! f) as [c|] eqn:E.
    + rewrite (m_truthy f c E). split.
      * intros [= <-]. exists [], f, fmts. repeat split; [exact E | intros ? []].
      * intros (pre & fmt & post & H & Hd & Hpre). destruct pre as [|p pre].
        -- cbn in H. injection H as <- _. congruence.
        -- cbn in H. injection H as <- _. rewrite (Hpre f) in E by now left. discriminate.
    + rewrite IH. split.
      * intros (pre & fmt & post & -> & Hd & Hpre). exists (f :: pre), fmt, post.
        repeat split; [exact Hd|]. intros g [<-|Hg]; [exact E | now apply Hpre].
      * intros (pre & fmt & post & H & Hd & Hpre). destruct pre as [|p pre].
        -- cbn in H. injection H as <- _. congruence.
        -- cbn in H. injection H as <- ->. exists pre, fmt, post.
           repeat split; [exact Hd|]. intros g Hg. apply Hpre. now right.
Qed.
End FirstHit.

(** C10: [lookup] succeeds exactly when the uppercased input starts with
    "CRID-" and one of the candidate keys (suffix zero-filled to width 6,
    then 5, then 3, then the input itself) is in the record-ID index; the
    record returned is the one of the first candidate present.  The bare
    number "42" and the spaced form "CRID 42" are never found. *)
Theorem lookup_succeeds_iff (data : list Customer.t) (crid : string) :
  let ds := DataSource.load data in
  let key := PyStr.upper crid in
  let num := PyStr.removeprefix "CRID-" key in
  DataSource.crid_formats key =
    [ "CRID-" ++ PyStr.zfill 6 num; "CRID-" ++ PyStr.zfill 5 num;
      "CRID-" ++ PyStr.zfill 3 num; key ] /\
  (DataSource.lookup_success (DataSource.lookup ds crid) = true <->
   PyStr.startswith "CRID-" key = true /\
   exists fmt, In fmt (DataSource.crid_formats key) /\
               is_Some (DataSource._by_crid ds !! fmt)) /\
  (forall d, DataSource.lookup ds crid = LookupFound d <->
   PyStr.startswith "CRID-" key = true /\
   exists pre fmt post,
     DataSource.crid_formats key = (pre ++ fmt :: post)%list /\
     DataSource._by_crid ds !! fmt = Some d /\
     (forall f, In f pre -> DataSource._by_crid ds !! f = None)) /\
  DataSource.lookup ds "42" = LookupNotFound "CRID 42 not found" /\
  DataSource.lookup ds "CRID 42" = LookupNotFound "CRID CRID 42 not found".
Proof.
  intros ds key num.
  assert (Ht : forall k c, DataSource._by_crid ds !! k = Some c -> Customer.truthy c = true)
    by (intros k c H; now apply (by_crid_truthy data k c)).
  split; [reflexivity|].
  pose proof (first_hit_none _ Ht (DataSource.crid_formats key)) as Hn.
  pose proof (first_hit_some _ Ht (DataSource.crid_formats key)) as Hsome.
  unfold DataSource.lookup. fold key.
  destruct (PyStr.startswith "CRID-" key) eqn:P.
  - destruct (DataSource.first_hit (DataSource._by_crid ds) (DataSource.crid_formats key))
      as [d|] eqn:F.
    + split; [|split; [|split; reflexivity]].
      * cbn [DataSource.lookup_success]. split; [|reflexivity]. intros _. split; [reflexivity|].
        destruct (proj1 (Hsome d) eq_refl) as (pre & fmt & post & E & Hd & _).
        exists fmt. split; [rewrite E; apply in_or_app; right; now left | eauto].
      * intros d'. rewrite <- Hsome. split; [intros [= ->]; auto | intros [_ [= ->]]; reflexivity].
    + split; [|split; [|split; reflexivity]].
      * cbn [DataSource.lookup_success]. split; [discriminate|].
        intros [_ (fmt & Hin & [c Hc])]. rewrite (proj1 Hn eq_refl fmt Hin) in Hc. discriminate.
      * intros d'. rewrite <- Hsome. split; [discriminate | intros [_ ?]; discriminate].
  - split; [|split; [|split; reflexivity]].
    + cbn [DataSource.lookup_success]. split; [discriminate | intros [? _]; discriminate].
    + intros d'. split; [discriminate | intros [? _]; discriminate].
Qed.

Lemma search_unknown_state_witness :
  let r := DataSource.search Demo.source (Some "tx") None None None None None in
  search_success r = false /\ search_error r = Some "state_not_available".
Proof.
  pose proof (search_unknown_state Demo.customers "tx" None None None None None
                eq_refl eq_refl) as H.
  cbv zeta in H. destruct H as (H1 & H2 & _). split; [exact H1 | exact H2].
Defined.

(** The record CRID-000042 is loaded, yet only the prefixed forms find it. *)
Example lookup_forms :
  DataSource.lookup_success (DataSource.lookup Demo.source "crid-42") = true
  /\ DataSource.lookup_success (DataSource.lookup Demo.source "CRID-000042") = true
  /\ DataSource.lookup_success (DataSource.lookup Demo.source "crid-7") = true
  /\ DataSource.lookup_success (DataSource.lookup Demo.source "42") = false
  /\ DataSource.lookup_success (DataSource.lookup Demo.source "CRID 42") = false.
Proof. vm_compute. repeat split. Qed.

(* --------------------------------------------------------------------- *)
(** ** The response generator *)
(* --------------------------------------------------------------------- *)

Lemma generate_unavailable (self : NovaAgent.t) (c : NovaAgent.Call) :
  NovaAgent._available self = false ->
  NovaAgent.generate_call self c = (fallback_of c, self).
Proof.
  intros H. unfold NovaAgent.generate_call, NovaAgent.generate. rewrite H. reflexivity.
Qed.

Lemma generate_all_unavailable (calls : list NovaAgent.Call) : forall self,
  NovaAgent._available self = false ->
  NovaAgent.generate_all self calls = (List.map fallback_of calls, self).
Proof.
  induction calls as [|c calls IH]; intros self H; [reflexivity|].
  cbn [NovaAgent.generate_all]. rewrite (generate_unavailable self c H).
  rewrite (IH self H). reflexivity.
Qed.

Lemma contains_self (n : string) : PyStr.contains n n = true.
Proof.
  pose proof (contains_infix n "" "") as H.
  change ("" ++ n ++ "") with (n ++ "") in H.
  replace (n ++ "") with n in H; [exact H|].
  clear H. induction n as [|x n IH]; [reflexivity|].
  change (String x n ++ "") with (String x (n ++ "")). now rewrite <- IH.
Qed.

Lemma contains_join (sep x : string) (parts : list string) :
  In x parts -> PyStr.contains x (PyStr.join sep parts) = true.
Proof.
  induction parts as [|p rest IH]; [intros []|].
  intros H. destruct rest as [|p' rest'].
  - destruct H as [->|[]]. apply contains_self.
  - change (PyStr.join sep (p :: p' :: rest'))
      with (p ++ sep ++ PyStr.join sep (p' :: rest')).
    destruct H as [->|H].
    + apply (contains_infix x "").
    + apply contains_app_r, contains_app_r, IH, H.
Qed.

Lemma join_truthy (sep p : string) (rest : list string) :
  PyStr.truthy p = true -> PyStr.truthy (PyStr.join sep (p :: rest)) = true.
Proof.
  destruct p as [|a p]; [discriminate|]. intros _. destruct rest; reflexivity.
Qed.

Lemma fallback_text_lines (s : SearchResult.t) :
  NovaAgent.fallback_text s
  = PyStr.join (String "010" "")
      (("Found " ++ PyStr.str_of_Z (SearchResult.total_matches s)
        ++ " customer(s):")
       :: List.map NovaAgent.fallback_line (firstn 5 (SearchResult.results s))
       ++ (if 5 <? SearchResult.total_matches s
           then ["  ... and "
                 ++ PyStr.str_of_Z (SearchResult.total_matches s - 5)
                 ++ " more"]
           else [])).
Proof.
  unfold NovaAgent.fallback_text. cbv zeta.
  destruct (5 <? SearchResult.total_matches s); [reflexivity|].
  now rewrite List.app_nil_r.
Qed.

(** C6: when [generate] meets a client error whose message is of the
    access class, the agent becomes unavailable, the call returns the
    fallback, and so does every later call, the agent staying
    unavailable (only building a new agent makes it available again).
    The fallback is the static message without search results and the
    template over the results otherwise: a header with the total, one
    line "  - crid: name (city, state)" for each of the first five
    records with "N/A" for a missing field, and a note of the remaining
    total when it exceeds five; it names the model "fallback", uses no
    tool, is never empty and holds the line of each of those records.
    Other failures fall back too and leave the agent as it was. *)
Theorem generate_access_error_durable (self : NovaAgent.t) (query : string)
    (search_result : SearchResult.t) (knowledge : KnowledgeContext.t)
    (error_msg : string) (later : list NovaAgent.Call) :
  NovaAgent.is_access_error error_msg = true ->
  let first :=
    NovaAgent.generate self query search_result knowledge
      (NovaAgent.RaisedClientError error_msg) in
  let rest := NovaAgent.generate_all (snd first) later in
  let line := fun customer : Customer.t =>
    "  - " ++ default "N/A" (Customer.crid customer) ++ ": "
    ++ default "N/A" (Customer.name customer) ++ " ("
    ++ default "N/A" (Customer.city customer) ++ ", "
    ++ default "N/A" (Customer.state customer) ++ ")" in
  let template := fun s : SearchResult.t =>
    match SearchResult.results s with
    | [] =>
        "AI features are not available. Please use direct search or autocomplete endpoints."
    | _ :: _ =>
        PyStr.join (String "010" "")
          (("Found " ++ PyStr.str_of_Z (SearchResult.total_matches s)
            ++ " customer(s):")
           :: List.map line (firstn 5 (SearchResult.results s))
           ++ (if 5 <? SearchResult.total_matches s
               then ["  ... and "
                     ++ PyStr.str_of_Z (SearchResult.total_matches s - 5)
                     ++ " more"]
               else []))
    end in
  NovaAgent._available (snd first) = false /\
  fst first = NovaAgent._fallback_response query search_result knowledge /\
  fst rest = List.map fallback_of later /\
  NovaAgent._available (snd rest) = false /\
  (forall q s k, SearchResult.results s = [] ->
     response_text (NovaAgent._fallback_response q s k) = NovaAgent.AI_UNAVAILABLE) /\
  (forall q s k, SearchResult.results s <> [] ->
     response_text (NovaAgent._fallback_response q s k) = NovaAgent.fallback_text s) /\
  (forall a q s k,
     NovaAgent.generate a q s k NovaAgent.RaisedException
     = (NovaAgent._fallback_response q s k, a)) /\
  (forall a q s k m, NovaAgent.is_access_error m = false ->
     NovaAgent.generate a q s k (NovaAgent.RaisedClientError m)
     = (NovaAgent._fallback_response q s k, a)) /\
  fst first
  = {| response_text := template search_result;
       tools_used := [];
       tool_results := [];
       model_used := "fallback";
       tokens_used := 0;
       ai_confidence :=
         match SearchResult.results search_result with
         | [] => 0.1%float
         | _ :: _ => 0.5%float
         end |} /\
  List.map response_text (fst rest)
  = List.map (fun c => template (NovaAgent.call_search c)) later /\
  Forall (fun r =>
            tools_used r = [] /\ tool_results r = [] /\
            model_used r = "fallback" /\ tokens_used r = 0)
    (fst rest) /\
  (forall a q s k attempt,
     NovaAgent._available a = false
     \/ attempt = NovaAgent.RaisedException
     \/ (exists m, attempt = NovaAgent.RaisedClientError m) ->
     response_text (fst (NovaAgent.generate a q s k attempt)) = template s) /\
  (forall s, PyStr.truthy (template s) = true) /\
  (forall s customer,
     In customer (firstn 5 (SearchResult.results s)) ->
     PyStr.contains (line customer) (template s) = true).
Proof.
  intros Ha first rest line template.
  assert (H1 : NovaAgent._available (snd first) = false /\
               fst first = NovaAgent._fallback_response query search_result knowledge).
  { subst first. unfold NovaAgent.generate. rewrite Ha.
    destruct (NovaAgent._available self) eqn:E; cbn; auto. }
  destruct H1 as [H1 H2].
  assert (H3 : rest = (List.map fallback_of later, snd first))
    by (apply generate_all_unavailable; exact H1).
  assert (T : forall q s k,
            NovaAgent._fallback_response q s k
            = {| response_text := template s;
                 tools_used := [];
                 tool_results := [];
                 model_used := "fallback";
                 tokens_used := 0;
                 ai_confidence :=
                   match SearchResult.results s with
                   | [] => 0.1%float
                   | _ :: _ => 0.5%float
                   end |}).
  { intros q s k. unfold NovaAgent._fallback_response. subst template. cbv beta.
    rewrite fallback_text_lines.
    destruct (SearchResult.results s); reflexivity. }
  rewrite H3. cbn [fst snd].
  split; [exact H1|]. split; [exact H2|]. split; [reflexivity|].
  split; [exact H1|]. split; [|split; [|split; [|split]]].
  - intros q s k E. unfold NovaAgent._fallback_response. rewrite E. reflexivity.
  - intros q s k E. unfold NovaAgent._fallback_response.
    destruct (SearchResult.results s); [congruence | reflexivity].
  - intros a q s k. unfold NovaAgent.generate. destruct (NovaAgent._available a); reflexivity.
  - intros a q s k m E. unfold NovaAgent.generate. rewrite E.
    destruct (NovaAgent._available a); reflexivity.
  - split; [rewrite H2; apply T|]. split; [|split; [|split; [|split]]].
    + rewrite List.map_map. apply List.map_ext. intros c.
      unfold fallback_of. now rewrite T.
    + apply List.Forall_forall. intros r Hr. apply List.in_map_iff in Hr.
      destruct Hr as (c & <- & _). unfold fallback_of. rewrite T. cbn. auto.
    + intros a q s k attempt H.
      assert (G : fst (NovaAgent.generate a q s k attempt)
                  = NovaAgent._fallback_response q s k).
      { unfold NovaAgent.generate.
        destruct (NovaAgent._available a) eqn:A; cbn [negb]; [|reflexivity].
        destruct H as [H|[->|(m & ->)]]; [discriminate|reflexivity|].
        destruct (NovaAgent.is_access_error m); reflexivity. }
      rewrite G, T. reflexivity.
    + intros s. subst template. cbv beta.
      destruct (SearchResult.results s); [reflexivity|].
      apply join_truthy. reflexivity.
    + intros s customer H. subst template. cbv beta.
      destruct (SearchResult.results s) as [|c0 cs] eqn:E;
        [rewrite firstn_nil in H; destruct H|].
      apply contains_join. right. apply List.in_or_app. left.
      apply List.in_map. exact H.
Qed.

Lemma generate_access_error_durable_witness :
  let agent := NovaAgent.init "nova-micro" true true in
  let results :=
    SearchResult.mk
      [ Demo.customer "CRID-1" "NV" "Reno" 1;
        Customer.mk (Some "CRID-2") None (Some "NV") None None None None ] 7 in
  let nothing := SearchResult.mk [] 0 in
  let k := KnowledgeContext.mk [] in
  let later :=
    [ NovaAgent.mkCall "second" nothing k (NovaAgent.Returned "text" [] []);
      NovaAgent.mkCall "third" results k NovaAgent.RaisedException ] in
  let first :=
    NovaAgent.generate agent "first" results k
      (NovaAgent.RaisedClientError "AccessDeniedException: no access to model") in
  let rest := NovaAgent.generate_all (snd first) later in
  let templated :=
    "Found 7 customer(s):"
    ++ String "010" "  - CRID-1: Pat Doe (Reno, NV)"
    ++ String "010" "  - CRID-2: N/A (N/A, NV)"
    ++ String "010" "  ... and 2 more" in
  NovaAgent._available agent = true /\
  NovaAgent._available (snd first) = false /\
  fst first = NovaAgent._fallback_response "first" results k /\
  fst rest = List.map fallback_of later /\
  NovaAgent._available (snd rest) = false /\
  fst first = mkNovaResponse templated [] [] "fallback" 0 0.5%float /\
  List.map response_text (fst rest)
  = [ "AI features are not available. Please use direct search or autocomplete endpoints.";
      templated ].
Proof.
  intros agent results nothing k later first rest templated.
  pose proof (generate_access_error_durable agent "first" results k
                "AccessDeniedException: no access to model" later eq_refl) as H.
  cbv zeta in H. destruct H as (H1 & H2 & H3 & H4 & _ & _ & _ & _ & H9 & H10 & _).
  split; [reflexivity|]. repeat split; assumption.
Defined.

(* --------------------------------------------------------------------- *)
(** ** The router *)
(* --------------------------------------------------------------------- *)

Section RouterProps.
Variable GuardrailFlags : Type.
Variable guardrails_check : string -> option GuardrailFlags -> option string.
Variable make_key : string -> string.
Variable new_session : option string -> Session.t.
Variable find_route : string -> RouteType.t * option string.
Variable db_execute : string -> string -> Router.DbResult.
Variable json_dumps : Router.DbResult -> string.
Variable orchestrator : bool.
Variable search_customers_semantic : string -> Router.RagResult.
Variable nova_query :
  string -> option (list Message) -> option string -> string -> Router.NovaResult.

(** C3: when the guardrail check returns a blocked message, [route]
    answers with [blocked = true] and that message, calls neither
    [cache.set] nor [sessions.save] (its only call is the session
    read), and leaves the cache store and the session store as they
    were. *)
Theorem route_blocked (w : Router.World) (query : string) (bypass_cache : bool)
    (guardrails : option GuardrailFlags) (session_id : option string)
    (message : string) :
  guardrails_check (PyStr.strip query) guardrails = Some message ->
  PyStr.truthy message = true ->
  let out :=
    Router.route GuardrailFlags guardrails_check make_key new_session
      find_route db_execute json_dumps orchestrator search_customers_semantic
      nova_query query bypass_cache guardrails session_id w in
  Response.blocked (Router.value_of out) = true /\
  Response.response (Router.value_of out) = message /\
  Router.world_of out = w /\
  existsb Router.is_write (Router.events_of out) = false /\
  Router.events_of out = [Router.EvSessionGet session_id].
Proof.
  intros Hc Ht out. subst out.
  unfold Router.route, Router.bind, Router.sessions_get, Router.blocked_message.
  rewrite Hc, Ht.
  cbn. repeat split.
Qed.

Lemma route_nova_post (q key : string) (session : Session.t) (w : Router.World) :
  pipeline_post q key session
    (Router.route_nova orchestrator search_customers_semantic
       nova_query q key session w).
Proof.
  unfold pipeline_post, Router.route_nova, Router.bind, Router.call, Router.ret,
    Router.sessions_save, Router.cache_set, Router.value_of, Router.events_of.
  destruct orchestrator; cbn [negb];
    destruct (Router.nova_success (nova_query _ _ _ _)) eqn:S;
    cbn -[Z.of_nat Z.leb];
    try (repeat split; try discriminate; intros; discriminate).
  all: settle_writes.
Qed.

Lemma existsb_false_not_in {A} (P : A -> bool) (l : list A) (x : A) :
  existsb P l = false -> P x = true -> ~ In x l.
Proof.
  intros H Hx Hin. assert (existsb P l = true) by (apply existsb_exists; eauto).
  congruence.
Qed.

Lemma pipeline_post_prefix (q key : string) (session : Session.t)
    (r : Response.t) (w w' : Router.World) (pre events : list Router.Event) :
  existsb Router.is_cache_get pre = false ->
  existsb Router.is_cache_set pre = false ->
  pipeline_post q key session (r, w, events) ->
  pipeline_post q key session (r, w', (pre ++ events)%list).
Proof.
  unfold pipeline_post, Router.value_of, Router.events_of. cbn [fst snd].
  intros Hg Hs (H1 & H2 & H3). rewrite !existsb_app, Hg, Hs, H1. cbn [orb].
  split; [reflexivity|]. split; [exact H2|]. intros Hok.
  destruct (H3 Hok) as (Ha & Hb & Hc). split; [apply in_or_app; now right|].
  split; [|exact Hc]. rewrite <- Hb. split.
  - intros Hin. apply in_app_or in Hin. destruct Hin as [Hin|Hin]; [|exact Hin].
    exfalso. revert Hin. now apply (existsb_false_not_in Router.is_cache_set).
  - intros Hin. apply in_or_app. now right.
Qed.

Lemma route_execute_post (q key : string) (session : Session.t) (w : Router.World) :
  pipeline_post q key session
    (Router.route_execute find_route db_execute json_dumps orchestrator
       search_customers_semantic nova_query q key session w).
Proof.
  unfold Router.route_execute, Router.bind, Router.call at 1.
  destruct (find_route q) as [route_type metadata_tool].
  pose proof (route_nova_post q key session w) as Hn.
  destruct (Router.route_nova orchestrator search_customers_semantic nova_query
              q key session w) as [[rn wn] en] eqn:En.
  destruct (RouteType.eqb route_type RouteType.DATABASE).
  - unfold Router.bind, Router.call.
    destruct (Router.db_success (db_execute _ q)) eqn:S.
    + unfold pipeline_post, Router.bind, Router.ret, Router.sessions_save,
        Router.cache_set, Router.value_of, Router.events_of.
      settle_writes.
    + rewrite En.
      apply (pipeline_post_prefix q key session rn wn wn
               [Router.EvFindRoute q] (_ :: en)); [reflexivity | reflexivity |].
      apply (pipeline_post_prefix q key session rn wn wn [_] en);
        [reflexivity | reflexivity | exact Hn].
  - rewrite En.
    apply (pipeline_post_prefix q key session rn wn wn [_] en);
      [reflexivity | reflexivity | exact Hn].
Qed.

(** C5: [route] reads the cache only when [bypass_cache] is false and
    the session has no prior message (and then it does, unless the
    query is blocked); after a successful database or pipeline answer
    it saves the session with the two new turns and writes the answer
    to the cache exactly when the session then holds at most two
    messages, that is when it had none before. *)
Theorem route_cache_policy (w : Router.World) (query : string)
    (bypass_cache : bool) (guardrails : option GuardrailFlags)
    (session_id : option string) :
  let q := PyStr.strip query in
  let key := make_key q in
  let session := Router.session_for new_session w session_id in
  let out :=
    Router.route GuardrailFlags guardrails_check make_key new_session
      find_route db_execute json_dumps orchestrator search_customers_semantic
      nova_query query bypass_cache guardrails session_id w in
  let r := Router.value_of out in
  let events := Router.events_of out in
  let session' :=
    Session.add_message "assistant" (Response.response r)
      (Session.add_message "user" q session) in
  (existsb Router.is_cache_get events = true ->
     bypass_cache = false /\ Session.messages session = []) /\
  (Router.blocked_message GuardrailFlags guardrails_check q guardrails = None ->
     bypass_cache = false -> Session.messages session = [] ->
     In (Router.EvCacheGet key) events) /\
  (Response.success r = true -> Response.route r <> RouteType.CACHE_HIT ->
     In (Router.EvSessionSave session') events /\
     (In (Router.EvCacheSet key (Router.JsonResponse (Response.response r))) events
      <-> Z.of_nat (List.length (Session.messages session')) <= 2) /\
     (existsb Router.is_cache_set events = true
      <-> Z.of_nat (List.length (Session.messages session')) <= 2) /\
     (Z.of_nat (List.length (Session.messages session')) <= 2
      <-> Session.messages session = [])).
Proof.
  intros q key session out r events session'.
  assert (Hlen : Z.of_nat (List.length (Session.messages session')) <= 2
                 <-> Session.messages session = []).
  { subst session'. cbn [Session.add_message Session.messages].
    rewrite !length_app. cbn [List.length].
    destruct (Session.messages session); cbn [List.length]; split; intros; try lia; congruence. }
  revert Hlen. subst session' r events out.
  unfold Router.route, Router.bind, Router.sessions_get. fold q. fold session. fold key.
  destruct (Router.blocked_message GuardrailFlags guardrails_check q guardrails) eqn:B.
  { cbn. intros _. repeat split; try discriminate; try congruence. }
  pose proof (route_execute_post q key session w) as He.
  destruct (Router.route_execute find_route db_execute json_dumps orchestrator
              search_customers_semantic nova_query q key session w)
    as [[re we] ee] eqn:Ee.
  assert (Hpre : pipeline_post q key session
                   (re, we, ([Router.EvSessionGet session_id] ++ ee)%list))
    by (apply (pipeline_post_prefix q key session re we we); auto).
  unfold pipeline_post, Router.value_of, Router.events_of in Hpre, He.
  cbn [fst snd app] in Hpre, He.
  destruct bypass_cache; destruct (Session.messages session) eqn:Em;
    cbn [negb andb ContextAgent.nonempty].
  1,2,4: rewrite Ee; unfold Router.value_of, Router.events_of; cbn [fst snd app];
    destruct Hpre as (H1 & H2 & H3); intros Hlen;
    (split; [rewrite H1; discriminate|]); (split; [congruence|]);
    intros Hok _; destruct (H3 Hok) as (Ha & Hb & Hc); auto.
  unfold Router.cache_get, Router.bind.
  destruct (Router.cache_store w !! key) as [data|] eqn:Hit.
  - cbn. intros _. repeat split; auto; try discriminate; try congruence.
  - rewrite Ee. unfold Router.value_of, Router.events_of. cbn [fst snd app].
    destruct He as (H1 & H2 & H3). intros Hlen.
    split; [auto|]. split; [intros; right; now left|].
    intros Hok _. destruct (H3 Hok) as (Ha & Hb & Hc).
    cbn [existsb Router.is_cache_set orb].
    split; [right; right; exact Ha|]. split; [|split; [exact Hc | exact Hlen]].
    rewrite <- Hb. split.
    + intros [Hin|[Hin|Hin]]; [discriminate | discriminate | exact Hin].
    + intros Hin. right. right. exact Hin.
Qed.
End RouterProps.

Lemma route_blocked_witness :
  let out := Demo.route "ssn for CRID-1" false None None Demo.world in
  Response.blocked (Router.value_of out) = true /\
  Response.response (Router.value_of out) = "SSN not accessible" /\
  Router.world_of out = Demo.world /\
  existsb Router.is_write (Router.events_of out) = false /\
  Router.events_of out = [Router.EvSessionGet None].
Proof.
  apply (route_blocked unit Demo.guardrails_check Demo.make_key Demo.new_session
           Demo.find_route Demo.db_execute Demo.json_dumps true
           Demo.search_customers_semantic Demo.nova_query
           Demo.world "ssn for CRID-1" false None None "SSN not accessible").
  - vm_compute. reflexivity.
  - reflexivity.
Defined.

(** ** Intent classification: secondary intents, domains, tools *)

Lemma intent_patterns_keys :
  List.NoDup (List.map fst IntentAgent.intent_patterns).
Proof.
  cbn. repeat constructor; cbn; intuition discriminate.
Qed.

Lemma NoDup_map_filter {A B} (f : A -> B) (P : A -> bool) (l : list A) :
  List.NoDup (List.map f l) -> List.NoDup (List.map f (List.filter P l)).
Proof.
  induction l as [|x l IH]; cbn; [auto|]. intros H.
  apply List.NoDup_cons_iff in H. destruct H as [Hx Hl].
  destruct (P x); cbn; [|auto]. constructor; [|auto].
  intros Hin. apply Hx.
  apply in_map_iff in Hin. destruct Hin as (y & <- & Hy).
  apply filter_In in Hy. apply in_map. tauto.
Qed.

Lemma NoDup_firstn {A} (n : nat) (l : list A) :
  List.NoDup l -> List.NoDup (firstn n l).
Proof.
  intros H. rewrite <- (firstn_skipn n l) in H.
  now apply List.NoDup_app_remove_r in H.
Qed.

Lemma In_firstn {A} (n : nat) (l : list A) (x : A) :
  In x (firstn n l) -> In x l.
Proof.
  intros H. rewrite <- (firstn_skipn n l). apply in_or_app. now left.
Qed.

(** X1: [_detect_secondary_intents] returns at most two intents, without
    repetition; none of them is the primary intent, and each one is a
    category of the pattern table with a pattern that matches the query. *)
Theorem secondary_intents_sound (query : string) (primary : QueryIntent.t) :
  let s := IntentAgent._detect_secondary_intents query primary in
  (List.length s <= 2)%nat /\ List.NoDup s /\
  forall i, In i s ->
    i <> primary /\
    exists patterns, In (i, patterns) IntentAgent.intent_patterns /\
                     IntentAgent._match_patterns query patterns = true.
Proof.
  unfold IntentAgent._detect_secondary_intents. cbv zeta.
  set (P := fun ip : QueryIntent.t * list string =>
              negb (QueryIntent.eqb (fst ip) primary)
              && IntentAgent._match_patterns query (snd ip)).
  split; [apply firstn_le_length|]. split.
  - apply NoDup_firstn. apply NoDup_map_filter. exact intent_patterns_keys.
  - intros i Hi. apply In_firstn in Hi. apply in_map_iff in Hi.
    destruct Hi as ([j ps] & <- & Hin). apply filter_In in Hin.
    destruct Hin as [Hin HP]. unfold P in HP. cbn [fst snd] in *.
    apply andb_prop in HP. destruct HP as [Hne Hm]. split.
    + intros ->. destruct primary; discriminate.
    + exists ps. auto.
Qed.

(** X2: [_detect_domains] never returns the empty list, lists no domain
    twice and never lists GENERAL; ADDRESS and KNOWLEDGE are listed exactly
    when their patterns match, STATS exactly for the STATS intent or a
    statistics pattern, and CUSTOMER exactly for a LOOKUP, SEARCH or STATS
    intent or when nothing else was found. *)
Theorem detect_domains_sound (query : string) (primary : QueryIntent.t) :
  let d := IntentAgent._detect_domains query primary in
  d <> [] /\ List.NoDup d /\
  (In QueryDomain.CUSTOMER d <->
     primary = QueryIntent.LOOKUP \/ primary = QueryIntent.SEARCH
     \/ primary = QueryIntent.STATS
     \/ (IntentAgent._match_patterns query IntentAgent.ADDRESS_PATTERNS = false
         /\ IntentAgent._match_patterns query IntentAgent.KNOWLEDGE_PATTERNS = false
         /\ IntentAgent._match_patterns query IntentAgent.STATS_PATTERNS = false)) /\
  (In QueryDomain.ADDRESS d <->
     IntentAgent._match_patterns query IntentAgent.ADDRESS_PATTERNS = true) /\
  (In QueryDomain.KNOWLEDGE d <->
     IntentAgent._match_patterns query IntentAgent.KNOWLEDGE_PATTERNS = true) /\
  (In QueryDomain.STATS d <->
     primary = QueryIntent.STATS
     \/ IntentAgent._match_patterns query IntentAgent.STATS_PATTERNS = true) /\
  ~ In QueryDomain.GENERAL d.
Proof.
  unfold IntentAgent._detect_domains.
  destruct (IntentAgent._match_patterns query IntentAgent.ADDRESS_PATTERNS),
    (IntentAgent._match_patterns query IntentAgent.KNOWLEDGE_PATTERNS),
    (IntentAgent._match_patterns query IntentAgent.STATS_PATTERNS),
    primary; cbn;
  (split; [discriminate|]); (split; [repeat constructor; cbn; intuition discriminate|]);
  repeat split; unfold not; intros; try discriminate; auto 10;
  repeat match goal with
         | H : _ \/ _ |- _ => destruct H
         | H : _ /\ _ |- _ => destruct H
         end; try discriminate; try contradiction; auto 10.
Qed.

(** X3: [_suggest_tools] always suggests some tool and none twice; a
    LOOKUP intent puts lookup_crid first; verify_address and
    search_knowledge follow the ADDRESS and KNOWLEDGE domains,
    hybrid_search is suggested exactly for COMPLEX queries and
    fuzzy_search exactly for a SEARCH intent that is not SIMPLE. *)
Theorem suggest_tools_sound (primary : QueryIntent.t)
    (domains : list QueryDomain.t) (complexity : QueryComplexity.t) :
  let tools := IntentAgent._suggest_tools primary domains complexity in
  tools <> [] /\ List.NoDup tools /\
  (primary = QueryIntent.LOOKUP -> head tools = Some "lookup_crid") /\
  (In "verify_address" tools
   <-> IntentAgent.has_domain QueryDomain.ADDRESS domains = true) /\
  (In "search_knowledge" tools
   <-> IntentAgent.has_domain QueryDomain.KNOWLEDGE domains = true) /\
  (In "hybrid_search" tools <-> complexity = QueryComplexity.COMPLEX) /\
  (In "fuzzy_search" tools
   <-> primary = QueryIntent.SEARCH /\ complexity <> QueryComplexity.SIMPLE).
Proof.
  unfold IntentAgent._suggest_tools.
  destruct (IntentAgent.has_domain QueryDomain.ADDRESS domains),
    (IntentAgent.has_domain QueryDomain.KNOWLEDGE domains),
    primary, complexity; vm_compute;
  (split; [discriminate|]);
  (split; [repeat constructor; cbn; intuition discriminate|]);
  repeat split; unfold not; intros; try discriminate; auto 10;
  repeat match goal with
         | H : _ \/ _ |- _ => destruct H
         | H : _ /\ _ |- _ => destruct H
         end; try discriminate; try contradiction; try congruence; auto 10.
Qed.

(** X4: [classify] records exactly one raw signal, so the multi-signal
    boost of [_calculate_confidence] never applies, and the final
    confidence lies between 0.51 and 0.95. *)
Theorem classify_confidence_range (query : string) :
  let r := IntentAgent.classify query in
  List.length (raw_signals r) = 1%nat /\
  (0.51 <=? confidence r)%float = true /\
  (confidence r <=? 0.95)%float = true.
Proof.
  unfold IntentAgent.classify.
  set (q := PyStr.strip (PyStr.lower query)).
  pose proof (detect_intent_cases q) as H.
  destruct (IntentAgent._detect_intent q []) as [[i c] sig].
  cbn [fst snd] in H. destruct H as [Hc Hl].
  cbn [confidence raw_signals]. split; [exact Hl|].
  unfold IntentAgent._calculate_confidence.
  rewrite Hl. change (1 <? Z.of_nat 1) with false. cbv iota.
  destruct (PyStr.word_count q <? 3) eqn:E1, (20 <? PyStr.word_count q) eqn:E2;
    [apply Z.ltb_lt in E1, E2; lia | | |];
    simpl in Hc; intuition subst; vm_compute; auto.
Qed.


(** ** Geographic extraction *)

Lemma geo_step_keeps_state (c : Geo.t) (t : string) :
  Geo.truthy (Geo.state c) = true ->
  Geo.state (ContextAgent.geo_step c t) = Geo.state c.
Proof.
  intros H. unfold ContextAgent.geo_step. cbn [Geo.state]. rewrite H. reflexivity.
Qed.

Lemma geo_step_keeps_zip (c : Geo.t) (t : string) :
  Geo.truthy (Geo.zip_code c) = true ->
  Geo.zip_code (ContextAgent.geo_step c t) = Geo.zip_code c.
Proof.
  intros H. unfold ContextAgent.geo_step. cbn [Geo.zip_code]. rewrite H. reflexivity.
Qed.

Lemma geo_step_keeps_city (c : Geo.t) (t : string) :
  Geo.truthy (Geo.city c) = true ->
  Geo.city (ContextAgent.geo_step c t) = Geo.city c.
Proof.
  intros H. unfold ContextAgent.geo_step. cbn [Geo.city]. rewrite H. reflexivity.
Qed.

Lemma fold_geo_keeps (texts : list string) : forall c : Geo.t,
  let g := fold_left ContextAgent.geo_step texts c in
  (Geo.truthy (Geo.state c) = true -> Geo.state g = Geo.state c) /\
  (Geo.truthy (Geo.zip_code c) = true -> Geo.zip_code g = Geo.zip_code c) /\
  (Geo.truthy (Geo.city c) = true -> Geo.city g = Geo.city c).
Proof.
  induction texts as [|t texts IH]; intros c; cbn [fold_left]; [auto|].
  destruct (IH (ContextAgent.geo_step c t)) as (Hs & Hz & Hc).
  repeat split; intros H.
  - rewrite Hs; rewrite geo_step_keeps_state; auto.
  - rewrite Hz; rewrite geo_step_keeps_zip; auto.
  - rewrite Hc; rewrite geo_step_keeps_city; auto.
Qed.

(** X5: what [_extract_geographic] finds in the current query alone
    (state, ZIP code, city) is never overridden by the session history:
    the history only fills fields the query left unset. *)
Theorem current_query_wins (history : list Message) (query : string) :
  let alone := ContextAgent._extract_geographic [] query in
  let full := ContextAgent._extract_geographic history query in
  (Geo.truthy (Geo.state alone) = true -> Geo.state full = Geo.state alone) /\
  (Geo.truthy (Geo.zip_code alone) = true ->
     Geo.zip_code full = Geo.zip_code alone) /\
  (Geo.truthy (Geo.city alone) = true -> Geo.city full = Geo.city alone).
Proof.
  unfold ContextAgent._extract_geographic. cbn [List.rev List.map fold_left].
  apply fold_geo_keeps.
Qed.

Lemma first_state_name_code names text code :
  ContextAgent.first_state_name names text = Some code ->
  In code (List.map snd names).
Proof.
  induction names as [|[n c] rest IH]; cbn [ContextAgent.first_state_name List.map snd];
    [discriminate|].
  destruct (PyStr.contains n text); [intros [= ->]; now left | right; auto].
Qed.

Lemma state_names_valid (code : string) :
  In code (List.map snd ContextAgent.STATE_NAMES) ->
  In code ContextAgent.VALID_STATES.
Proof.
  assert (H : forallb (fun c => existsb (String.eqb c) ContextAgent.VALID_STATES)
                (List.map snd ContextAgent.STATE_NAMES) = true)
    by (vm_compute; reflexivity).
  rewrite forallb_forall in H. intros Hin. apply H in Hin.
  apply existsb_exists in Hin. destruct Hin as (x & Hx & E).
  apply String.eqb_eq in E. now subst.
Qed.


Lemma geo_step_ok (c : Geo.t) (t : string) :
  geo_ok c -> geo_ok (ContextAgent.geo_step c t).
Proof.
  intros [Hs Hc]. unfold ContextAgent.geo_step.
  set (st := if negb (Geo.truthy (Geo.state c)) then _ else _).
  assert (Hst : match st with
                | Some s => In s ContextAgent.VALID_STATES
                | None => True
                end).
  { subst st. destruct (negb (Geo.truthy (Geo.state c))); [|exact Hs].
    destruct (Regex.search_group1 _ t) as [g|].
    - destruct (existsb (String.eqb g) ContextAgent.VALID_STATES) eqn:E.
      + apply existsb_exists in E. destruct E as (x & Hx & E).
        apply String.eqb_eq in E. now subst.
      + destruct (ContextAgent.first_state_name _ _) eqn:F; [|exact Hs].
        eapply state_names_valid, first_state_name_code; eauto.
    - destruct (ContextAgent.first_state_name _ _) eqn:F; [|exact Hs].
      eapply state_names_valid, first_state_name_code; eauto. }
  assert (Hkeep : Geo.truthy (Geo.state c) = true -> Geo.truthy st = true).
  { intros H. subst st. rewrite H. exact H. }
  split; cbn [Geo.state Geo.city]; [exact Hst|].
  destruct (negb (Geo.truthy (Geo.city c))) eqn:N; cbn [andb].
  - destruct (Geo.truthy st) eqn:T; [reflexivity|].
    intros H. apply negb_true_iff in N. congruence.
  - intros H. apply Hkeep, Hc, H.
Qed.

(** X6: the state returned by [_extract_geographic] is unset or one of
    VALID_STATES, whatever the query and the history, and a city is only
    returned together with a state. *)
Theorem extracted_state_valid (history : list Message) (query : string) :
  let g := ContextAgent._extract_geographic history query in
  match Geo.state g with
  | Some s => In s ContextAgent.VALID_STATES
  | None => True
  end /\
  (Geo.truthy (Geo.city g) = true -> Geo.truthy (Geo.state g) = true).
Proof.
  unfold ContextAgent._extract_geographic.
  assert (H : forall texts c, geo_ok c ->
                geo_ok (fold_left ContextAgent.geo_step texts c)).
  { induction texts as [|t texts IH]; intros c Hc; [exact Hc|].
    cbn [fold_left]. apply IH, geo_step_ok, Hc. }
  apply H. split; [exact I | discriminate].
Qed.

(** ** Follow-up detection and the confidence of [extract] *)

(** X7: [extract] flags a follow-up only when the session history is not
    empty, and its context confidence lies between 0.5 and 0.9. *)
Theorem follow_up_needs_history
    (mgr : option (gmap string Session.t)) (sid : option string)
    (query : string) (intent : IntentResult) :
  let c := ContextAgent.extract mgr sid query intent in
  (is_follow_up c = true -> session_history c <> []) /\
  (0.5 <=? context_confidence c)%float = true /\
  (context_confidence c <=? 0.9)%float = true.
Proof.
  unfold ContextAgent.extract. cbn [is_follow_up session_history context_confidence].
  set (h := ContextAgent._get_session_history mgr sid).
  split.
  - destruct h; [discriminate | intros _; discriminate].
  - unfold ContextAgent._calculate_confidence.
    pose proof (geo_count_cases (ContextAgent._extract_geographic h query)) as Hg.
    cbv zeta in Hg.
    destruct h as [|x l].
    + change (ContextAgent._detect_follow_up query []) with false.
      cbn [ContextAgent.nonempty andb negb].
      destruct Hg as [-> | [-> | [-> | ->]]]; vm_compute; auto.
    + pose proof (history_weight_cases (x :: l) ltac:(discriminate)) as Hm.
      cbv zeta in Hm. cbn [ContextAgent.nonempty andb negb].
      rewrite !andb_true_r, andb_false_r.
      destruct (ContextAgent._detect_follow_up query (x :: l));
        destruct Hg as [-> | [-> | [-> | ->]]];
        destruct Hm as [-> | [-> | [-> | [-> | ->]]]]; vm_compute; auto.
Qed.






(** ** Metadata of a loaded source *)

Lemma assoc_update_keys {V} key (f : option V -> V) (d : list (string * V)) :
  List.map fst (assoc_update key f d) =
  if existsb (String.eqb key) (List.map fst d)
  then List.map fst d else (List.map fst d ++ [key])%list.
Proof.
  induction d as [|[k v] d IH]; cbn [assoc_update List.map fst existsb]; [reflexivity|].
  rewrite (String.eqb_sym key k).
  destruct (String.eqb k key) eqn:E; cbn [orb List.map fst]; [reflexivity|].
  rewrite IH. destruct (existsb _ _); reflexivity.
Qed.

Lemma state_counts_keys_nodup (data : list Customer.t) :
  List.NoDup (List.map fst (fold_left DataSource.count_state data [])).
Proof.
  induction data as [|c data IH] using rev_ind; [constructor|].
  rewrite fold_left_snoc. unfold DataSource.count_state.
  destruct (PyStr.truthy (DataSource.state_key c)); [|exact IH].
  rewrite assoc_update_keys.
  destruct (existsb _ _) eqn:E; [exact IH|].
  apply NoDup_ListNoDup, NoDup_app. apply NoDup_ListNoDup in IH.
  split; [exact IH|]. split; [|apply NoDup_singleton].
  intros x Hx Hin. apply list_elem_of_singleton in Hin. subst x.
  apply list_elem_of_In in Hx.
  assert (existsb (String.eqb (DataSource.state_key c))
            (List.map fst (fold_left DataSource.count_state data [])) = true).
  { apply existsb_exists. eexists. split; [exact Hx | apply String.eqb_refl]. }
  unfold DataSource.count_state in H. congruence.
Qed.


Lemma insert_desc_sorted x l :
  StronglySorted pair_desc l -> StronglySorted pair_desc (insert_desc x l).
Proof.
  induction l as [|y l IH]; intros H; cbn [insert_desc].
  - repeat constructor.
  - apply StronglySorted_inv in H. destruct H as [Hl Hy].
    destruct (snd y <=? snd x) eqn:E.
    + apply Z.leb_le in E. constructor; [constructor; auto|].
      constructor; [exact E|]. rewrite List.Forall_forall in *.
      intros z Hz. specialize (Hy z Hz). unfold pair_desc in *. lia.
    + apply Z.leb_gt in E. constructor; [auto|].
      rewrite List.Forall_forall in *. intros z Hz.
      apply (Permutation_in _ (insert_desc_perm x l)) in Hz.
      destruct Hz as [<-|Hz]; [unfold pair_desc; lia | auto].
Qed.

Lemma sorted_desc_sorted l : StronglySorted pair_desc (sorted_desc l).
Proof.
  unfold sorted_desc. induction l as [|x l IH]; cbn [fold_right];
    [constructor | now apply insert_desc_sorted].
Qed.

Lemma assoc_get_nodup {V} (d : list (string * V)) s v :
  List.NoDup (List.map fst d) -> In (s, v) d -> assoc_get s d = Some v.
Proof.
  induction d as [|[k w] d IH]; cbn [List.map fst assoc_get]; [intros _ []|].
  intros Hn Hin. apply List.NoDup_cons_iff in Hn. destruct Hn as [Hk Hn].
  destruct Hin as [[= -> ->]|Hin]; [now rewrite String.eqb_refl|].
  destruct (String.eqb k s) eqn:E; [|auto].
  apply String.eqb_eq in E. subst k. exfalso. apply Hk.
  apply in_map_iff. exists (s, v). auto.
Qed.

Lemma sorted_keys (counts l : list (string * Z)) :
  (forall p, In p l -> count_of counts (fst p) = snd p) ->
  StronglySorted pair_desc l ->
  StronglySorted (fun s1 s2 => count_of counts s2 <= count_of counts s1)
    (List.map fst l).
Proof.
  induction l as [|x l IH]; intros Hc Hs; cbn [List.map]; [constructor|].
  apply StronglySorted_inv in Hs. destruct Hs as [Hl Hx].
  constructor; [apply IH; [intros p Hp; apply Hc; now right | exact Hl]|].
  rewrite List.Forall_forall in *. intros s Hs. apply in_map_iff in Hs.
  destruct Hs as (p & <- & Hp). rewrite (Hc p) by now right.
  rewrite (Hc x) by now left. apply Hx, Hp.
Qed.

(** X8: the available states built by [_build_metadata] hold no state
    twice, are ordered by descending customer count, and every listed
    state has a positive count. *)
Theorem available_states_ordered (data : list Customer.t) :
  let md := DataSource.metadata (DataSource.load data) in
  let counts := DataSourceMetadata.state_counts md in
  List.NoDup (DataSourceMetadata.available_states md) /\
  StronglySorted (fun s1 s2 => count_of counts s2 <= count_of counts s1)
    (DataSourceMetadata.available_states md) /\
  (forall s, In s (DataSourceMetadata.available_states md) ->
             0 < count_of counts s).
Proof.
  cbn [DataSource.load DataSource.metadata DataSource._metadata default
       DataSource._build_indexes DataSource._customers
       DataSource._build_metadata DataSourceMetadata.available_states
       DataSourceMetadata.state_counts from_option id].
  set (counts := fold_left DataSource.count_state data []).
  pose proof (state_counts_keys_nodup data) as Hn. fold counts in Hn.
  split; [|split].
  - eapply Permutation_NoDup; [|exact Hn].
    apply Permutation_map, Permutation_sym, sorted_desc_perm.
  - apply sorted_keys; [|apply sorted_desc_sorted].
    intros [s n] Hp. cbn [fst snd]. unfold count_of.
    apply (Permutation_in _ (sorted_desc_perm counts)) in Hp.
    now rewrite (assoc_get_nodup counts s n Hn Hp).
  - intros s Hs.
    apply (Permutation_in _ (Permutation_map fst (sorted_desc_perm counts))) in Hs.
    apply assoc_get_in in Hs. unfold count_of, counts in *.
    rewrite state_counts_spec in *. cbv zeta in *.
    destruct (PyStr.truthy s && _) eqn:E; [|congruence].
    apply andb_prop in E. destruct E as [_ E]. apply Z.ltb_lt in E. exact E.
Qed.

Lemma sum_counts_update key (d : list (string * Z)) :
  sum_counts (assoc_update key (fun v => default 0 v + 1) d) = sum_counts d + 1.
Proof.
  unfold sum_counts.
  induction d as [|[k v] d IH]; cbn [assoc_update List.map snd fold_right default from_option id];
    [lia|].
  destruct (String.eqb k key); cbn [List.map snd fold_right default from_option id]; lia.
Qed.

Lemma filter_state_key (data : list Customer.t) (s : string) :
  List.filter (fun x => has_state_key x && in_state s x) data
  = if PyStr.truthy s then List.filter (in_state s) data else [].
Proof.
  destruct (PyStr.truthy s) eqn:T.
  - apply filter_ext'. intros c. unfold has_state_key, in_state.
    destruct (String.eqb (DataSource.state_key c) s) eqn:E;
      [|apply andb_false_r].
    apply String.eqb_eq in E. rewrite E, T. reflexivity.
  - induction data as [|c data IH]; [reflexivity|]. cbn [List.filter].
    unfold has_state_key at 1, in_state at 1.
    destruct (String.eqb (DataSource.state_key c) s) eqn:E.
    + apply String.eqb_eq in E. rewrite E, T. exact IH.
    + rewrite andb_false_r. exact IH.
Qed.

(** X9: in the dictionary returned by [stats], total is the number of
    loaded records, the per-state counts add up to the number of records
    with a non-empty state (so to at most the total), states is the number
    of entries of the counts, and the count of a state is the number of
    records whose uppercased state it is. *)
Theorem stats_totals (data : list Customer.t) :
  let st := DataSource.stats (DataSource.load data) in
  DataSource.stats_total st = Z.of_nat (List.length data) /\
  sum_counts (DataSource.stats_data st)
  = Z.of_nat (List.length (List.filter has_state_key data)) /\
  sum_counts (DataSource.stats_data st) <= DataSource.stats_total st /\
  DataSource.stats_states st = Z.of_nat (List.length (DataSource.stats_data st)) /\
  (forall s, count_of (DataSource.stats_data st) s
             = Z.of_nat (List.length (List.filter (in_state s) (List.filter has_state_key data)))).
Proof.
  unfold DataSource.stats.
  cbn [DataSource.load DataSource.metadata DataSource._metadata default
       DataSource._build_indexes DataSource._customers
       DataSource._build_metadata DataSourceMetadata.available_states
       DataSourceMetadata.state_counts DataSourceMetadata.total_records
       from_option id DataSource.stats_total DataSource.stats_data
       DataSource.stats_states].
  assert (Hsum : sum_counts (fold_left DataSource.count_state data [])
                 = Z.of_nat (List.length (List.filter has_state_key data))).
  { induction data as [|c data IH] using rev_ind; [reflexivity|].
    rewrite fold_left_snoc, filter_snoc. unfold DataSource.count_state at 1.
    unfold has_state_key at 2.
    destruct (PyStr.truthy (DataSource.state_key c)).
    - rewrite sum_counts_update, IH, length_app. cbn [List.length]. lia.
    - rewrite app_nil_r. exact IH. }
  split; [reflexivity|]. split; [exact Hsum|]. split.
  - rewrite Hsum. pose proof (filter_length_le has_state_key data). lia.
  - split.
    + rewrite length_map. f_equal. apply Permutation_length, sorted_desc_perm.
    + intros s. unfold count_of. rewrite state_counts_spec. cbv zeta.
      rewrite filter_and.
      pose proof (filter_state_key data s) as E.
      rewrite E. destruct (PyStr.truthy s); cbn [andb default from_option id].
      * rewrite pos_length_nonempty.
        destruct (List.filter (in_state s) data); reflexivity.
      * reflexivity.
Qed.

(** ** The record-ID index *)

Lemma by_crid_last (data : list Customer.t) (k : string) :
  fold_left DataSource.index_crid data (∅ : gmap string Customer.t) !! k
  = head (List.rev (List.filter (has_crid k) data)).
Proof.
  induction data as [|c data IH] using rev_ind; [apply lookup_empty|].
  rewrite fold_left_snoc, filter_snoc. unfold DataSource.index_crid, has_crid at 2.
  destruct (Customer.crid c) as [k'|] eqn:E.
  - destruct (String.eqb k' k) eqn:Ek.
    + apply String.eqb_eq in Ek. subst k'. rewrite lookup_insert_eq.
      rewrite rev_app_distr. reflexivity.
    + apply String.eqb_neq in Ek. rewrite lookup_insert_ne by exact Ek.
      rewrite app_nil_r. exact IH.
  - rewrite app_nil_r. exact IH.
Qed.

(** X10: [_build_indexes] keeps, for a record ID carried by several
    records, the last of them in data order; the state index holds under
    every non-empty uppercased state the records of that state in data
    order, and no empty list. *)
Theorem crid_index_keeps_last (data : list Customer.t) (k : string) :
  let ds := DataSource.load data in
  DataSource._by_crid ds !! k = head (List.rev (List.filter (has_crid k) data)) /\
  DataSource._by_state ds !! k
  = (if PyStr.truthy k && ContextAgent.nonempty (List.filter (in_state k) data)
     then Some (List.filter (in_state k) data) else None).
Proof.
  cbn [DataSource.load DataSource._build_indexes DataSource._by_crid
       DataSource._by_state DataSource._customers].
  split; [apply by_crid_last | apply by_state_spec].
Qed.

(** ** Keys that [lookup] can reach *)

Lemma upper_char_idem (c : ascii) :
  PyStr.upper_char (PyStr.upper_char c) = PyStr.upper_char c.
Proof. destruct c as [[] [] [] [] [] [] [] []]; vm_compute; reflexivity. Qed.

Lemma upper_char_sign (c : ascii) :
  (Ascii.eqb (PyStr.upper_char c) "+" || Ascii.eqb (PyStr.upper_char c) "-")
  = (Ascii.eqb c "+" || Ascii.eqb c "-").
Proof. destruct c as [[] [] [] [] [] [] [] []]; vm_compute; reflexivity. Qed.

Lemma upper_idem (s : string) : PyStr.upper (PyStr.upper s) = PyStr.upper s.
Proof.
  unfold PyStr.upper. induction s as [|c s IH]; cbn [PyStr.map_chars]; [reflexivity|].
  now rewrite upper_char_idem, IH.
Qed.

Lemma upper_append (a b : string) :
  PyStr.upper (a ++ b) = PyStr.upper a ++ PyStr.upper b.
Proof.
  unfold PyStr.upper. induction a as [|x a IH]; [reflexivity|].
  change (String x a ++ b) with (String x (a ++ b)).
  cbn [PyStr.map_chars]. rewrite IH. reflexivity.
Qed.

Lemma upper_repeat_zero (n : nat) :
  PyStr.upper (PyStr.repeat_char "0" n) = PyStr.repeat_char "0" n.
Proof.
  unfold PyStr.upper. induction n as [|n IH]; [reflexivity|].
  cbn [PyStr.repeat_char PyStr.map_chars]. rewrite IH. reflexivity.
Qed.

Lemma upper_length (s : string) : String.length (PyStr.upper s) = String.length s.
Proof.
  unfold PyStr.upper. induction s as [|c s IH]; cbn; [reflexivity | now rewrite IH].
Qed.

Lemma upper_zfill (w : nat) (s : string) :
  PyStr.upper s = s -> PyStr.upper (PyStr.zfill w s) = PyStr.zfill w s.
Proof.
  intros H. unfold PyStr.zfill. destruct s as [|c rest].
  - apply upper_repeat_zero.
  - assert (Hc : PyStr.upper_char c = c /\ PyStr.upper rest = rest).
    { unfold PyStr.upper in H. cbn [PyStr.map_chars] in H.
      injection H as H1 H2. auto. }
    destruct Hc as [Hc Hr].
    destruct (Ascii.eqb c "+" || Ascii.eqb c "-").
    + change (PyStr.upper (String c ?x)) with (String (PyStr.upper_char c) (PyStr.upper x)).
      unfold PyStr.upper at 1. cbn [PyStr.map_chars]. fold (PyStr.upper).
      rewrite Hc. f_equal.
      change (PyStr.map_chars PyStr.upper_char) with PyStr.upper.
      rewrite upper_append, upper_repeat_zero, Hr. reflexivity.
    + rewrite upper_append, upper_repeat_zero, H. reflexivity.
Qed.

Lemma upper_strip_prefix (p s r : string) :
  PyStr.strip_prefix p s = Some r -> PyStr.upper s = s -> PyStr.upper r = r.
Proof.
  revert s. induction p as [|a p IH]; intros s; cbn [PyStr.strip_prefix].
  - intros [= ->]. auto.
  - destruct s as [|b s]; [discriminate|].
    destruct (Ascii.eqb a b); [|discriminate].
    intros H Hu. apply (IH s H). unfold PyStr.upper in *.
    cbn [PyStr.map_chars] in Hu. now injection Hu.
Qed.

Lemma crid_formats_upper (key k : string) :
  PyStr.upper key = key -> In k (DataSource.crid_formats key) ->
  PyStr.upper k = k.
Proof.
  intros Hk. unfold DataSource.crid_formats.
  set (num := PyStr.removeprefix "CRID-" key).
  assert (Hn : PyStr.upper num = num).
  { subst num. unfold PyStr.removeprefix.
    destruct (PyStr.strip_prefix "CRID-" key) eqn:E; [|exact Hk].
    eapply upper_strip_prefix; eauto. }
  cbn [In]. intros [<-|[<-|[<-|[<-|[]]]]]; auto;
    rewrite upper_append, upper_zfill by exact Hn; reflexivity.
Qed.

(** X11: a record returned by [lookup] is one of the loaded records, its
    own record ID is one of the candidate spellings of the uppercased
    request, the request starts with CRID- once uppercased, and the ID is
    unchanged by uppercasing: a record stored under an ID with a lowercase
    letter is never returned. *)
Theorem lookup_reaches_upper_keys (data : list Customer.t) (crid : string)
    (d : Customer.t) :
  DataSource.lookup (DataSource.load data) crid = LookupFound d ->
  exists k, Customer.crid d = Some k /\ PyStr.upper k = k /\
            PyStr.startswith "CRID-" (PyStr.upper crid) = true /\
            In k (DataSource.crid_formats (PyStr.upper crid)) /\ In d data.
Proof.
  unfold DataSource.lookup.
  destruct (PyStr.startswith "CRID-" (PyStr.upper crid)) eqn:P; [|discriminate].
  destruct (DataSource.first_hit _ _) as [d'|] eqn:F; [|discriminate].
  intros [= ->].
  assert (Ht : forall k c, DataSource._by_crid (DataSource.load data) !! k = Some c ->
                           Customer.truthy c = true)
    by (intros k c Hk; now apply (by_crid_truthy data k c)).
  apply (first_hit_some _ Ht) in F.
  destruct F as (pre & fmt & post & E & Hd & _).
  exists fmt. destruct (by_crid_truthy data fmt d Hd) as [Hc _].
  assert (Hin : In fmt (DataSource.crid_formats (PyStr.upper crid)))
    by (rewrite E; apply in_or_app; right; now left).
  split; [exact Hc|]. split; [|split; [reflexivity|split; [exact Hin|]]].
  - eapply crid_formats_upper; [apply upper_idem | exact Hin].
  - cbn [DataSource.load DataSource._build_indexes DataSource._by_crid
         DataSource._customers] in Hd.
    rewrite by_crid_last in Hd.
    assert (Hr : In d (List.rev (List.filter (has_crid fmt) data)))
      by (destruct (List.rev _); [discriminate | injection Hd as ->; now left]).
    apply in_rev, filter_In in Hr. tauto.
Qed.

(** X12: a loaded record whose ID starts with CRID- and holds no
    lowercase letter is reachable: [lookup] with that ID succeeds. *)
Theorem lookup_own_key (data : list Customer.t) (c : Customer.t) (k : string) :
  In c data -> Customer.crid c = Some k ->
  PyStr.upper k = k -> PyStr.startswith "CRID-" k = true ->
  DataSource.lookup_success (DataSource.lookup (DataSource.load data) k) = true.
Proof.
  intros Hin Hc Hu Hp. unfold DataSource.lookup. rewrite Hu, Hp.
  destruct (DataSource.first_hit _ _) as [d|] eqn:F; [reflexivity|].
  exfalso.
  assert (Ht : forall k c, DataSource._by_crid (DataSource.load data) !! k = Some c ->
                           Customer.truthy c = true)
    by (intros k0 c0 Hk; now apply (by_crid_truthy data k0 c0)).
  pose proof (proj1 (first_hit_none _ Ht _) F) as F'. clear F. rename F' into F.
  specialize (F k). unfold DataSource.crid_formats in F.
  assert (Hk : DataSource._by_crid (DataSource.load data) !! k = None)
    by (apply F; cbn; auto).
  cbn [DataSource.load DataSource._build_indexes DataSource._by_crid
       DataSource._customers] in Hk.
  rewrite by_crid_last in Hk.
  assert (Hf : In c (List.rev (List.filter (has_crid k) data))).
  { apply in_rev. rewrite <- in_rev. apply -> in_rev. apply filter_In.
    split; [exact Hin|]. unfold has_crid. rewrite Hc. apply String.eqb_refl. }
  destruct (List.rev _); [destruct Hf | discriminate].
Qed.

(** ** State membership and [search] for any limit *)

Lemma existsb_eqb_in (s : string) (l : list string) :
  existsb (String.eqb s) l = true <-> In s l.
Proof.
  rewrite existsb_exists. split.
  - intros (x & Hx & E). apply String.eqb_eq in E. now subst.
  - intros H. exists s. split; [exact H | apply String.eqb_refl].
Qed.

(** X13: for a loaded source, [DataSourceMetadata.has_state] and
    [DataSource.has_state] agree on every argument, and both hold exactly
    when the uppercased argument is not empty and is the uppercased state
    of some loaded record. *)
Theorem has_state_agrees (data : list Customer.t) (state : string) :
  let ds := DataSource.load data in
  DataSourceMetadata.has_state (DataSource.metadata ds) state
  = DataSource.has_state ds state /\
  (DataSource.has_state ds state = true <->
   PyStr.upper state <> EmptyString /\
   exists c, In c data /\ DataSource.state_key c = PyStr.upper state).
Proof.
  intros ds. split.
  - unfold DataSourceMetadata.has_state, DataSource.has_state.
    pose proof (available_states_spec data (PyStr.upper state)) as H. fold ds in H.
    destruct (DataSource._by_state ds !! PyStr.upper state) as [l|].
    + apply existsb_eqb_in, H. eauto.
    + apply not_true_is_false. intros E. apply existsb_eqb_in, H in E.
      destruct E; discriminate.
  - unfold DataSource.has_state. subst ds.
    cbn [DataSource.load DataSource._build_indexes DataSource._by_state
         DataSource._customers].
    rewrite by_state_spec. cbv zeta.
    set (s := PyStr.upper state). set (l := List.filter (in_state s) data).
    assert (Hl : ContextAgent.nonempty l = true <->
                 exists c, In c data /\ DataSource.state_key c = s).
    { subst l. split.
      - destruct (List.filter (in_state s) data) as [|c l'] eqn:E; [discriminate|].
        intros _. exists c.
        assert (Hc : In c (List.filter (in_state s) data)) by (rewrite E; now left).
        apply filter_In in Hc. destruct Hc as [Hc1 Hc2]. split; [exact Hc1|].
        now apply String.eqb_eq.
      - intros (c & Hc & Hk).
        assert (Hin : In c (List.filter (in_state s) data)).
        { apply filter_In. split; [exact Hc|]. unfold in_state. rewrite Hk.
          apply String.eqb_refl. }
        destruct (List.filter (in_state s) data); [destruct Hin | reflexivity]. }
    destruct s as [|a s']; cbn [PyStr.truthy andb].
    + split; [discriminate | intros [H _]; congruence].
    + destruct (ContextAgent.nonempty l) eqn:N; cbn.
      * split; [|reflexivity]. intros _. split; [discriminate | now apply Hl].
      * split; [discriminate|]. intros [_ H]. apply Hl in H. discriminate.
Qed.

Lemma search_shape (data : list Customer.t) (state city : option string)
    (min_moves : option Z) (customer_type : option string)
    (has_apartment : option bool) (limit : option Z) :
  let ds := DataSource.load data in
  let found :=
    List.filter (matches state city min_moves customer_type has_apartment) data in
  (DataSource.truthy_str state = true ->
   is_Some (DataSource._by_state ds !! PyStr.upper (default EmptyString state))) ->
  DataSource.search ds state city min_moves customer_type has_apartment limit
  = SearchOk (Z.of_nat (List.length found))
      (if DataSource.truthy_int limit
       then slice_to (default 0 limit) found else found).
Proof.
  intros ds found Hs. unfold DataSource.search.
  destruct (DataSource.truthy_str state) eqn:T.
  - destruct (Hs eq_refl) as [l Hl]. rewrite Hl.
    assert (l = List.filter (in_state (PyStr.upper (default EmptyString state))) data) as ->.
    { subst ds. cbn [DataSource.load DataSource._build_indexes DataSource._by_state
                     DataSource._customers] in Hl.
      rewrite by_state_spec in Hl. cbv zeta in Hl.
      destruct (_ && _); congruence. }
    rewrite (apply_filters_spec state) by (intros c; rewrite T; reflexivity).
    reflexivity.
  - replace (DataSource._customers ds) with (List.filter (fun _ : Customer.t => true) data)
      by (apply filter_true).
    rewrite (apply_filters_spec state) by (intros c; rewrite T; reflexivity).
    reflexivity.
Qed.

(** X14: [search] answers state_not_available exactly when a non-empty
    state is given that [has_state] rejects; otherwise total counts every
    matching record whatever the limit, the returned data is a prefix of
    the matching records in data order, and a negative limit [n] drops the
    last [-n] of them. *)
Theorem search_any_limit (data : list Customer.t) (state city : option string)
    (min_moves : option Z) (customer_type : option string)
    (has_apartment : option bool) (limit : option Z) :
  let ds := DataSource.load data in
  let found :=
    List.filter (matches state city min_moves customer_type has_apartment) data in
  match DataSource.search ds state city min_moves customer_type
          has_apartment limit with
  | SearchOk total d =>
      total = Z.of_nat (List.length found) /\
      (exists rest, found = (d ++ rest)%list) /\
      (forall n, limit = Some n -> n < 0 ->
         d = firstn (List.length found - Z.to_nat (- n)) found) /\
      (DataSource.truthy_str state = true ->
       DataSource.has_state ds (default EmptyString state) = true)
  | SearchStateNotAvailable _ _ _ _ _ =>
      DataSource.truthy_str state = true /\
      DataSource.has_state ds (default EmptyString state) = false
  end.
Proof.
  intros ds found.
  destruct (DataSource.truthy_str state) eqn:T.
  - destruct (DataSource._by_state ds !! PyStr.upper (default EmptyString state))
      as [l|] eqn:Hl.
    + rewrite (search_shape data state) by (fold ds; rewrite Hl; eauto).
      fold found. split; [reflexivity|]. split; [|split].
      * destruct (DataSource.truthy_int limit); [|exists []; now rewrite app_nil_r].
        unfold slice_to. destruct (_ <? 0);
          eexists; symmetry; apply firstn_skipn.
      * intros n -> Hn. cbn [DataSource.truthy_int default from_option id].
        replace (n =? 0) with false by (symmetry; apply Z.eqb_neq; lia).
        cbn [negb]. unfold slice_to.
        replace (n <? 0) with true by (symmetry; apply Z.ltb_lt; lia).
        reflexivity.
      * intros _. unfold DataSource.has_state. now rewrite Hl.
    + unfold DataSource.search. rewrite T. cbv zeta. rewrite Hl.
      split; [reflexivity|]. unfold DataSource.has_state. now rewrite Hl.
  - rewrite (search_shape data state) by (fold ds; rewrite T; discriminate).
    fold found. split; [reflexivity|]. split; [|split].
    + destruct (DataSource.truthy_int limit); [|exists []; now rewrite app_nil_r].
      unfold slice_to. destruct (_ <? 0);
        eexists; symmetry; apply firstn_skipn.
    + intros n -> Hn. cbn [DataSource.truthy_int default from_option id].
      replace (n =? 0) with false by (symmetry; apply Z.eqb_neq; lia).
      cbn [negb]. unfold slice_to.
      replace (n <? 0) with true by (symmetry; apply Z.ltb_lt; lia).
      reflexivity.
    + discriminate.
Qed.

Lemma lookup_reaches_upper_keys_witness :
  exists k, Customer.crid (Demo.customer "CRID-000042" "nv" "Reno" 3) = Some k /\
            PyStr.upper k = k /\
            PyStr.startswith "CRID-" (PyStr.upper "crid-42") = true /\
            In k (DataSource.crid_formats (PyStr.upper "crid-42")) /\
            In (Demo.customer "CRID-000042" "nv" "Reno" 3) Demo.customers.
Proof.
  apply (lookup_reaches_upper_keys Demo.customers "crid-42"
           (Demo.customer "CRID-000042" "nv" "Reno" 3)).
  vm_compute. reflexivity.
Defined.

Lemma lookup_own_key_witness :
  DataSource.lookup_success
    (DataSource.lookup (DataSource.load Demo.customers) "CRID-007") = true.
Proof.
  apply (lookup_own_key Demo.customers (Demo.customer "CRID-007" "CA" "Los Angeles" 1)
           "CRID-007").
  - cbn. auto.
  - reflexivity.
  - reflexivity.
  - reflexivity.
Defined.

(** ** The order of strings *)

Lemma ascii_compare_refl (a : ascii) : Ascii.compare a a = Eq.
Proof. unfold Ascii.compare. apply N.compare_refl. Qed.

Lemma ascii_compare_eqb (a b : ascii) : Ascii.eqb a b = true -> Ascii.compare a b = Eq.
Proof. intros H. apply Ascii.eqb_eq in H. subst. apply ascii_compare_refl. Qed.

Lemma ascii_compare_lt_trans (a b c : ascii) :
  Ascii.compare a b = Lt -> Ascii.compare b c = Lt -> Ascii.compare a c = Lt.
Proof.
  unfold Ascii.compare. rewrite !N.compare_lt_iff. lia.
Qed.

Lemma string_compare_refl (s : string) : String.compare s s = Eq.
Proof.
  induction s as [|a s IH]; [reflexivity|]. cbn. now rewrite ascii_compare_refl.
Qed.

Lemma string_compare_lt_trans (a : string) : forall b c,
  String.compare a b = Lt -> String.compare b c = Lt -> String.compare a c = Lt.
Proof.
  induction a as [|x a IH]; intros [|y b] [|z c]; cbn; try discriminate; auto.
  destruct (Ascii.compare x y) eqn:Exy; try discriminate.
  - apply Ascii.compare_eq_iff in Exy. subst y.
    destruct (Ascii.compare x z); try discriminate; auto. apply IH.
  - intros _. destruct (Ascii.compare y z) eqn:Eyz; try discriminate.
    + apply Ascii.compare_eq_iff in Eyz. subst z. now rewrite Exy.
    + intros _. now rewrite (ascii_compare_lt_trans x y z).
Qed.

Lemma ltb_not_leb (a b : string) : String.ltb a b = negb (String.leb b a).
Proof.
  unfold String.ltb, String.leb. rewrite (String.compare_antisym a b).
  destruct (String.compare b a); reflexivity.
Qed.

Lemma leb_trans (a b c : string) :
  String.leb a b = true -> String.leb b c = true -> String.leb a c = true.
Proof.
  unfold String.leb.
  destruct (String.compare a b) eqn:Eab; try discriminate; intros _;
    destruct (String.compare b c) eqn:Ebc; try discriminate; intros _.
  - apply String.compare_eq_iff in Eab, Ebc. subst. now rewrite string_compare_refl.
  - apply String.compare_eq_iff in Eab. subst. now rewrite Ebc.
  - apply String.compare_eq_iff in Ebc. subst. now rewrite Eab.
  - now rewrite (string_compare_lt_trans a b c).
Qed.

Lemma startswith_leb (p : string) : forall s,
  PyStr.startswith p s = true -> String.leb p s = true.
Proof.
  unfold String.leb.
  induction p as [|a p IH]; intros [|b s]; cbn; try discriminate; auto.
  intros H. apply andb_prop in H. destruct H as [Hab Hs].
  rewrite (ascii_compare_eqb a b Hab). now apply IH.
Qed.

(** Between a prefix and a string that starts with it, every string
    starts with it. *)
Lemma startswith_between (p : string) : forall a b,
  String.leb p a = true -> String.leb a b = true ->
  PyStr.startswith p b = true -> PyStr.startswith p a = true.
Proof.
  unfold String.leb.
  induction p as [|x p IH]; intros [|y a] [|z b]; cbn; try discriminate; auto.
  intros Hpa Hab Hb. apply andb_prop in Hb. destruct Hb as [Hxz Hb].
  apply Ascii.eqb_eq in Hxz. subst z.
  destruct (Ascii.compare x y) eqn:Exy; try discriminate.
  - apply Ascii.compare_eq_iff in Exy. subst y.
    rewrite ascii_compare_refl in Hab. rewrite Ascii.eqb_refl. cbn.
    now apply (IH a b).
  - rewrite Ascii.compare_antisym, Exy in Hab. discriminate.
Qed.

(** ** The autocomplete indexes *)

Lemma insert_key_perm x l : Permutation (DataSource.insert_key x l) (x :: l).
Proof.
  induction l as [|y l IH]; cbn [DataSource.insert_key]; [reflexivity|].
  destruct (String.leb (fst x) (fst y)); [reflexivity|].
  rewrite IH. apply perm_swap.
Qed.

Lemma sorted_key_perm l : Permutation (DataSource.sorted_key l) l.
Proof.
  induction l as [|x l IH]; [reflexivity|].
  cbn [DataSource.sorted_key fold_right]. fold (DataSource.sorted_key l).
  rewrite insert_key_perm. now constructor.
Qed.

Lemma insert_key_sorted x l :
  StronglySorted key_le l -> StronglySorted key_le (DataSource.insert_key x l).
Proof.
  induction 1 as [|y l Hl IH Hy]; cbn [DataSource.insert_key].
  - repeat constructor.
  - destruct (String.leb (fst x) (fst y)) eqn:E.
    + constructor; [now constructor|]. constructor; [exact E|].
      rewrite List.Forall_forall in *. intros z Hz.
      unfold key_le in *. eapply leb_trans; [exact E | now apply Hy].
    + constructor; [exact IH|].
      rewrite List.Forall_forall in *. intros z Hz.
      apply (Permutation_in _ (insert_key_perm x l)) in Hz.
      destruct Hz as [<-|Hz]; [|now apply Hy].
      unfold key_le. destruct (String.leb_total (fst x) (fst y)); congruence.
Qed.

Lemma sorted_key_sorted l : StronglySorted key_le (DataSource.sorted_key l).
Proof.
  induction l as [|x l IH]; [constructor|].
  cbn [DataSource.sorted_key fold_right]. now apply insert_key_sorted.
Qed.

(** Stability: entries with the same key keep their order. *)
Lemma insert_key_filter (k : string) x l :
  StronglySorted key_le l ->
  List.filter (fun e => String.eqb (fst e) k) (DataSource.insert_key x l)
  = List.filter (fun e => String.eqb (fst e) k) (x :: l).
Proof.
  induction 1 as [|y l Hl IH Hy]; cbn [DataSource.insert_key]; [reflexivity|].
  destruct (String.leb (fst x) (fst y)) eqn:E; [reflexivity|].
  cbn [List.filter] in *. rewrite IH.
  destruct (String.eqb (fst x) k) eqn:Ex, (String.eqb (fst y) k) eqn:Ey; try reflexivity.
  apply String.eqb_eq in Ex, Ey. subst k. rewrite <- Ey in E.
  unfold String.leb in E. rewrite string_compare_refl in E. discriminate.
Qed.

Lemma sorted_key_stable (k : string) l :
  List.filter (fun e => String.eqb (fst e) k) (DataSource.sorted_key l)
  = List.filter (fun e => String.eqb (fst e) k) l.
Proof.
  induction l as [|x l IH]; [reflexivity|].
  cbn [DataSource.sorted_key fold_right]. fold (DataSource.sorted_key l).
  rewrite insert_key_filter by apply sorted_key_sorted.
  cbn [List.filter]. now rewrite IH.
Qed.

Lemma index_entries_spec get customers k c :
  In (k, c) (DataSource.index_entries get customers) <->
  In c customers /\ exists v, get c = Some v /\ PyStr.truthy v = true /\ k = PyStr.lower v.
Proof.
  unfold DataSource.index_entries. rewrite in_flat_map. split.
  - intros (c' & Hc' & Hin). unfold DataSource.truthy_str in Hin.
    destruct (get c') as [v|] eqn:G; [|destruct Hin].
    destruct (PyStr.truthy v) eqn:T; [|destruct Hin].
    destruct Hin as [[= <- <-]|[]]. split; [exact Hc'|]. exists v. auto.
  - intros (Hc & v & G & T & ->). exists c. split; [exact Hc|].
    unfold DataSource.truthy_str. rewrite G, T. now left.
Qed.

(** ** Binary search *)

Lemma below_split (x : string) (a : list (string * Customer.t)) :
  StronglySorted key_le a ->
  forall i e, nth_error a i = Some e ->
    (below x e = true <-> (i < List.length (List.filter (below x) a))%nat).
Proof.
  induction 1 as [|e0 a Ha IH H0]; intros i e Hi.
  - destruct i; discriminate.
  - cbn [List.filter]. destruct (below x e0) eqn:B0.
    + destruct i as [|i]; cbn in Hi.
      * injection Hi as <-. cbn [List.length]. split; [lia | auto].
      * cbn [List.length]. rewrite (IH i e Hi). lia.
    + assert (Hall : forall e', In e' a -> below x e' = false).
      { intros e' He'. rewrite List.Forall_forall in H0. specialize (H0 e' He').
        unfold below in *. rewrite ltb_not_leb in *.
        apply negb_false_iff in B0. apply negb_false_iff.
        unfold key_le in H0. eapply leb_trans; eauto. }
      assert (Hnil : List.filter (below x) a = []).
      { clear -Hall. induction a as [|y a IH]; [reflexivity|]. cbn.
        rewrite (Hall y) by now left. apply IH. intros; apply Hall; now right. }
      rewrite Hnil. cbn [List.length].
      assert (below x e = false).
      { destruct i; cbn in Hi; [now injection Hi as <-|].
        apply Hall. eapply nth_error_In; eauto. }
      split; [congruence | lia].
Qed.

Lemma bisect_loop_spec (a : list (string * Customer.t)) (x : string) :
  StronglySorted key_le a ->
  forall fuel lo hi,
    (lo <= List.length (List.filter (below x) a) <= hi)%nat ->
    (hi <= List.length a)%nat -> (hi - lo <= fuel)%nat ->
    DataSource.bisect_loop fuel a x lo hi = List.length (List.filter (below x) a).
Proof.
  intros Hs. set (r := List.length (List.filter (below x) a)).
  induction fuel as [|fuel IH]; intros lo hi Hr Hhi Hf; cbn [DataSource.bisect_loop].
  - lia.
  - destruct (lo <? hi)%nat eqn:L; [|apply Nat.ltb_ge in L; lia].
    apply Nat.ltb_lt in L.
    assert (Hmid : (lo <= (lo + hi) / 2 < hi)%nat).
    { split; [apply Nat.div_le_lower_bound; lia | apply Nat.Div0.div_lt_upper_bound; lia]. }
    destruct (nth_error a ((lo + hi) / 2)) as [[value c]|] eqn:N.
    + pose proof (below_split x a Hs _ _ N) as Hb. fold r in Hb.
      unfold below in Hb. cbn [fst] in Hb.
      destruct (String.ltb value x).
      * destruct Hb as [Hb _]. specialize (Hb eq_refl). apply IH; lia.
      * assert (~ ((lo + hi) / 2 < r)%nat) by (intros H; apply Hb in H; discriminate).
        apply IH; lia.
    + apply nth_error_None in N. lia.
Qed.

Lemma bisect_left_spec (a : list (string * Customer.t)) (x : string) :
  StronglySorted key_le a ->
  DataSource.bisect_left a x = List.length (List.filter (below x) a).
Proof.
  intros Hs. unfold DataSource.bisect_left. apply bisect_loop_spec; auto; try lia.
  split; [lia | apply filter_length_le].
Qed.

(** On a sorted list the entries below [x] come first. *)
Lemma sorted_split (x : string) (a : list (string * Customer.t)) :
  StronglySorted key_le a ->
  firstn (List.length (List.filter (below x) a)) a = List.filter (below x) a /\
  skipn (List.length (List.filter (below x) a)) a
  = List.filter (fun e => negb (below x e)) a.
Proof.
  induction 1 as [|e0 a Ha IH H0]; [split; reflexivity|].
  cbn [List.filter]. destruct (below x e0) eqn:B0; cbn [negb List.length firstn skipn].
  - destruct IH as [IH1 IH2]. split; [now rewrite IH1 | exact IH2].
  - assert (Hall : forall e', In e' a -> below x e' = false).
    { intros e' He'. rewrite List.Forall_forall in H0. specialize (H0 e' He').
      unfold below in *. rewrite ltb_not_leb in *.
      apply negb_false_iff in B0. apply negb_false_iff.
      unfold key_le in H0. eapply leb_trans; eauto. }
    assert (Hnil : List.filter (below x) a = []).
    { clear -Hall. induction a as [|y a IH]; [reflexivity|]. cbn.
      rewrite (Hall y) by now left. apply IH. intros; apply Hall; now right. }
    rewrite Hnil in *. cbn [List.length firstn skipn] in *.
    destruct IH as [_ IH2]. split; [reflexivity|]. now rewrite <- IH2.
Qed.

(** X15: on an autocomplete index the binary search of [autocomplete]
    returns a position within the index that splits it by the prefix:
    the entries before it are exactly those whose key is below the
    prefix, the entries from it on exactly those whose key is not. *)
Theorem bisect_left_partition (customers : list Customer.t)
    (get : Customer.t -> option string) (x : string) :
  let index := DataSource.sorted_key (DataSource.index_entries get customers) in
  let pos := DataSource.bisect_left index x in
  (pos <= List.length index)%nat /\
  firstn pos index = List.filter (fun e => String.ltb (fst e) x) index /\
  skipn pos index = List.filter (fun e => String.leb x (fst e)) index.
Proof.
  intros index pos.
  assert (Hs : StronglySorted key_le index) by apply sorted_key_sorted.
  subst pos. rewrite (bisect_left_spec index x Hs).
  destruct (sorted_split x index Hs) as [H1 H2].
  split; [apply filter_length_le|]. split; [exact H1|].
  rewrite H2. apply filter_ext'. intros e. unfold below.
  rewrite ltb_not_leb. apply negb_involutive.
Qed.

(** ** The loop of [autocomplete] *)

Lemma index_for_spec (self : DataSource.t) (field : string)
    (index : list (string * Customer.t)) :
  DataSource.index_for self field = Some index ->
  ac_field field = true /\
  StronglySorted key_le index /\
  forall k c, In (k, c) index <->
    In c (DataSource._customers self) /\
    exists v, DataSource.get_text c field = Some v /\
              PyStr.truthy v = true /\ k = PyStr.lower v.
Proof.
  unfold DataSource.index_for, ac_field.
  destruct (String.eqb field "address") eqn:Ea;
    [|destruct (String.eqb field "name") eqn:En;
      [|destruct (String.eqb field "city") eqn:Ec; [|discriminate]]];
  intros [= <-]; (split; [reflexivity|]); (split; [apply sorted_key_sorted|]);
  intros k c;
  [ apply String.eqb_eq in Ea | apply String.eqb_eq in En | apply String.eqb_eq in Ec ];
  subst field;
  unfold DataSource._address_index, DataSource._name_index, DataSource._city_index;
  (split; [intros H; apply (Permutation_in _ (sorted_key_perm _)) in H
          | intros H; apply (Permutation_in _ (Permutation_sym (sorted_key_perm _)))]);
  apply index_entries_spec; exact H.
Qed.

Lemma city_count_pos (self : DataSource.t) (c : Customer.t) (city : string) :
  In c (DataSource._customers self) -> Customer.city c = Some city ->
  1 <= DataSource.city_count self (PyStr.lower city).
Proof.
  intros Hin Hc. unfold DataSource.city_count.
  assert (H : In c (List.filter
                (fun c0 => String.eqb (PyStr.lower (default EmptyString (Customer.city c0)))
                             (PyStr.lower city)) (DataSource._customers self))).
  { apply filter_In. split; [exact Hin|]. rewrite Hc. apply String.eqb_refl. }
  destruct (List.filter _ _); [destruct H|]. cbn [List.length]. lia.
Qed.

Section Loop.
Variable self : DataSource.t.
Variable field p : string.
Variable limit : Z.

Lemma loop_sound_prefix (entries : list (string * Customer.t)) :
  forall results seen out,
    DataSource.autocomplete_loop self field p limit entries results seen
    = DataSource.Got out ->
    exists new, out = (results ++ new)%list.
Proof.
  induction entries as [|[value customer] rest IH]; intros results seen out;
    cbn [DataSource.autocomplete_loop].
  - intros [= <-]. exists []. now rewrite app_nil_r.
  - destruct (Z.of_nat (List.length results) <? limit);
      [|intros [= <-]; exists []; now rewrite app_nil_r].
    destruct (PyStr.startswith p value);
      [|intros [= <-]; exists []; now rewrite app_nil_r].
    destruct (String.eqb field "city").
    + unfold DataSource.getitem.
      destruct (DataSource.get_text customer "city") as [v|]; [|discriminate].
      destruct (existsb _ seen); [apply IH|].
      destruct (DataSource.get_text customer "state") as [st|]; [|discriminate].
      intros H. destruct (IH _ _ _ H) as (new & ->).
      eexists. now rewrite <- app_assoc.
    + destruct (DataSource.record_item field customer) as [item|key]; [|discriminate].
      intros H. destruct (IH _ _ _ H) as (new & ->).
      eexists. now rewrite <- app_assoc.
Qed.

Lemma loop_sound (entries : list (string * Customer.t)) :
  (forall e, In e entries -> entry_ok self field e) ->
  forall results seen out,
    DataSource.autocomplete_loop self field p limit entries results seen
    = DataSource.Got out ->
    (field = "city" ->
     seen = List.rev (List.map item_key results) /\ List.NoDup seen) ->
    Z.of_nat (List.length results) <= Z.max 0 limit ->
    List.Forall (item_ok self field p) results ->
    (exists new, out = (results ++ new)%list) /\
    Z.of_nat (List.length out) <= Z.max 0 limit /\
    List.Forall (item_ok self field p) out /\
    (field = "city" -> List.NoDup (List.map item_key out)).
Proof.
  induction entries as [|[value customer] rest IH]; intros Hent results seen out;
    cbn [DataSource.autocomplete_loop].
  - intros [= <-] Hseen Hlen Hok.
    split; [exists []; now rewrite app_nil_r|]. split; [exact Hlen|].
    split; [exact Hok|]. intros F. destruct (Hseen F) as [-> Hnd].
    apply NoDup_rev in Hnd. now rewrite rev_involutive in Hnd.
  - assert (Hdone : DataSource.Got results = DataSource.Got out ->
              (field = "city" ->
               seen = List.rev (List.map item_key results) /\ List.NoDup seen) ->
              Z.of_nat (List.length results) <= Z.max 0 limit ->
              List.Forall (item_ok self field p) results ->
              (exists new, out = (results ++ new)%list) /\
              Z.of_nat (List.length out) <= Z.max 0 limit /\
              List.Forall (item_ok self field p) out /\
              (field = "city" -> List.NoDup (List.map item_key out))).
    { intros [= <-] Hseen Hlen Hok.
      split; [exists []; now rewrite app_nil_r|]. split; [exact Hlen|].
      split; [exact Hok|]. intros F. destruct (Hseen F) as [-> Hnd].
      apply NoDup_rev in Hnd. now rewrite rev_involutive in Hnd. }
    destruct (Z.of_nat (List.length results) <? limit) eqn:L; [|exact Hdone].
    destruct (PyStr.startswith p value) eqn:SW; [|exact Hdone].
    clear Hdone. apply Z.ltb_lt in L.
    destruct (Hent (value, customer) (or_introl eq_refl)) as (Hin & v & Hv & Tv & Hk).
    cbn [fst snd] in Hin, Hv, Hk.
    assert (Hrest : forall e, In e rest -> entry_ok self field e)
      by (intros e He; apply Hent; now right).
    destruct (String.eqb field "city") eqn:Fc.
    + apply String.eqb_eq in Fc.
      unfold DataSource.getitem.
      assert (Hcity : DataSource.get_text customer "city" = Some v) by (now rewrite <- Fc).
      rewrite Hcity.
      destruct (existsb (String.eqb (PyStr.lower v)) seen) eqn:Seen.
      * intros H. apply (IH Hrest results seen out H).
      * destruct (DataSource.get_text customer "state") as [st|] eqn:Hst; [|discriminate].
        intros H Hseen Hlen Hok. destruct (Hseen Fc) as [Hs Hnd].
        destruct (IH Hrest _ _ out H) as ((new & Hnew) & H2 & H3 & H4).
        -- intros _. split.
           ++ rewrite map_app, rev_app_distr. cbn [List.map List.rev app].
              unfold item_key at 1. cbn [item_value]. now rewrite Hs.
           ++ constructor; [|exact Hnd].
              intros Hmem. apply not_true_iff_false in Seen. apply Seen.
              apply existsb_exists. exists (PyStr.lower v). split; [exact Hmem|].
              apply String.eqb_refl.
        -- rewrite length_app. cbn [List.length]. lia.
        -- apply Forall_app. split; [exact Hok|]. constructor; [|constructor].
           split; [unfold item_key; cbn [item_value]; now rewrite <- Hk|].
           split; [exact Fc|]. split.
           ++ exists customer. split; [exact Hin|]. split; [exact Hcity | exact Hst].
           ++ split; [reflexivity|]. now apply (city_count_pos self customer).
        -- split; [|auto]. exists ([DataSource.AcCity v st
                                     (DataSource.city_count self (PyStr.lower v))] ++ new)%list.
           now rewrite Hnew, <- app_assoc.
    + destruct (DataSource.record_item field customer) as [item|key] eqn:RI; [|discriminate].
      intros H Hseen Hlen Hok.
      assert (Fne : field <> "city") by (now apply String.eqb_neq).
      assert (Hitem : item_ok self field p item).
      { unfold DataSource.record_item, DataSource.getitem in RI.
        destruct (DataSource.get_text customer "crid") as [crid|] eqn:G1; [|discriminate].
        rewrite Hv in RI.
        destruct (DataSource.get_text customer "name") as [nm|] eqn:G2; [|discriminate].
        destruct (DataSource.get_text customer "city") as [ct|] eqn:G3; [|discriminate].
        destruct (DataSource.get_text customer "state") as [st|] eqn:G4; [|discriminate].
        injection RI as <-. split.
        - unfold item_key. cbn [item_value]. now rewrite <- Hk.
        - split; [exact Fne|]. exists customer. split; [exact Hin|].
          unfold DataSource.record_item, DataSource.getitem.
          now rewrite G1, Hv, G2, G3, G4. }
      destruct (IH Hrest _ seen out H) as ((new & Hnew) & H2 & H3 & H4).
      * intros F. contradiction.
      * rewrite length_app. cbn [List.length]. lia.
      * apply Forall_app. split; [exact Hok|]. constructor; [exact Hitem | constructor].
      * split; [|split; [exact H2 | split; [exact H3 | intros F; contradiction]]].
        exists ([item] ++ new)%list. now rewrite Hnew, <- app_assoc.
Qed.

Lemma loop_complete (entries : list (string * Customer.t)) :
  (forall e, In e entries -> entry_ok self field e) ->
  forall results seen out,
    DataSource.autocomplete_loop self field p limit entries results seen
    = DataSource.Got out ->
    (field = "city" -> seen = List.rev (List.map item_key results)) ->
    Z.of_nat (List.length out) < limit ->
    forall e, In e (take_while (fun e => PyStr.startswith p (fst e)) entries) ->
              covered field out e.
Proof.
  induction entries as [|[value customer] rest IH]; intros Hent results seen out;
    cbn [DataSource.autocomplete_loop take_while fst].
  - intros _ _ _ e [].
  - destruct (PyStr.startswith p value) eqn:SW.
    2:{ intros _ _ _ e []. }
    destruct (Z.of_nat (List.length results) <? limit) eqn:L.
    2:{ intros [= <-] _ Hlen. apply Z.ltb_ge in L. lia. }
    destruct (Hent (value, customer) (or_introl eq_refl)) as (Hin & v & Hv & Tv & Hk).
    cbn [fst snd] in Hin, Hv, Hk.
    assert (Hrest : forall e, In e rest -> entry_ok self field e)
      by (intros e He; apply Hent; now right).
    destruct (String.eqb field "city") eqn:Fc.
    + pose proof Fc as Fc'. apply String.eqb_eq in Fc'.
      unfold DataSource.getitem.
      assert (Hcity : DataSource.get_text customer "city" = Some v) by (now rewrite <- Fc').
      rewrite Hcity.
      destruct (existsb (String.eqb (PyStr.lower v)) seen) eqn:Seen.
      * intros H Hseen Hlen e [<-|He]; [|now apply (IH Hrest results seen out H)].
        unfold covered. rewrite Fc. cbn [fst].
        apply existsb_exists in Seen. destruct Seen as (k & Hk1 & Hk2).
        apply String.eqb_eq in Hk2. subst k. rewrite (Hseen Fc') in Hk1.
        apply in_rev, in_map_iff in Hk1. destruct Hk1 as (item & Hi1 & Hi2).
        exists item. split; [|congruence].
        destruct (loop_sound_prefix rest results seen out H) as (new & ->).
        apply in_or_app. now left.
      * destruct (DataSource.get_text customer "state") as [st|] eqn:Hst; [|discriminate].
        intros H Hseen Hlen e [<-|He].
        -- unfold covered. rewrite Fc. cbn [fst].
           destruct (loop_sound_prefix rest _ _ out H) as (new & ->).
           eexists. split; [apply in_or_app; left; apply in_or_app; right; now left|].
           unfold item_key. cbn [item_value]. congruence.
        -- apply (IH Hrest _ _ out H); [|exact Hlen | exact He].
           intros _. rewrite map_app, rev_app_distr. cbn [List.map List.rev app].
           unfold item_key at 1. cbn [item_value]. now rewrite (Hseen Fc').
    + destruct (DataSource.record_item field customer) as [item|key] eqn:RI; [|discriminate].
      intros H Hseen Hlen e [<-|He].
      * unfold covered. rewrite Fc. cbn [snd].
        destruct (loop_sound_prefix rest _ _ out H) as (new & ->).
        exists item. split; [apply in_or_app; left; apply in_or_app; right; now left|].
        exact RI.
      * apply (IH Hrest _ _ out H); [|exact Hlen | exact He].
        intros F. apply String.eqb_neq in Fc. contradiction.
Qed.
End Loop.

Lemma take_while_filter (p : string) (l : list (string * Customer.t)) :
  StronglySorted key_le l ->
  (forall e, In e l -> String.leb p (fst e) = true) ->
  take_while (starts p) l = List.filter (starts p) l.
Proof.
  induction 1 as [|e l Hl IH He]; intros Hge; [reflexivity|].
  cbn [take_while List.filter]. destruct (starts p e) eqn:S.
  - f_equal. apply IH. intros; apply Hge; now right.
  - symmetry. rewrite List.Forall_forall in He.
    assert (Hall : forall e', In e' l -> starts p e' = false).
    { intros e' He'. apply not_true_is_false. intros S'.
      unfold starts in *.
      rewrite (startswith_between p (fst e) (fst e')) in S; [discriminate| | |exact S'].
      - apply Hge. now left.
      - now apply He. }
    clear -Hall. induction l as [|y l IH]; [reflexivity|]. cbn.
    rewrite (Hall y) by now left. apply IH. intros; apply Hall; now right.
Qed.

Lemma filter_below_starts (p : string) (l : list (string * Customer.t)) :
  List.filter (starts p) (List.filter (below p) l) = [].
Proof.
  induction l as [|e l IH]; [reflexivity|]. cbn [List.filter].
  destruct (below p e) eqn:B; [|exact IH]. cbn [List.filter].
  destruct (starts p e) eqn:S; [|exact IH].
  unfold starts, below in *. apply startswith_leb in S.
  rewrite ltb_not_leb, S in B. discriminate.
Qed.

(** The binary search followed by the scan up to the first entry that does
    not start with the prefix visits exactly the entries of the index that
    start with it. *)
Lemma scan_is_filter (p : string) (index : list (string * Customer.t)) :
  StronglySorted key_le index ->
  take_while (starts p) (skipn (DataSource.bisect_left index p) index)
  = List.filter (starts p) index.
Proof.
  intros Hs. rewrite (bisect_left_spec index p Hs).
  destruct (sorted_split p index Hs) as [H1 H2].
  set (n := List.length (List.filter (below p) index)) in *.
  assert (E : List.filter (starts p) index
              = (List.filter (starts p) (firstn n index)
                 ++ List.filter (starts p) (skipn n index))%list)
    by (rewrite <- List.filter_app, firstn_skipn; reflexivity).
  rewrite E, H1, filter_below_starts. cbn [app].
  apply take_while_filter.
  - rewrite <- (firstn_skipn n index) in Hs.
    clear -Hs. revert Hs. generalize (skipn n index).
    induction (firstn n index) as [|x l IH]; intros l' Hs; [exact Hs|].
    apply IH. now inversion Hs.
  - rewrite H2. intros e He. apply filter_In in He. destruct He as [_ He].
    unfold below in He. rewrite ltb_not_leb, negb_involutive in He. exact He.
Qed.

Section LoopRecords.
Variable self : DataSource.t.
Variable field p : string.
Variable limit : Z.
Hypothesis not_city : String.eqb field "city" = false.

Lemma loop_records (entries : list (string * Customer.t)) :
  forall results seen,
    DataSource.autocomplete_loop self field p limit entries results seen
    = match collect field
              (List.map snd
                 (firstn (Z.to_nat (limit - Z.of_nat (List.length results)))
                    (take_while (starts p) entries))) with
      | DataSource.Got new => DataSource.Got (results ++ new)%list
      | DataSource.KeyError key => DataSource.KeyError key
      end.
Proof.
  induction entries as [|[value customer] rest IH]; intros results seen;
    cbn [DataSource.autocomplete_loop take_while].
  - rewrite firstn_nil. cbn [List.map collect]. f_equal; symmetry; apply List.app_nil_r.
  - unfold starts at 1. cbn [fst].
    destruct (Z.of_nat (List.length results) <? limit) eqn:L.
    + apply Z.ltb_lt in L. destruct (PyStr.startswith p value).
      * rewrite not_city.
        replace (Z.to_nat (limit - Z.of_nat (List.length results)))
          with (S (Z.to_nat (limit - Z.of_nat (List.length results) - 1))) by lia.
        cbn [firstn List.map snd collect].
        destruct (DataSource.record_item field customer) as [item|key]; [|reflexivity].
        rewrite IH. rewrite length_app. cbn [List.length].
        replace (limit - Z.of_nat (List.length results + 1))
          with (limit - Z.of_nat (List.length results) - 1) by lia.
        destruct (collect field _) as [new|key]; [|reflexivity].
        now rewrite <- app_assoc.
      * rewrite firstn_nil. cbn [List.map collect]. f_equal; symmetry; apply List.app_nil_r.
    + apply Z.ltb_ge in L.
      replace (Z.to_nat (limit - Z.of_nat (List.length results))) with 0%nat by lia.
      cbn [firstn List.map collect]. f_equal; symmetry; apply List.app_nil_r.
Qed.
End LoopRecords.

Lemma In_skipn {A} (n : nat) (l : list A) (x : A) :
  In x (skipn n l) -> In x l.
Proof.
  intros H. rewrite <- (firstn_skipn n l). apply in_or_app. now right.
Qed.

Lemma record_item_raises (field key : string) (c : Customer.t) :
  DataSource.record_item field c = DataSource.KeyError key ->
  DataSource.get_text c key = None.
Proof.
  unfold DataSource.record_item, DataSource.getitem.
  destruct (DataSource.get_text c "crid") eqn:G1; [|intros [= <-]; exact G1].
  destruct (DataSource.get_text c field) eqn:G2; [|intros [= <-]; exact G2].
  destruct (DataSource.get_text c "name") eqn:G3; [|intros [= <-]; exact G3].
  destruct (DataSource.get_text c "city") eqn:G4; [|intros [= <-]; exact G4].
  destruct (DataSource.get_text c "state") eqn:G5; [|intros [= <-]; exact G5].
  discriminate.
Qed.

Lemma loop_raises (self : DataSource.t) (field p : string) (limit : Z)
    (entries : list (string * Customer.t)) :
  forall results seen key,
    DataSource.autocomplete_loop self field p limit entries results seen
    = DataSource.KeyError key ->
    exists e, In e (take_while (starts p) entries) /\
              DataSource.get_text (snd e) key = None.
Proof.
  induction entries as [|[value customer] rest IH]; intros results seen key;
    cbn [DataSource.autocomplete_loop take_while]; [discriminate|].
  unfold starts at 1. cbn [fst].
  destruct (Z.of_nat (List.length results) <? limit); [|discriminate].
  destruct (PyStr.startswith p value); [|discriminate].
  assert (Hlater : forall results seen,
            DataSource.autocomplete_loop self field p limit rest results seen
            = DataSource.KeyError key ->
            exists e, In e ((value, customer) :: take_while (starts p) rest) /\
                      DataSource.get_text (snd e) key = None).
  { intros r s H. destruct (IH _ _ _ H) as (e & He & Hk). exists e. split; [now right | exact Hk]. }
  destruct (String.eqb field "city").
  - unfold DataSource.getitem.
    destruct (DataSource.get_text customer "city") as [v|] eqn:G1.
    + destruct (existsb _ seen); [apply Hlater|].
      destruct (DataSource.get_text customer "state") as [st|] eqn:G2; [apply Hlater|].
      intros [= <-]. exists (value, customer). split; [now left | exact G2].
    + intros [= <-]. exists (value, customer). split; [now left | exact G1].
  - destruct (DataSource.record_item field customer) as [item|k] eqn:RI; [apply Hlater|].
    intros [= <-]. exists (value, customer). split; [now left|].
    now apply (record_item_raises field).
Qed.

Lemma field_value_get (field : string) (c : Customer.t) :
  ac_field field = true -> field_value field c = DataSource.get_text c field.
Proof. unfold field_value. now intros ->. Qed.

(** X16: [autocomplete] answers Empty prefix exactly when the prefix is
    empty once lowercased and stripped; otherwise it answers Unknown field
    exactly when no loaded record has a non-empty value of the field,
    which includes the three known fields on a source without such
    values; and a KeyError leaves the call only when a loaded record whose
    value starts with the prefix lacks the key. *)
Theorem autocomplete_errors (data : list Customer.t) (field prefix : string)
    (limit : Z) :
  let p := PyStr.strip (PyStr.lower prefix) in
  match DataSource.autocomplete (DataSource.load data) field prefix limit with
  | DataSource.AcError e =>
      (p = EmptyString /\ e = "Empty prefix") \/
      (p <> EmptyString /\ e = "Unknown field: " ++ field /\
       forall c, In c data -> DataSource.truthy_str (field_value field c) = false)
  | DataSource.AcRaised key =>
      p <> EmptyString /\
      exists c v, In c data /\ field_value field c = Some v /\
                  PyStr.startswith p (PyStr.lower v) = true /\
                  DataSource.get_text c key = None
  | DataSource.AcOk _ _ _ _ =>
      p <> EmptyString /\
      exists c, In c data /\ DataSource.truthy_str (field_value field c) = true
  end.
Proof.
  intros p. unfold DataSource.autocomplete.
  change (PyStr.strip (PyStr.lower prefix)) with p. clearbody p.
  destruct (PyStr.truthy p) eqn:Tp; cbn [negb];
    [|left; destruct p; [auto | discriminate]].
  assert (Hp : p <> EmptyString) by (intros ->; discriminate).
  destruct (DataSource.index_for (DataSource.load data) field) as [index|] eqn:I.
  - destruct (index_for_spec _ _ _ I) as (Hf & Hs & Hin).
    change (DataSource._customers (DataSource.load data)) with data in Hin.
    destruct index as [|e0 index'].
    + right. split; [exact Hp|]. split; [reflexivity|].
      intros c Hc. rewrite (field_value_get field c Hf).
      unfold DataSource.truthy_str.
      destruct (DataSource.get_text c field) as [v|] eqn:G; [|reflexivity].
      apply not_true_is_false. intros T.
      apply (proj2 (Hin (PyStr.lower v) c)). eauto.
    + set (index := e0 :: index') in *.
      destruct (DataSource.autocomplete_loop _ _ _ _ _ _ _) as [results|key] eqn:L.
      * split; [exact Hp|]. destruct e0 as [k c].
        destruct (proj1 (Hin k c) (or_introl eq_refl)) as (Hc & v & G & T & _).
        exists c. split; [exact Hc|]. rewrite (field_value_get field c Hf), G. exact T.
      * split; [exact Hp|]. apply loop_raises in L. destruct L as ([k c] & He & Hk).
        rewrite (scan_is_filter p index Hs) in He. apply filter_In in He.
        destruct He as [He Hst]. apply Hin in He. destruct He as (Hc & v & G & T & ->).
        exists c, v. rewrite (field_value_get field c Hf). auto.
  - right. split; [exact Hp|]. split; [reflexivity|]. intros c _.
    unfold field_value, ac_field. unfold DataSource.index_for in I.
    destruct (String.eqb field "address"); [discriminate|].
    destruct (String.eqb field "name"); [discriminate|].
    destruct (String.eqb field "city"); [discriminate|]. reflexivity.
Qed.

(** X17: a successful [autocomplete] echoes the field and the prefix as
    given, count is the length of data and at most the limit (no entry
    for a limit of 0 or less), every entry describes a loaded record
    whose lowercased value starts with the normalised prefix, a city
    entry carries the number of loaded records of that city, and no city
    is listed twice. *)
Theorem autocomplete_sound (data : list Customer.t) (field prefix : string)
    (limit : Z) (f q : string) (count : Z) (items : list DataSource.AcItem) :
  DataSource.autocomplete (DataSource.load data) field prefix limit
  = DataSource.AcOk f q count items ->
  f = field /\ q = prefix /\
  count = Z.of_nat (List.length items) /\ count <= Z.max 0 limit /\
  List.Forall (item_ok (DataSource.load data) field
                 (PyStr.strip (PyStr.lower prefix))) items /\
  (field = "city" -> List.NoDup (List.map item_key items)).
Proof.
  unfold DataSource.autocomplete.
  destruct (negb _); [discriminate|].
  destruct (DataSource.index_for _ field) as [[|e0 index']|] eqn:I; try discriminate.
  cbv zeta. set (index := e0 :: index') in *.
  destruct (DataSource.autocomplete_loop _ _ _ _ _ _ _) as [results|key] eqn:L;
    [|discriminate].
  intros [= <- <- <- <-].
  destruct (index_for_spec _ _ _ I) as (Hf & Hs & Hin).
  apply loop_sound in L.
  - destruct L as (_ & H2 & H3 & H4). repeat split; assumption.
  - intros [k c] He. apply In_skipn in He. apply Hin in He. exact He.
  - intros _. split; [reflexivity | constructor].
  - cbn [List.length]. lia.
  - constructor.
Qed.

Lemma autocomplete_sound_witness :
  "city" = "city" /\ "F" = "F" /\
  1 = Z.of_nat (List.length [DataSource.AcCity "Fresno" "ca" 2]) /\
  1 <= Z.max 0 10 /\
  List.Forall (item_ok (DataSource.load Demo.customers) "city"
                 (PyStr.strip (PyStr.lower "F")))
    [DataSource.AcCity "Fresno" "ca" 2] /\
  ("city" = "city" ->
   List.NoDup (List.map item_key [DataSource.AcCity "Fresno" "ca" 2])).
Proof.
  apply (autocomplete_sound Demo.customers "city" "F" 10 "city" "F" 1
           [DataSource.AcCity "Fresno" "ca" 2]).
  vm_compute. reflexivity.
Defined.

(** X18: when [autocomplete] returns fewer entries than the limit, nothing
    was left out: every loaded record whose non-empty value starts with
    the normalised prefix is accounted for, by an entry for its city or
    by its own summary. *)
Theorem autocomplete_complete (data : list Customer.t) (field prefix : string)
    (limit : Z) (f q : string) (count : Z) (items : list DataSource.AcItem) :
  DataSource.autocomplete (DataSource.load data) field prefix limit
  = DataSource.AcOk f q count items ->
  count < limit ->
  forall c v, In c data -> field_value field c = Some v ->
    PyStr.truthy v = true ->
    PyStr.startswith (PyStr.strip (PyStr.lower prefix)) (PyStr.lower v) = true ->
    covered field items (PyStr.lower v, c).
Proof.
  unfold DataSource.autocomplete.
  destruct (negb _); [discriminate|].
  destruct (DataSource.index_for _ field) as [[|e0 index']|] eqn:I; try discriminate.
  cbv zeta. set (index := e0 :: index') in *.
  destruct (DataSource.autocomplete_loop _ _ _ _ _ _ _) as [results|key] eqn:L;
    [|discriminate].
  intros [= <- <- <- <-] Hlt c v Hc Hv Tv Sv.
  destruct (index_for_spec _ _ _ I) as (Hf & Hs & Hin).
  rewrite (field_value_get field c Hf) in Hv.
  eapply loop_complete in L; [exact L | | | exact Hlt |].
  - intros [k c'] He. apply In_skipn in He. apply Hin in He. exact He.
  - reflexivity.
  - fold (starts (PyStr.strip (PyStr.lower prefix))).
    rewrite (scan_is_filter _ index Hs). apply filter_In. split.
    + apply Hin. split; [exact Hc|]. exists v. auto.
    + exact Sv.
Qed.

Lemma autocomplete_complete_witness :
  covered "city" [DataSource.AcCity "Fresno" "ca" 2]
    (PyStr.lower "Fresno", Demo.customer "CRID-10" "Ca" "Fresno" 0).
Proof.
  apply (autocomplete_complete Demo.customers "city" "F" 10 "city" "F" 1
           [DataSource.AcCity "Fresno" "ca" 2]).
  - vm_compute. reflexivity.
  - lia.
  - cbn. auto 10.
  - reflexivity.
  - reflexivity.
  - reflexivity.
Defined.

(** X19: for the name and address fields the binary search and the scan
    of [autocomplete] compute a filter: the answer lists the summaries of
    the first [limit] entries of the whole index whose key starts with
    the normalised prefix, in index order, and the call raises exactly
    when one of these records lacks a key. *)
Theorem autocomplete_records (data : list Customer.t) (field prefix : string)
    (limit : Z) (index : list (string * Customer.t)) :
  field = "name" \/ field = "address" ->
  PyStr.strip (PyStr.lower prefix) <> EmptyString ->
  DataSource.index_for (DataSource.load data) field = Some index ->
  index <> [] ->
  DataSource.autocomplete (DataSource.load data) field prefix limit
  = match collect field
            (List.map snd
               (firstn (Z.to_nat limit)
                  (List.filter (starts (PyStr.strip (PyStr.lower prefix))) index))) with
    | DataSource.Got items =>
        DataSource.AcOk field prefix (Z.of_nat (List.length items)) items
    | DataSource.KeyError key => DataSource.AcRaised key
    end.
Proof.
  intros Hfield Hp I Hne. unfold DataSource.autocomplete. rewrite I.
  destruct (PyStr.strip (PyStr.lower prefix)) as [|a p'] eqn:Ep; [congruence|].
  cbn [PyStr.truthy negb]. rewrite <- Ep. clear Hp.
  destruct index as [|e0 index']; [congruence|].
  set (idx := e0 :: index') in *.
  destruct (index_for_spec _ _ _ I) as (Hf & Hs & Hin).
  rewrite loop_records by (destruct Hfield as [-> | ->]; reflexivity).
  cbn [List.length]. rewrite Z.sub_0_r.
  rewrite (scan_is_filter _ idx Hs).
  destruct (collect field _); reflexivity.
Qed.

Lemma autocomplete_records_witness :
  DataSource.autocomplete (DataSource.load Demo.customers) "name" "pat" 2
  = match collect "name"
            (List.map snd
               (firstn (Z.to_nat 2)
                  (List.filter (starts (PyStr.strip (PyStr.lower "pat")))
                     (DataSource._name_index (DataSource.load Demo.customers))))) with
    | DataSource.Got items =>
        DataSource.AcOk "name" "pat" (Z.of_nat (List.length items)) items
    | DataSource.KeyError key => DataSource.AcRaised key
    end.
Proof.
  apply (autocomplete_records Demo.customers "name" "pat" 2
           (DataSource._name_index (DataSource.load Demo.customers))).
  - now left.
  - vm_compute. discriminate.
  - reflexivity.
  - vm_compute. discriminate.
Defined.

Lemma index_entries_filter get (k : string) (customers : list Customer.t) :
  List.map snd
    (List.filter (fun e => String.eqb (fst e) k)
       (DataSource.index_entries get customers))
  = List.filter
      (fun c => DataSource.truthy_str (get c)
                && String.eqb (PyStr.lower (default EmptyString (get c))) k)
      customers.
Proof.
  unfold DataSource.index_entries.
  induction customers as [|c l IH]; [reflexivity|].
  cbn [flat_map List.filter]. rewrite List.filter_app, map_app, IH.
  destruct (DataSource.truthy_str (get c)); cbn [List.filter fst andb]; [|reflexivity].
  destruct (String.eqb _ k); reflexivity.
Qed.

(** X20: each autocomplete index is sorted by key, holds exactly the
    loaded records with a non-empty value of its field under that value
    lowercased, and is stable: records with the same key appear in data
    order. *)
Theorem autocomplete_index_sorted (data : list Customer.t) (field : string)
    (index : list (string * Customer.t)) :
  DataSource.index_for (DataSource.load data) field = Some index ->
  StronglySorted (fun x y => String.leb (fst x) (fst y) = true) index /\
  (forall k c, In (k, c) index <->
     In c data /\ exists v, field_value field c = Some v /\
                            PyStr.truthy v = true /\ k = PyStr.lower v) /\
  (forall k, List.map snd (List.filter (fun e => String.eqb (fst e) k) index)
             = List.filter
                 (fun c => DataSource.truthy_str (field_value field c)
                           && String.eqb
                                (PyStr.lower (default EmptyString (field_value field c))) k)
                 data).
Proof.
  intros I. destruct (index_for_spec _ _ _ I) as (Hf & Hs & Hin).
  split; [exact Hs|]. split.
  - intros k c. rewrite (field_value_get field c Hf). apply Hin.
  - intros k. unfold DataSource.index_for in I. unfold field_value. rewrite Hf.
    destruct (String.eqb field "address") eqn:Ea;
      [|destruct (String.eqb field "name") eqn:En;
        [|destruct (String.eqb field "city") eqn:Ec; [|discriminate]]];
    injection I as <-;
    [ apply String.eqb_eq in Ea | apply String.eqb_eq in En | apply String.eqb_eq in Ec ];
    subst field;
    unfold DataSource._address_index, DataSource._name_index, DataSource._city_index;
    rewrite sorted_key_stable, index_entries_filter; reflexivity.
Qed.

Lemma autocomplete_index_sorted_witness :
  let index := DataSource._city_index (DataSource.load Demo.customers) in
  StronglySorted (fun x y => String.leb (fst x) (fst y) = true) index /\
  (forall k c, In (k, c) index <->
     In c Demo.customers /\
     exists v, field_value "city" c = Some v /\
               PyStr.truthy v = true /\ k = PyStr.lower v) /\
  (forall k, List.map snd (List.filter (fun e => String.eqb (fst e) k) index)
             = List.filter
                 (fun c => DataSource.truthy_str (field_value "city" c)
                           && String.eqb
                                (PyStr.lower (default EmptyString (field_value "city" c))) k)
                 Demo.customers).
Proof.
  apply (autocomplete_index_sorted Demo.customers "city"
           (DataSource._city_index (DataSource.load Demo.customers))).
  reflexivity.
Defined.

(** ** The calls of the router *)

Section RouterCalls.
Variable GuardrailFlags : Type.
Variable guardrails_check : string -> option GuardrailFlags -> option string.
Variable make_key : string -> string.
Variable new_session : option string -> Session.t.
Variable find_route : string -> RouteType.t * option string.
Variable db_execute : string -> string -> Router.DbResult.
Variable json_dumps : Router.DbResult -> string.
Variable orchestrator : bool.
Variable search_customers_semantic : string -> Router.RagResult.
Variable nova_query :
  string -> option (list Message) -> option string -> string -> Router.NovaResult.

Lemma route_nova_calls (q key : string) (session : Session.t) (w : Router.World) :
  let out := Router.route_nova orchestrator search_customers_semantic
               nova_query q key session w in
  let r := Router.value_of out in
  let events := Router.events_of out in
  Response.route r = RouteType.NOVA /\
  Response.cached r = false /\ Response.blocked r = false /\
  Response.session_id r = Some (Session.session_id session) /\
  existsb is_nova_query events = true /\
  existsb is_semantic_search events = negb orchestrator /\
  (Response.success r = false ->
   Router.world_of out = w /\ existsb Router.is_write events = false).
Proof.
  unfold Router.route_nova, Router.bind, Router.call, Router.ret,
    Router.sessions_save, Router.cache_set, Router.value_of, Router.events_of,
    Router.world_of.
  destruct orchestrator; cbn [negb];
    destruct (Router.nova_success (nova_query _ _ _ _)) eqn:S;
    cbn -[Z.of_nat Z.leb];
    try (repeat split; try discriminate; intros; discriminate).
  all: match goal with
       | |- context [Z.of_nat ?n <=? 2] => destruct (Z.of_nat n <=? 2)
       end; cbn; repeat split; try discriminate; auto.
Qed.

Lemma route_execute_calls (q key : string) (session : Session.t) (w : Router.World) :
  let out := Router.route_execute find_route db_execute json_dumps orchestrator
               search_customers_semantic nova_query q key session w in
  let r := Router.value_of out in
  let events := Router.events_of out in
  let tool := default "search_customers" (snd (find_route q)) in
  head events = Some (Router.EvFindRoute q) /\
  Response.route r <> RouteType.CACHE_HIT /\
  Response.cached r = false /\ Response.blocked r = false /\
  Response.session_id r = Some (Session.session_id session) /\
  (Response.route r = RouteType.DATABASE <->
   fst (find_route q) = RouteType.DATABASE /\
   Router.db_success (db_execute tool q) = true) /\
  (Response.route r = RouteType.DATABASE ->
   Response.success r = true /\ Response.tool r = Some tool /\
   Response.response r = Router._format_db_result json_dumps (db_execute tool q) tool /\
   In (Router.EvDbExecute tool q) events /\
   existsb is_nova_query events = false /\
   existsb is_semantic_search events = false) /\
  (Response.route r = RouteType.NOVA ->
   existsb is_nova_query events = true /\
   existsb is_semantic_search events = negb orchestrator) /\
  (In (Router.EvDbExecute tool q) events <->
   fst (find_route q) = RouteType.DATABASE) /\
  (Response.success r = false ->
   Response.route r = RouteType.NOVA /\
   Router.world_of out = w /\ existsb Router.is_write events = false).
Proof.
  cbv zeta.
  unfold Router.route_execute, Router.bind, Router.call.
  destruct (find_route q) as [route_type metadata_tool]. cbn [fst snd].
  pose proof (route_nova_calls q key session w) as Hn. cbv zeta in Hn.
  destruct (Router.route_nova orchestrator search_customers_semantic nova_query
              q key session w) as [[rn wn] en] eqn:En.
  unfold Router.value_of, Router.events_of, Router.world_of in *. cbn [fst snd] in Hn.
  destruct Hn as (H1 & H2 & H3 & H4 & H5 & H6 & H7).
  assert (H7a : Response.success rn = false -> wn = w) by (intros H; now apply H7).
  assert (H7b : Response.success rn = false -> existsb Router.is_write en = false)
    by (intros H; now apply H7).
  clear H7.
  assert (Hnodb : forall t, ~ In (Router.EvDbExecute t q) en).
  { intros t Hin. clear -En Hin.
    unfold Router.route_nova, Router.bind, Router.call, Router.ret,
      Router.sessions_save, Router.cache_set in En.
    destruct orchestrator; cbn [negb] in En;
      destruct (Router.nova_success (nova_query _ _ _ _));
      cbn -[Z.of_nat Z.leb] in En;
      try match type of En with
          | context [Z.of_nat ?n <=? 2] => destruct (Z.of_nat n <=? 2)
          end;
      cbn in En; injection En as _ _ <-; cbn in Hin;
      repeat (destruct Hin as [Hin|Hin]; [discriminate|]); exact Hin. }
  destruct route_type; cbn [RouteType.eqb].
  1,3: rewrite En;
       cbn [fst snd app head In existsb is_nova_query is_semantic_search
            Router.is_write orb];
       rewrite H1; settle_calls; exfalso; eapply Hnodb; eauto.
  destruct (Router.db_success (db_execute _ q)) eqn:S.
  - unfold Router.bind, Router.ret, Router.sessions_save, Router.cache_set.
    cbn -[Z.of_nat Z.leb Router._format_db_result].
    match goal with
    | |- context [Z.of_nat ?n <=? 2] => destruct (Z.of_nat n <=? 2)
    end; cbn -[Router._format_db_result]; settle_calls.
  - rewrite En.
    cbn [fst snd app head In existsb is_nova_query is_semantic_search
         Router.is_write orb].
    rewrite H1. settle_calls.
Qed.

(** X21: [route] answers from the cache exactly when the query is not
    blocked, the cache is not bypassed, the session has no messages and
    the cache holds the key; then it returns the cached text, changes
    neither store and calls nothing but the session lookup and the cache
    read.  The route CACHE_HIT is reported for cached answers and for
    blocked ones, and for no other. *)
Theorem route_cache_hit_iff (w : Router.World) (query : string)
    (bypass_cache : bool) (guardrails : option GuardrailFlags)
    (session_id : option string) :
  let q := PyStr.strip query in
  let key := make_key q in
  let session := Router.session_for new_session w session_id in
  let out :=
    Router.route GuardrailFlags guardrails_check make_key new_session
      find_route db_execute json_dumps orchestrator search_customers_semantic
      nova_query query bypass_cache guardrails session_id w in
  let r := Router.value_of out in
  let events := Router.events_of out in
  (Response.cached r = true <->
   Router.blocked_message GuardrailFlags guardrails_check q guardrails = None /\
   bypass_cache = false /\ Session.messages session = [] /\
   is_Some (Router.cache_store w !! key)) /\
  (Response.route r = RouteType.CACHE_HIT <->
   Response.cached r = true \/ Response.blocked r = true) /\
  (Response.cached r = true ->
   Response.success r = true /\
   Router.cache_store w !! key
   = Some (Router.JsonResponse (Response.response r)) /\
   Router.world_of out = w /\
   events = [Router.EvSessionGet session_id; Router.EvCacheGet key]).
Proof.
  cbv zeta.
  unfold Router.route, Router.bind, Router.sessions_get.
  set (q := PyStr.strip query). set (key := make_key q).
  set (session := Router.session_for new_session w session_id).
  destruct (Router.blocked_message GuardrailFlags guardrails_check q guardrails)
    as [blocked|] eqn:B.
  { cbn. settle_calls. }
  pose proof (route_execute_calls q key session w) as He. cbv zeta in He.
  destruct (Router.route_execute find_route db_execute json_dumps orchestrator
              search_customers_semantic nova_query q key session w)
    as [[re we] ee] eqn:Ee.
  unfold Router.value_of, Router.events_of, Router.world_of in *. cbn [fst snd] in He.
  destruct He as (_ & H2 & H3 & H4 & _).
  destruct bypass_cache; cbn [negb andb].
  { rewrite Ee. cbn [fst snd]. rewrite H3, H4. settle_calls. }
  destruct (Session.messages session) as [|m ms] eqn:Hm; cbn [ContextAgent.nonempty negb].
  2:{ rewrite Ee. cbn [fst snd]. rewrite H3, H4. settle_calls. }
  unfold Router.bind, Router.cache_get.
  destruct (Router.cache_store w !! key) as [data|] eqn:Hit.
  - destruct data as [resp]. cbn. settle_calls.
  - rewrite Ee. cbn [fst snd]. rewrite H3, H4. settle_calls.
Qed.

(** X22: every response of [route] carries the stripped query and the
    session's identifier, and the session lookup is the first call.  A
    DATABASE response means the semantic router chose the database, the
    tool (search_customers when none is named) succeeded and its
    formatted result is the answer, with no AI call; a NOVA response
    means the AI was queried, the semantic search ran exactly when there
    is no orchestrator, and a database attempt, if any, had failed; a
    failed response is a NOVA response that wrote nothing. *)
Theorem route_outcomes (w : Router.World) (query : string)
    (bypass_cache : bool) (guardrails : option GuardrailFlags)
    (session_id : option string) :
  let q := PyStr.strip query in
  let session := Router.session_for new_session w session_id in
  let out :=
    Router.route GuardrailFlags guardrails_check make_key new_session
      find_route db_execute json_dumps orchestrator search_customers_semantic
      nova_query query bypass_cache guardrails session_id w in
  let r := Router.value_of out in
  let events := Router.events_of out in
  let tool := default "search_customers" (snd (find_route q)) in
  Response.query r = q /\
  Response.session_id r = Some (Session.session_id session) /\
  head events = Some (Router.EvSessionGet session_id) /\
  (Response.route r = RouteType.DATABASE ->
   fst (find_route q) = RouteType.DATABASE /\
   Router.db_success (db_execute tool q) = true /\
   Response.success r = true /\ Response.tool r = Some tool /\
   Response.response r = Router._format_db_result json_dumps (db_execute tool q) tool /\
   existsb is_nova_query events = false /\
   existsb is_semantic_search events = false) /\
  (Response.route r = RouteType.NOVA ->
   existsb is_nova_query events = true /\
   existsb is_semantic_search events = negb orchestrator /\
   (fst (find_route q) = RouteType.DATABASE ->
    Router.db_success (db_execute tool q) = false)) /\
  (Response.success r = false ->
   Response.route r = RouteType.NOVA /\
   Router.world_of out = w /\ existsb Router.is_write events = false).
Proof.
  cbv zeta.
  unfold Router.route, Router.bind, Router.sessions_get.
  set (q := PyStr.strip query). set (key := make_key q).
  set (session := Router.session_for new_session w session_id).
  destruct (Router.blocked_message GuardrailFlags guardrails_check q guardrails)
    as [blocked|] eqn:B.
  { cbn. settle_calls. }
  pose proof (route_execute_calls q key session w) as He. cbv zeta in He.
  destruct (Router.route_execute find_route db_execute json_dumps orchestrator
              search_customers_semantic nova_query q key session w)
    as [[re we] ee] eqn:Ee.
  unfold Router.value_of, Router.events_of, Router.world_of in *. cbn [fst snd] in He.
  destruct He as (_ & H2 & H3 & H4 & H5 & H6 & H7 & H8 & H9 & H10).
  assert (Hq : Response.query re = q).
  { clear -Ee. unfold Router.route_execute, Router.route_nova, Router.bind,
      Router.call, Router.ret, Router.sessions_save, Router.cache_set in Ee.
    destruct (find_route q) as [rt mt].
    destruct (RouteType.eqb rt RouteType.DATABASE);
      [destruct (Router.db_success (db_execute _ q))|];
      destruct orchestrator; cbn [negb] in Ee;
      try destruct (Router.nova_success (nova_query _ _ _ _));
      cbn -[Z.of_nat Z.leb Router._format_db_result] in Ee;
      try match type of Ee with
          | context [Z.of_nat ?n <=? 2] => destruct (Z.of_nat n <=? 2)
          end;
      cbn -[Router._format_db_result] in Ee; injection Ee as <- _ _; reflexivity. }
  assert (Hfin :
    Response.query re = q /\
    Response.session_id re = Some (Session.session_id session) /\
    (Response.route re = RouteType.DATABASE ->
     fst (find_route q) = RouteType.DATABASE /\
     Router.db_success
       (db_execute (default "search_customers" (snd (find_route q))) q) = true /\
     Response.success re = true /\
     Response.tool re = Some (default "search_customers" (snd (find_route q))) /\
     Response.response re
     = Router._format_db_result json_dumps
         (db_execute (default "search_customers" (snd (find_route q))) q)
         (default "search_customers" (snd (find_route q))) /\
     existsb is_nova_query ee = false /\
     existsb is_semantic_search ee = false) /\
    (Response.route re = RouteType.NOVA ->
     existsb is_nova_query ee = true /\
     existsb is_semantic_search ee = negb orchestrator /\
     (fst (find_route q) = RouteType.DATABASE ->
      Router.db_success
        (db_execute (default "search_customers" (snd (find_route q))) q) = false)) /\
    (Response.success re = false ->
     Response.route re = RouteType.NOVA /\
     we = w /\ existsb Router.is_write ee = false)).
  { split; [exact Hq|]. split; [exact H5|]. split; [|split].
    - intros Hr. destruct (proj1 H6 Hr) as [Ha Hb]. destruct (H7 Hr) as (? & ? & ? & ? & ? & ?).
      repeat split; assumption.
    - intros Hr. destruct (H8 Hr) as [Ha Hb]. split; [exact Ha|]. split; [exact Hb|].
      intros Hd. apply not_true_is_false. intros Hs.
      assert (Response.route re = RouteType.DATABASE) by (apply H6; auto). congruence.
    - exact H10. }
  destruct Hfin as (F1 & F2 & F3 & F4 & F5).
  destruct bypass_cache; cbn [negb andb].
  { rewrite Ee. cbn [fst snd app head existsb is_nova_query is_semantic_search
                     Router.is_write orb]. settle_calls. }
  destruct (Session.messages session) as [|m ms] eqn:Hm; cbn [ContextAgent.nonempty negb].
  2:{ rewrite Ee. cbn [fst snd app head existsb is_nova_query is_semantic_search
                       Router.is_write orb]. settle_calls. }
  unfold Router.bind, Router.cache_get.
  destruct (Router.cache_store w !! key) as [data|] eqn:Hit.
  - destruct data as [resp]. cbn. settle_calls.
  - rewrite Ee. cbn [fst snd app head existsb is_nova_query is_semantic_search
                     Router.is_write orb]. settle_calls.
Qed.
End RouterCalls.

(** ** Building the request *)

Lemma forallb_filter_same {A} (P : A -> bool) (l : list A) :
  forallb P (List.filter P l) = true.
Proof.
  induction l as [|x l IH]; [reflexivity|]. cbn [List.filter].
  destruct (P x) eqn:E; [|exact IH]. cbn [forallb]. now rewrite E, IH.
Qed.

Lemma filter_forallb_id {A} (P : A -> bool) (l : list A) :
  forallb P l = true -> List.filter P l = l.
Proof.
  induction l as [|x l IH]; [reflexivity|]. cbn [forallb List.filter].
  intros H. apply andb_prop in H. destruct H as [Hx Hl]. now rewrite Hx, IH.
Qed.

Lemma text_blocks_text (c : Content) :
  forallb NovaAgent.is_text (NovaAgent.text_blocks c) = true.
Proof.
  destruct c as [s|blocks|]; cbn; [reflexivity | apply forallb_filter_same | reflexivity].
Qed.

Lemma skipn_length_le {A} (n : nat) (l : list A) :
  (List.length (skipn (List.length l - n) l) <= n)%nat.
Proof. rewrite length_skipn. lia. Qed.

Lemma flat_map_length_le {A B} (f : A -> list B) (l : list A) :
  (forall x, List.length (f x) <= 1)%nat ->
  (List.length (flat_map f l) <= List.length l)%nat.
Proof.
  intros H. induction l as [|x l IH]; [reflexivity|].
  cbn [flat_map List.length]. rewrite length_app. specialize (H x). lia.
Qed.

(** X23: [_build_messages] returns between one and seven messages, the
    last being the user's query; every message has the role user or
    assistant and a non-empty content of text blocks; only the last six
    turns of the history count, and a history of at most six such
    messages is passed on unchanged. *)
Theorem build_messages_shape (query : string) (context : QueryContext) :
  let msgs := NovaAgent._build_messages query context in
  (1 <= List.length msgs <= 7)%nat /\
  List.last msgs (mkMessage "" COther) = mkMessage "user" (CBlocks [BText query]) /\
  List.Forall clean_message msgs /\
  (forall older recent,
     session_history context = (older ++ recent)%list ->
     List.length recent = 6%nat ->
     msgs = NovaAgent._build_messages query (with_history context recent)) /\
  (List.Forall clean_message (session_history context) ->
   (List.length (session_history context) <= 6)%nat ->
   msgs = (session_history context ++ [mkMessage "user" (CBlocks [BText query])])%list).
Proof.
  unfold NovaAgent._build_messages. cbv zeta.
  set (keep := fun msg : Message =>
         if ContextAgent.nonempty (NovaAgent.text_blocks (content msg))
            && NovaAgent.is_chat_role (role msg)
         then [mkMessage (role msg) (CBlocks (NovaAgent.text_blocks (content msg)))]
         else []).
  set (h := session_history context).
  assert (Hk1 : forall x, (List.length (keep x) <= 1)%nat).
  { intros x. unfold keep. destruct (_ && _); cbn; lia. }
  split; [|split; [|split; [|split]]].
  - rewrite length_app. cbn [List.length].
    pose proof (flat_map_length_le keep (skipn (List.length h - 6) h) Hk1).
    pose proof (skipn_length_le 6 h). lia.
  - apply last_last.
  - apply Forall_app. split.
    + rewrite List.Forall_forall. intros m Hm. apply in_flat_map in Hm.
      destruct Hm as (x & _ & Hx). unfold keep in Hx.
      destruct (ContextAgent.nonempty _) eqn:N; [|destruct Hx].
      destruct (NovaAgent.is_chat_role (role x)) eqn:R; [|destruct Hx].
      destruct Hx as [<-|[]]. split; [exact R|].
      exists (NovaAgent.text_blocks (content x)). split; [reflexivity|]. split.
      * intros E. rewrite E in N. discriminate.
      * apply text_blocks_text.
    + constructor; [|constructor]. split; [reflexivity|].
      exists [BText query]. split; [reflexivity|]. split; [discriminate | reflexivity].
  - intros older recent E L. cbn [with_history session_history].
    subst h. rewrite E, length_app, L.
    replace (List.length older + 6 - 6)%nat with (List.length older + 0)%nat by lia.
    rewrite skipn_app, Nat.add_0_r, skipn_all, Nat.sub_diag. cbn [app skipn].
    replace (6 - 6)%nat with 0%nat by lia. reflexivity.
  - intros Hc Hl. replace (List.length h - 6)%nat with 0%nat by lia.
    change (skipn 0 h) with h. f_equal. clear Hl. induction h as [|m h IH]; [reflexivity|].
    apply Forall_cons_iff in Hc. destruct Hc as [Hm Hh].
    cbn [flat_map]. rewrite (IH Hh).
    destruct Hm as (R & blocks & C & Hne & Ht). unfold keep.
    destruct m as [r c]. cbn [role content] in *. subst c.
    cbn [NovaAgent.text_blocks]. rewrite (filter_forallb_id _ _ Ht), R.
    destruct blocks; [congruence|]. reflexivity.
Qed.

(** ** The conversation with the model *)

Lemma run_tools_spec execute (uses : list (string * string)) :
  forall tools results,
    NovaAgent.run_tools execute uses = Some (tools, results) ->
    tools = List.map fst uses /\
    Forall2 (fun u r => execute (fst u) (snd u) = Some r) uses results.
Proof.
  induction uses as [|[n i] uses IH]; intros tools results; cbn [NovaAgent.run_tools].
  - intros [= <- <-]. split; [reflexivity | constructor].
  - destruct (execute n i) as [r|] eqn:E; [|discriminate].
    destruct (NovaAgent.run_tools execute uses) as [[ts rs]|]; [|discriminate].
    intros [= <- <-]. destruct (IH ts rs eq_refl) as [-> H].
    split; [reflexivity|]. constructor; [exact E | exact H].
Qed.

(** X24: when [_converse] returns, the text is not empty, the tools used
    are the names of the tool-use blocks of the first reply in order,
    each with the result the registry gave for it, and the text is
    chosen in this order: the text the follow-up reply speaks (a
    follow-up is made exactly when tools were used), otherwise the text
    the first reply speaks, otherwise the fixed apology. *)
Theorem converse_returns (execute : string -> string -> option string)
    (reply follow_reply : NovaAgent.Reply) (text : string)
    (tools results : list string) :
  NovaAgent._converse execute reply follow_reply
  = NovaAgent.Returned text tools results ->
  PyStr.truthy text = true /\
  exists content,
    reply = NovaAgent.Replied content /\
    tools = List.map fst (NovaAgent.tool_uses content) /\
    Forall2 (fun u r => execute (fst u) (snd u) = Some r)
      (NovaAgent.tool_uses content) results /\
    exists follow : option string,
      (tools = [] -> follow = None) /\
      (tools <> [] ->
       exists follow_content,
         follow_reply = NovaAgent.Replied follow_content /\
         follow = spoken follow_content) /\
      text = match follow, spoken content with
             | Some follow_text, _ => follow_text
             | None, Some first_text => first_text
             | None, None => NovaAgent.NO_RESPONSE
             end.
Proof.
  unfold NovaAgent._converse.
  destruct reply as [content| |]; try discriminate.
  assert (Hfc : forall ts rs,
    match NovaAgent.first_text content with
    | Some t => if PyStr.truthy t then NovaAgent.Returned t ts rs
                else NovaAgent.Returned NovaAgent.NO_RESPONSE ts rs
    | None => NovaAgent.Returned NovaAgent.NO_RESPONSE ts rs
    end = NovaAgent.Returned text tools results ->
    PyStr.truthy text = true /\ ts = tools /\ rs = results /\
    text = match spoken content with
           | Some first_text => first_text
           | None => NovaAgent.NO_RESPONSE
           end).
  { intros ts rs. unfold spoken.
    destruct (NovaAgent.first_text content) as [t|].
    - destruct (PyStr.truthy t) eqn:T; intros [= <- <- <-]; auto.
    - intros [= <- <- <-]; auto. }
  destruct (NovaAgent.tool_uses content) as [|u uses] eqn:U.
  - intros H. apply Hfc in H. destruct H as (T & <- & <- & H).
    split; [exact T|]. exists content. rewrite U.
    split; [reflexivity|]. split; [reflexivity|]. split; [constructor|].
    exists None. split; [reflexivity|]. split; [congruence | exact H].
  - destruct (NovaAgent.run_tools execute (u :: uses)) as [[ts rs]|] eqn:R;
      [|discriminate].
    apply run_tools_spec in R. destruct R as [-> HF].
    destruct follow_reply as [follow_content| |]; try discriminate.
    intros H.
    assert (G : PyStr.truthy text = true /\
                List.map fst (u :: uses) = tools /\ rs = results /\
                text = match spoken follow_content, spoken content with
                       | Some follow_text, _ => follow_text
                       | None, Some first_text => first_text
                       | None, None => NovaAgent.NO_RESPONSE
                       end).
    { unfold spoken at 1.
      destruct (NovaAgent.first_text follow_content) as [t|].
      - destruct (PyStr.truthy t) eqn:T.
        + injection H as <- <- <-. auto.
        + apply Hfc in H. exact H.
      - apply Hfc in H. exact H. }
    destruct G as (T & <- & <- & G).
    split; [exact T|]. exists content. rewrite U.
    split; [reflexivity|]. split; [reflexivity|]. split; [exact HF|].
    exists (spoken follow_content). split; [discriminate|].
    split; [|exact G]. intros _. exists follow_content. auto.
Qed.

Lemma converse_returns_witness :
  PyStr.truthy "Two customers." = true /\
  exists content,
    NovaAgent.Replied
      [NovaAgent.AText "Let me look."; NovaAgent.AToolUse "get_stats" "{}" "t1"]
    = NovaAgent.Replied content /\
    ["get_stats"] = List.map fst (NovaAgent.tool_uses content) /\
    Forall2 (fun u r => (fun _ _ : string => Some "2") (fst u) (snd u) = Some r)
      (NovaAgent.tool_uses content) ["2"] /\
    exists follow : option string,
      (["get_stats"] = [] -> follow = None) /\
      (["get_stats"] <> [] ->
       exists follow_content,
         NovaAgent.Replied [NovaAgent.AText "Two customers."]
         = NovaAgent.Replied follow_content /\
         follow = spoken follow_content) /\
      "Two customers." = match follow, spoken content with
                         | Some follow_text, _ => follow_text
                         | None, Some first_text => first_text
                         | None, None => NovaAgent.NO_RESPONSE
                         end.
Proof.
  apply (converse_returns (fun _ _ => Some "2")
           (NovaAgent.Replied
              [NovaAgent.AText "Let me look.";
               NovaAgent.AToolUse "get_stats" "{}" "t1"])
           (NovaAgent.Replied [NovaAgent.AText "Two customers."])
           "Two customers." ["get_stats"] ["2"]).
  reflexivity.
Defined.

Lemma run_tools_length execute (uses : list (string * string)) :
  forall tools results,
    NovaAgent.run_tools execute uses = Some (tools, results) ->
    List.length tools = List.length results.
Proof.
  induction uses as [|[n i] uses IH]; intros tools results; cbn [NovaAgent.run_tools].
  - now intros [= <- <-].
  - destruct (execute n i); [|discriminate].
    destruct (NovaAgent.run_tools execute uses) as [[ts rs]|]; [|discriminate].
    intros [= <- <-]. cbn [List.length]. now rewrite (IH ts rs eq_refl).
Qed.

Lemma converse_lengths (execute : string -> string -> option string)
    (reply follow_reply : NovaAgent.Reply) (text : string)
    (tools results : list string) :
  NovaAgent._converse execute reply follow_reply
  = NovaAgent.Returned text tools results ->
  PyStr.truthy text = true /\ List.length tools = List.length results.
Proof.
  unfold NovaAgent._converse.
  destruct reply as [content| |]; try discriminate.
  assert (Hfc : forall ts rs,
    List.length ts = List.length rs ->
    match NovaAgent.first_text content with
    | Some t => if PyStr.truthy t then NovaAgent.Returned t ts rs
                else NovaAgent.Returned NovaAgent.NO_RESPONSE ts rs
    | None => NovaAgent.Returned NovaAgent.NO_RESPONSE ts rs
    end = NovaAgent.Returned text tools results ->
    PyStr.truthy text = true /\ List.length tools = List.length results).
  { intros ts rs L. destruct (NovaAgent.first_text content) as [t|].
    - destruct (PyStr.truthy t) eqn:T; intros [= <- <- <-]; auto.
    - intros [= <- <- <-]; auto. }
  destruct (NovaAgent.tool_uses content) as [|u uses]; [now apply Hfc|].
  destruct (NovaAgent.run_tools execute (u :: uses)) as [[ts rs]|] eqn:R;
    [|discriminate].
  apply run_tools_length in R.
  destruct follow_reply as [follow_content| |]; try discriminate.
  destruct (NovaAgent.first_text follow_content) as [t|]; [|now apply Hfc].
  destruct (PyStr.truthy t) eqn:T; [|now apply Hfc].
  intros [= <- <- <-]. auto.
Qed.

Lemma fallback_truthy (query : string) (search_result : SearchResult.t)
    (knowledge : KnowledgeContext.t) :
  PyStr.truthy
    (response_text (NovaAgent._fallback_response query search_result knowledge))
  = true.
Proof.
  unfold NovaAgent._fallback_response.
  destruct (SearchResult.results search_result); [reflexivity|].
  cbn [response_text]. unfold NovaAgent.fallback_text. cbv zeta.
  destruct (5 <? _); cbn [app]; apply join_truthy; reflexivity.
Qed.

(** X25: whatever the client replies or raises and whatever the tools
    do, [generate] returns a non-empty text with as many tool results as
    tools, keeps the model name, never turns an unavailable agent
    available, and its answer is either the templated fallback or, for
    an available agent, the returned conversation with the confidence
    estimated from it. *)
Theorem generate_with_robust (self : NovaAgent.t) (query : string)
    (search_result : SearchResult.t) (knowledge : KnowledgeContext.t)
    (execute : string -> string -> option string)
    (reply follow_reply : NovaAgent.Reply) :
  let out := NovaAgent.generate_with self query search_result knowledge
               execute reply follow_reply in
  let r := fst out in
  PyStr.truthy (response_text r) = true /\
  List.length (tools_used r) = List.length (tool_results r) /\
  NovaAgent._model (snd out) = NovaAgent._model self /\
  (NovaAgent._available (snd out) = true -> NovaAgent._available self = true) /\
  (r = NovaAgent._fallback_response query search_result knowledge \/
   NovaAgent._available self = true /\ model_used r = NovaAgent._model self /\
   NovaAgent._converse execute reply follow_reply
   = NovaAgent.Returned (response_text r) (tools_used r) (tool_results r) /\
   ai_confidence r
   = NovaAgent._estimate_confidence (response_text r) (tools_used r)).
Proof.
  cbv zeta. unfold NovaAgent.generate_with, NovaAgent.generate.
  pose proof (fallback_truthy query search_result knowledge) as Hf.
  assert (Hl : List.length
                 (tools_used (NovaAgent._fallback_response query search_result knowledge))
               = List.length
                   (tool_results (NovaAgent._fallback_response query search_result knowledge))).
  { unfold NovaAgent._fallback_response.
    destruct (SearchResult.results search_result); reflexivity. }
  destruct (NovaAgent._available self) eqn:A; cbn [negb fst snd].
  2:{ split; [exact Hf|]. split; [exact Hl|]. split; [reflexivity|].
      split; [congruence | left; reflexivity]. }
  destruct (NovaAgent._converse execute reply follow_reply)
    as [text tools results|msg|] eqn:C; cbn [fst snd].
  - destruct (converse_lengths _ _ _ _ _ _ C) as [T L].
    cbn [response_text tools_used tool_results model_used ai_confidence].
    split; [exact T|]. split; [exact L|].
    split; [reflexivity|]. split; [congruence|]. right. auto.
  - destruct (NovaAgent.is_access_error msg); cbn [NovaAgent._model NovaAgent._available];
      (split; [exact Hf|]); (split; [exact Hl|]); (split; [reflexivity|]);
      (split; [congruence | left; reflexivity]).
  - split; [exact Hf|]. split; [exact Hl|]. split; [reflexivity|].
    split; [congruence | left; reflexivity].
Qed.

(** ** Blocked words *)

Lemma search_from_finds (r : Regex.re) (s : string) : forall pre prev,
  Regex.match_here r (last_char prev pre) s <> None ->
  Regex.search_from r prev (pre ++ s) <> None.
Proof.
  induction pre as [|a pre IH]; intros prev H.
  - cbn [last_char] in H. change ("" ++ s) with s.
    destruct s; cbn [Regex.search_from];
      destruct (Regex.match_here r prev _); congruence.
  - change (String a pre ++ s) with (String a (pre ++ s)).
    cbn [Regex.search_from].
    destruct (Regex.match_here r prev (String a (pre ++ s))); [congruence|].
    apply IH. exact H.
Qed.

Lemma append_cons (a : ascii) (s t : string) :
  String a s ++ t = String a (s ++ t).
Proof. reflexivity. Qed.

Lemma append_nil (t : string) : "" ++ t = t.
Proof. reflexivity. Qed.

Lemma word_matches (pattern w : string) (prev : option ascii) (suf : string) :
  In (pattern, w)
    [ ("\b(ssn|social\s*security)\b", "ssn");
      ("\b(ssn|social\s*security)\b", "social security");
      ("\b(credit\s*card|bank\s*account)\b", "credit card");
      ("\b(credit\s*card|bank\s*account)\b", "bank account");
      ("\b(password|secret|token)\b", "password");
      ("\b(password|secret|token)\b", "secret");
      ("\b(password|secret|token)\b", "token");
      ("\b(weather|poem|story|joke)\b", "weather");
      ("\b(weather|poem|story|joke)\b", "poem");
      ("\b(weather|poem|story|joke)\b", "story");
      ("\b(weather|poem|story|joke)\b", "joke") ] ->
  Regex.is_word_opt prev = false ->
  Regex.is_word_opt (Regex.head_char suf) = false ->
  Regex.match_here (Regex.compile pattern) prev (w ++ suf) <> None.
Proof.
  intros Hin Hp Hs. cbn [In] in Hin.
  repeat (destruct Hin as [[= <- <-]|Hin]; [|]); [..|destruct Hin].
  all: match goal with
       | |- context [Regex.compile ?p] =>
           let r := eval vm_compute in (Regex.compile p) in
           change (Regex.compile p) with r
       end.
  all: unfold Regex.match_here; rewrite ?append_cons, ?append_nil.
  all: cbn; unfold Regex.boundary; rewrite ?Hp, ?Hs; cbn;
       unfold Regex.boundary; rewrite ?Hs; cbn; discriminate.
Qed.

Lemma word_found (pattern w text : string) :
  In (pattern, w)
    [ ("\b(ssn|social\s*security)\b", "ssn");
      ("\b(ssn|social\s*security)\b", "social security");
      ("\b(credit\s*card|bank\s*account)\b", "credit card");
      ("\b(credit\s*card|bank\s*account)\b", "bank account");
      ("\b(password|secret|token)\b", "password");
      ("\b(password|secret|token)\b", "secret");
      ("\b(password|secret|token)\b", "token");
      ("\b(weather|poem|story|joke)\b", "weather");
      ("\b(weather|poem|story|joke)\b", "poem");
      ("\b(weather|poem|story|joke)\b", "story");
      ("\b(weather|poem|story|joke)\b", "joke") ] ->
  stands_alone w text -> Regex.search pattern text = true.
Proof.
  intros Hin (pre & suf & -> & Hp & Hs). unfold Regex.search.
  pose proof (search_from_finds (Regex.compile pattern) (w ++ suf) pre None) as H.
  destruct (Regex.search_from _ None _); [reflexivity|].
  exfalso. apply H; [|reflexivity].
  now apply word_matches.
Qed.

(** X26: the prototype's [Guardrails.check] blocks every query that holds
    one of the blocked words as a word of its own, in any letter case and
    at any position: ssn, social security, credit card, bank account,
    password, secret, token, weather, poem, story, joke.  For ssn and
    social security the message is the SSN one, whatever else the query
    holds. *)
Theorem guardrails_block_words (query w : string) :
  In w blocked_words ->
  stands_alone w (PyStr.lower query) ->
  Guardrails.check query <> None /\
  (w = "ssn" \/ w = "social security" ->
   Guardrails.check query = Some "SSN not accessible").
Proof.
  intros Hin Hw. unfold Guardrails.check, Guardrails.BLOCKED_PATTERNS.
  cbn [Guardrails.check_patterns].
  assert (H1 : w = "ssn" \/ w = "social security" ->
               Regex.search "\b(ssn|social\s*security)\b" (PyStr.lower query) = true).
  { intros [-> | ->]; eapply word_found; eauto; cbn; auto. }
  assert (H2 : w = "credit card" \/ w = "bank account" ->
               Regex.search "\b(credit\s*card|bank\s*account)\b" (PyStr.lower query) = true).
  { intros [-> | ->]; eapply word_found; eauto; cbn; auto. }
  assert (H3 : w = "password" \/ w = "secret" \/ w = "token" ->
               Regex.search "\b(password|secret|token)\b" (PyStr.lower query) = true).
  { intros [-> | [-> | ->]]; eapply word_found; eauto; cbn; auto 10. }
  assert (H4 : w = "weather" \/ w = "poem" \/ w = "story" \/ w = "joke" ->
               Regex.search "\b(weather|poem|story|joke)\b" (PyStr.lower query) = true).
  { intros [-> | [-> | [-> | ->]]]; eapply word_found; eauto; cbn; auto 20. }
  split.
  - destruct (Regex.search "\b(ssn|social\s*security)\b" _); [discriminate|].
    destruct (Regex.search "\b(credit\s*card|bank\s*account)\b" _); [discriminate|].
    destruct (Regex.search "\b(password|secret|token)\b" _); [discriminate|].
    destruct (Regex.search "\b(weather|poem|story|joke)\b" _); [discriminate|].
    exfalso. unfold blocked_words in Hin. cbn [In] in Hin.
    repeat (destruct Hin as [<-|Hin];
            [first [ now (discriminate H1; auto) | now (discriminate H2; auto)
                   | now (discriminate H3; auto) | now (discriminate H4; auto 10) ]|]).
    exact Hin.
  - intros Hs. rewrite (H1 Hs). reflexivity.
Qed.

Lemma guardrails_block_words_witness :
  Guardrails.check "What is the SSN of CRID-1?" <> None /\
  ("ssn" = "ssn" \/ "ssn" = "social security" ->
   Guardrails.check "What is the SSN of CRID-1?" = Some "SSN not accessible").
Proof.
  apply (guardrails_block_words "What is the SSN of CRID-1?" "ssn").
  - cbn. auto.
  - exists "what is the ", " of crid-1?". repeat split.
Defined.

(** ** What a pattern captures *)

Lemma many0_inv {R} (cs : Regex.cset) (s : string) :
  forall prev (k : option ascii -> string -> option R) x,
    Regex.many0 cs prev s k = Some x ->
    exists d s' p, s = d ++ s' /\ all_chars (Regex.cset_mem cs) d = true /\
                   k p s' = Some x.
Proof.
  induction s as [|a s IH]; intros prev k x; cbn [Regex.many0].
  - intros H. exists "", "", prev. auto.
  - destruct (Regex.cset_mem cs a) eqn:M.
    + destruct (Regex.many0 cs (Some a) s k) as [y|] eqn:E.
      * intros [= <-]. destruct (IH _ _ _ E) as (d & s' & p & -> & Hd & Hk).
        exists (String a d), s', p. cbn [all_chars]. rewrite M, Hd. auto.
      * intros H. exists "", (String a s), prev. auto.
    + intros H. exists "", (String a s), prev. auto.
Qed.

Lemma run_group_free {R} (r : Regex.re) :
  group_free r = true ->
  forall prev s g (k : @Regex.cont R) x,
    Regex.run r prev s g k = Some x ->
    exists p s', k p s' g = Some x.
Proof.
  induction r as [| |cs|cs|r1 IH1| |r1 IH1 r2 IH2|r1 IH1 r2 IH2|r1 IH1];
    cbn [group_free Regex.run]; intros G prev s g k x.
  - eauto.
  - discriminate.
  - destruct s as [|a s]; [discriminate|].
    destruct (Regex.cset_mem cs a); [eauto | discriminate].
  - intros H. apply many0_inv in H. destruct H as (d & s' & p & _ & _ & H). eauto.
  - destruct (Regex.run r1 prev s g k) eqn:E.
    + intros [= <-]. eapply IH1; eauto.
    + eauto.
  - destruct (Regex.boundary prev s); [eauto | discriminate].
  - apply andb_prop in G. destruct G as [G1 G2].
    intros H. apply (IH1 G1) in H. destruct H as (p & s' & H).
    apply (IH2 G2) in H. exact H.
  - apply andb_prop in G. destruct G as [G1 G2].
    destruct (Regex.run r1 prev s g k) eqn:E.
    + intros [= <-]. eapply IH1; eauto.
    + intros H. eapply IH2; eauto.
  - discriminate.
Qed.

Lemma substring_app (d s : string) :
  String.substring 0 (String.length d) (d ++ s) = d.
Proof.
  induction d as [|a d IH].
  - change ("" ++ s) with s. destruct s; reflexivity.
  - change (String a d ++ s) with (String a (d ++ s)).
    cbn [String.length String.substring]. now rewrite IH.
Qed.

Lemma length_append (d s : string) :
  String.length (d ++ s) = (String.length d + String.length s)%nat.
Proof.
  induction d as [|a d IH]; [reflexivity|].
  change (String a d ++ s) with (String a (d ++ s)).
  cbn [String.length]. now rewrite IH.
Qed.

Lemma consumed_app (d s : string) : Regex.consumed (d ++ s) s = d.
Proof.
  unfold Regex.consumed. rewrite length_append.
  replace (String.length d + String.length s - String.length s)%nat
    with (String.length d) by lia.
  apply substring_app.
Qed.

Lemma search_from_inv (r : Regex.re) (s : string) : forall prev og,
  Regex.search_from r prev s = Some og ->
  exists p s0, Regex.match_here r p s0 = Some og /\
               (String.length s0 <= String.length s)%nat.
Proof.
  induction s as [|a s IH]; intros prev og; cbn [Regex.search_from].
  - destruct (Regex.match_here r prev "") eqn:E; [|discriminate].
    intros [= <-]. eauto.
  - destruct (Regex.match_here r prev (String a s)) eqn:E.
    + intros [= <-]. eauto.
    + intros H. destruct (IH _ _ H) as (p & s0 & H0 & L).
      exists p, s0. split; [exact H0|]. cbn [String.length]. lia.
Qed.

Lemma limit_group_digits (text g : string) :
  Regex.search_group1 ContextAgent.LIMIT_PATTERN text = Some g ->
  g <> "" /\ all_chars PyStr.is_digit g = true /\
  (String.length g <= String.length text)%nat.
Proof.
  unfold Regex.search_group1.
  destruct (Regex.search_from _ None text) as [[g'|]|] eqn:E; try discriminate.
  intros [= ->]. apply search_from_inv in E. destruct E as (p & s & E & L).
  revert E.
  match goal with
  | |- context [Regex.compile ?pat] =>
      let r := eval vm_compute in (Regex.compile pat) in
      change (Regex.compile pat) with r
  end.
  unfold Regex.match_here.
  match goal with
  | |- Regex.run (Regex.Cat Regex.WordB (Regex.Cat (Regex.Group ?D) ?REST)) _ _ _ _ = _ -> _ =>
      set (rest := REST)
  end.
  cbn [Regex.run].
  destruct (Regex.boundary p s); [|discriminate].
  destruct s as [|a s]; [discriminate|].
  destruct (Regex.cset_mem [Regex.IDigit] a) eqn:Ma; [|discriminate].
  intros H. apply many0_inv in H. destruct H as (d & s' & p' & -> & Hd & H).
  apply run_group_free in H; [|reflexivity].
  destruct H as (p'' & s'' & [= <-]).
  change (String a (d ++ s')) with (String a d ++ s') in *.
  rewrite consumed_app.
  split; [discriminate|]. split.
  - cbn [all_chars].
    assert (Hc : forall c, Regex.cset_mem [Regex.IDigit] c = PyStr.is_digit c)
      by (intros c; cbn; apply orb_false_r).
    rewrite <- Hc, Ma. cbn [andb].
    clear -Hd Hc. induction d as [|c d IH]; [reflexivity|].
    cbn [all_chars] in *. apply andb_prop in Hd. destruct Hd as [H1 H2].
    now rewrite <- Hc, H1, IH.
  - rewrite length_append in L. lia.
Qed.

Lemma digits_value_total (s : string) : forall acc,
  0 <= acc -> all_chars PyStr.is_digit s = true ->
  exists n, ContextAgent.digits_value acc s = Some n /\ 0 <= n.
Proof.
  induction s as [|c s IH]; intros acc Ha H; cbn [ContextAgent.digits_value].
  - eauto.
  - cbn [all_chars] in H. apply andb_prop in H. destruct H as [Hc Hs].
    rewrite Hc. apply IH; [|exact Hs].
    unfold PyStr.is_digit, PyStr.between in Hc. apply andb_prop in Hc.
    destruct Hc as [H1 _]. apply Nat.leb_le in H1. lia.
Qed.

Lemma limit_int (text g : string) :
  Regex.search_group1 ContextAgent.LIMIT_PATTERN text = Some g ->
  if ContextAgent.INT_MAX_STR_DIGITS <? Z.of_nat (String.length g)
  then ContextAgent.int_of_digits g = None
  else exists n, ContextAgent.int_of_digits g = Some n /\ 0 <= n.
Proof.
  intros H. apply limit_group_digits in H. destruct H as (Hne & Hd & _).
  unfold ContextAgent.int_of_digits. destruct g as [|c g]; [congruence|].
  destruct (ContextAgent.INT_MAX_STR_DIGITS <? _); [reflexivity|].
  apply digits_value_total; [lia | exact Hd].
Qed.

Lemma lower_length (s : string) : String.length (PyStr.lower s) = String.length s.
Proof.
  unfold PyStr.lower. induction s as [|c s IH]; [reflexivity|].
  cbn [PyStr.map_chars String.length]. now rewrite IH.
Qed.

Lemma short_text_no_long_limit (msg : Message) :
  Z.of_nat (String.length (ContextAgent._get_message_text msg))
  <= ContextAgent.INT_MAX_STR_DIGITS ->
  long_limit msg = false.
Proof.
  intros L. unfold long_limit.
  destruct (Regex.search_group1 _ _) as [g|] eqn:E; [|apply andb_false_r].
  apply limit_group_digits in E. destruct E as (_ & _ & Lg).
  rewrite lower_length in Lg.
  replace (_ <? _) with false; [apply andb_false_r|].
  symmetry. apply Z.ltb_ge. lia.
Qed.

(** ** Inferred preferences *)

Lemma preferences_step_spec (p : ContextAgent.Preferences) (msg : Message) :
  0 <= ContextAgent.preferred_limit p <= 100 ->
  if long_limit msg then ContextAgent.preferences_step p msg = None
  else
    exists p',
      ContextAgent.preferences_step p msg = Some p' /\
      0 <= ContextAgent.preferred_limit p' <= 100 /\
      (is_user msg = false -> p' = p) /\
      ContextAgent.prefers_details p'
      = ContextAgent.prefers_details p || says_any ContextAgent.DETAIL_WORDS msg /\
      ContextAgent.prefers_summary p'
      = ContextAgent.prefers_summary p || says_any ContextAgent.SUMMARY_WORDS msg.
Proof.
  intros Hp. unfold long_limit, ContextAgent.preferences_step, says_any, is_user.
  destruct (String.eqb (role msg) "user"); cbn [negb andb].
  2:{ exists p. rewrite !orb_false_r. auto. }
  set (text := PyStr.lower (ContextAgent._get_message_text msg)).
  assert (Hflag : forall b c : bool, (if c then true else b) = b || c)
    by (intros [] []; reflexivity).
  destruct (Regex.search_group1 ContextAgent.LIMIT_PATTERN text) as [g|] eqn:E.
  - pose proof (limit_int text g E) as H.
    destruct (ContextAgent.INT_MAX_STR_DIGITS <? _).
    + now rewrite H.
    + destruct H as (n & -> & Hn).
      eexists. split; [reflexivity|]. cbn.
      rewrite !Hflag. split; [lia|]. split; [discriminate | auto].
  - eexists. split; [reflexivity|]. cbn.
    rewrite !Hflag. split; [lia|]. split; [discriminate | auto].
Qed.

Lemma preferences_loop_spec (history : list Message) :
  forall p, 0 <= ContextAgent.preferred_limit p <= 100 ->
  ContextAgent.preferences_loop p (List.filter is_user history)
  = ContextAgent.preferences_loop p history /\
  if existsb long_limit history
  then ContextAgent.preferences_loop p history = None
  else
    exists p',
      ContextAgent.preferences_loop p history = Some p' /\
      0 <= ContextAgent.preferred_limit p' <= 100 /\
      ContextAgent.prefers_details p'
      = ContextAgent.prefers_details p
        || existsb (says_any ContextAgent.DETAIL_WORDS) history /\
      ContextAgent.prefers_summary p'
      = ContextAgent.prefers_summary p
        || existsb (says_any ContextAgent.SUMMARY_WORDS) history.
Proof.
  induction history as [|msg history IH]; intros p Hp.
  - split; [reflexivity|]. exists p. cbn. rewrite !orb_false_r. auto.
  - pose proof (preferences_step_spec p msg Hp) as S.
    cbn [ContextAgent.preferences_loop List.filter existsb].
    destruct (long_limit msg) eqn:LL.
    + assert (U : is_user msg = true)
        by (unfold long_limit in LL; now apply andb_prop in LL).
      rewrite U. cbn [ContextAgent.preferences_loop orb]. now rewrite S.
    + destruct S as (p1 & E1 & H1 & Hu & Hd & Hs).
      destruct (IH p1 H1) as (F' & H'). cbn [orb]. split.
      * destruct (is_user msg) eqn:U.
        -- cbn [ContextAgent.preferences_loop]. rewrite E1. exact F'.
        -- rewrite E1, <- (Hu eq_refl). rewrite (Hu eq_refl) at 1.
           destruct (IH p Hp) as (F0 & _). rewrite <- (Hu eq_refl) in *.
           exact F0.
      * rewrite E1. destruct (existsb long_limit history); [exact H'|].
        destruct H' as (p' & E' & R' & Hd' & Hs').
        exists p'. split; [exact E'|]. split; [exact R'|].
        rewrite Hd', Hs', Hd, Hs, !orb_assoc. auto.
Qed.

(** X27: [_infer_preferences] raises exactly when some user message
    writes its limit with more than 4300 digits, the longest run [int]
    converts; every other text the limit pattern captures is a number
    [int] accepts.  So it does not raise when no user message is longer
    than 4300 characters, and it does on 4301 nines followed by
    " results".  Messages that are not the user's have no influence on
    the outcome.  When it returns, the preferred limit lies between 0
    and 100 and each of the two flags is set exactly when some user
    message holds one of its words. *)
Theorem infer_preferences_raises_iff (history : list Message) :
  (ContextAgent._infer_preferences history = None
   <-> existsb long_limit history = true) /\
  ContextAgent._infer_preferences (List.filter is_user history)
  = ContextAgent._infer_preferences history /\
  (forall p, ContextAgent._infer_preferences history = Some p ->
     0 <= ContextAgent.preferred_limit p <= 100 /\
     ContextAgent.prefers_details p
     = existsb (says_any ContextAgent.DETAIL_WORDS) history /\
     ContextAgent.prefers_summary p
     = existsb (says_any ContextAgent.SUMMARY_WORDS) history) /\
  (Forall (fun msg =>
       is_user msg = true ->
       Z.of_nat (String.length (ContextAgent._get_message_text msg))
       <= ContextAgent.INT_MAX_STR_DIGITS) history ->
   exists p, ContextAgent._infer_preferences history = Some p) /\
  ContextAgent._infer_preferences
    [user_says (PyStr.repeat_char "9" 4301 ++ " results")] = None /\
  ContextAgent._infer_preferences
    [user_says (PyStr.repeat_char "9" 4300 ++ " results")]
  = Some (ContextAgent.mkPreferences 100 false false).
Proof.
  unfold ContextAgent._infer_preferences.
  destruct (preferences_loop_spec history (ContextAgent.mkPreferences 10 false false))
    as (F & H); [cbn; lia|].
  split; [|split; [exact F|split; [|split; [|split; vm_compute; reflexivity]]]].
  - destruct (existsb long_limit history).
    + now rewrite H.
    + destruct H as (p & -> & _). split; discriminate.
  - intros p E. destruct (existsb long_limit history); [congruence|].
    destruct H as (p' & E' & R & Hd & Hs). rewrite E in E'.
    injection E' as <-. auto.
  - intros Hs.
    assert (N : existsb long_limit history = false).
    { clear -Hs. induction Hs as [|msg l Hm _ IH]; [reflexivity|].
      cbn [existsb]. rewrite IH, orb_false_r.
      destruct (is_user msg) eqn:U.
      - apply short_text_no_long_limit. auto.
      - unfold long_limit. now rewrite U. }
    rewrite N in H. destruct H as (p & E & _). eauto.
Qed.

(** ** The prototype's cache and search *)

(** X28: after [process_query] answered a query with a successful fresh
    answer, a later request whose normalised text has the same key, made
    before the entry expires and without bypassing the cache, is served
    from the cache with the same response text and leaves the cache as it
    is, whatever the model would answer then. *)
Theorem process_query_cached_again (sha256_hex : string -> string)
    (bedrock_query bedrock_query' : string -> Main.BedrockResult)
    (t_get t_set t_get' t_set' : float) (query query' : string)
    (bypass_cache : bool) (cache : Main.Cache.t)
    (response : string) (tool_used : option string) :
  let q := PyStr.strip query in
  let first := Main.process_query sha256_hex bedrock_query t_get t_set
                 query bypass_cache cache in
  let second := Main.process_query sha256_hex bedrock_query' t_get' t_set'
                  query' false (snd first) in
  Guardrails.check q = None ->
  bedrock_query q = Main.BedrockOk response tool_used ->
  (bypass_cache = true \/ fst (Main.Cache.get t_get (Main.Cache.make_key sha256_hex q) cache) = None) ->
  Guardrails.check (PyStr.strip query') = None ->
  Main.Cache.make_key sha256_hex (PyStr.strip query')
  = Main.Cache.make_key sha256_hex q ->
  (t_get' <? t_set + PyFloat.of_Z (Main.Cache.ttl cache))%float = true ->
  fst first
  = Main.Answered true q
      (if PyStr.truthy response then Some response else None) tool_used /\
  second = (Main.Cached (PyStr.strip query') response, snd first).
Proof.
  cbv zeta. intros Hg Hb Hmiss Hg' Hk Ht.
  set (q := PyStr.strip query) in *. set (key := Main.Cache.make_key sha256_hex q) in *.
  assert (H1 : exists cache0,
            Main.Cache.ttl cache0 = Main.Cache.ttl cache /\
            Main.process_query sha256_hex bedrock_query t_get t_set query
              bypass_cache cache
            = (Main.Answered true q
                 (if PyStr.truthy response then Some response else None) tool_used,
               Main.Cache.set t_set key (Main.JsonResponse response) cache0)).
  { unfold Main.process_query. fold q. rewrite Hg. fold key. rewrite Hb.
    destruct bypass_cache; [exists cache; auto|].
    destruct Hmiss as [Hmiss|Hmiss]; [discriminate|].
    destruct (Main.Cache.get t_get key cache) as [[doc|] cache0] eqn:G;
      [discriminate|].
    exists cache0. split; [|reflexivity].
    unfold Main.Cache.get in G.
    destruct (Main.Cache._data cache !! key) as [[v e]|];
      [destruct (t_get <? e)%float|]; try discriminate;
      injection G as <-; reflexivity. }
  destruct H1 as (cache0 & Httl & ->). cbn [fst snd]. split; [reflexivity|].
  unfold Main.process_query. rewrite Hg', Hk. fold key.
  unfold Main.Cache.get, Main.Cache.set at 1. cbn [Main.Cache._data Main.Cache.ttl].
  rewrite lookup_insert_eq, Httl, Ht. reflexivity.
Qed.

Lemma process_query_cached_again_witness :
  let sha := fun s : string => s ++ "0123456789abcdef" in
  let bedrock := fun _ : string => Main.BedrockOk "Two customers." (Some "get_stats") in
  let first := Main.process_query sha bedrock 1000 1001 "How many customers?"
                 false (Main.Cache.init 300) in
  let second := Main.process_query sha bedrock 1100 1101 " how many CUSTOMERS? "
                  false (snd first) in
  fst first
  = Main.Answered true "How many customers?" (Some "Two customers.")
      (Some "get_stats") /\
  second = (Main.Cached "how many CUSTOMERS?" "Two customers.", snd first).
Proof.
  apply (process_query_cached_again (fun s : string => s ++ "0123456789abcdef")
           (fun _ => Main.BedrockOk "Two customers." (Some "get_stats"))
           (fun _ => Main.BedrockOk "Two customers." (Some "get_stats"))
           1000 1001 1100 1101 "How many customers?" " how many CUSTOMERS? "
           false (Main.Cache.init 300) "Two customers." (Some "get_stats")).
  - vm_compute. reflexivity.
  - reflexivity.
  - right. vm_compute. reflexivity.
  - vm_compute. reflexivity.
  - vm_compute. reflexivity.
  - vm_compute. reflexivity.
Defined.

Lemma build_state_index_spec (customers : list Customer.t) :
  forall index built,
    Main.CustomerData.build_state_index customers index = DataSource.Got built ->
    forall k, default [] (built !! k)
              = (default [] (index !! k) ++ List.filter (raw_state_is k) customers)%list.
Proof.
  induction customers as [|c customers IH]; intros index built;
    cbn [Main.CustomerData.build_state_index List.filter].
  - intros [= <-] k. now rewrite app_nil_r.
  - destruct (Customer.state c) as [s|] eqn:Sc; [|discriminate].
    intros H k. rewrite (IH _ _ H k).
    assert (R : raw_state_is k c = String.eqb s k)
      by (unfold raw_state_is; now rewrite Sc).
    rewrite R.
    destruct (String.eqb s k) eqn:E.
    + apply String.eqb_eq in E. subst k. rewrite lookup_insert_eq.
      cbn [default from_option id]. now rewrite <- app_assoc.
    + apply String.eqb_neq in E. rewrite lookup_insert_ne by exact E. reflexivity.
Qed.

Lemma init_spec (customers : list Customer.t) (cd : Main.CustomerData.t) :
  Main.CustomerData.init customers = DataSource.Got cd ->
  Main.CustomerData.customers cd = customers /\
  forall k, default [] (Main.CustomerData.state_index cd !! k)
            = List.filter (raw_state_is k) customers.
Proof.
  unfold Main.CustomerData.init.
  destruct (Main.CustomerData.build_crid_index customers ∅); [|discriminate].
  destruct (Main.CustomerData.build_state_index customers ∅) as [si|] eqn:S;
    [|discriminate].
  intros [= <-]. split; [reflexivity|]. intros k.
  cbn [Main.CustomerData.state_index].
  rewrite (build_state_index_spec customers ∅ si S k), lookup_empty. reflexivity.
Qed.

Lemma keep_if_spec (test : Customer.t -> DataSource.Subscript bool)
    (keep : Customer.t -> bool) (results : list Customer.t) :
  (forall c b, test c = DataSource.Got b -> b = keep c) ->
  match Main.CustomerData.keep_if test results with
  | DataSource.Got kept => kept = List.filter keep results
  | DataSource.KeyError key =>
      exists c, In c results /\ test c = DataSource.KeyError key
  end.
Proof.
  intros Hk. induction results as [|c results IH];
    cbn [Main.CustomerData.keep_if List.filter]; [reflexivity|].
  destruct (test c) as [b|key] eqn:T.
  - destruct (Main.CustomerData.keep_if test results) as [kept|key].
    + rewrite <- (Hk c b T), IH. reflexivity.
    + destruct IH as (c' & Hc' & Ht). exists c'. split; [now right | exact Ht].
  - exists c. split; [now left | exact T].
Qed.

Lemma slice_to_length {A} (n : Z) (l : list A) :
  0 <= n -> Z.of_nat (List.length (slice_to n l)) <= n.
Proof.
  intros Hn. unfold slice_to.
  replace (n <? 0) with false by (symmetry; apply Z.ltb_ge; lia).
  rewrite length_firstn. lia.
Qed.

(** X29: the prototype's [CustomerData.search] counts every match in
    total_matches and returns the matches up to [min(limit, 100)], so at
    most 100 records for a limit that is not negative.  A state filter
    compares the uppercased argument with the state as stored, and a
    state with no record gives an empty success, not an error.  The call
    raises KeyError only for a scanned record without move_count or
    city. *)
Theorem customer_data_search (customers : list Customer.t)
    (cd : Main.CustomerData.t) (state city : option string)
    (min_moves : option Z) (limit : Z) :
  Main.CustomerData.init customers = DataSource.Got cd ->
  let base :=
    if DataSource.truthy_str state
    then List.filter (raw_state_is (PyStr.upper (default EmptyString state)))
           customers
    else customers in
  let found := List.filter (fun c => moves_ok min_moves c && city_ok city c) base in
  match Main.CustomerData.search cd state city min_moves limit with
  | DataSource.Got out =>
      Main.CustomerData.total_matches out = Z.of_nat (List.length found) /\
      Main.CustomerData.data out = slice_to (Z.min limit 100) found /\
      (0 <= limit ->
       Z.of_nat (List.length (Main.CustomerData.data out)) <= Z.min limit 100)
  | DataSource.KeyError key =>
      exists c, In c base /\
        ((key = "move_count" /\ DataSource.truthy_int min_moves = true /\
          Customer.move_count c = None) \/
         (key = "city" /\ DataSource.truthy_str city = true /\
          moves_ok min_moves c = true /\ Customer.city c = None))
  end.
Proof.
  intros Hinit. destruct (init_spec customers cd Hinit) as [Hc Hs].
  cbv zeta. unfold Main.CustomerData.search. rewrite Hs, Hc.
  set (base := if DataSource.truthy_str state
               then List.filter (raw_state_is (PyStr.upper (default EmptyString state)))
                      customers
               else customers).
  assert (Hm : match (if DataSource.truthy_int min_moves
                      then Main.CustomerData.keep_if
                             (Main.CustomerData.moves_test (default 0 min_moves)) base
                      else DataSource.Got base) with
               | DataSource.Got kept => kept = List.filter (moves_ok min_moves) base
               | DataSource.KeyError key =>
                   key = "move_count" /\ DataSource.truthy_int min_moves = true /\
                   exists c, In c base /\ Customer.move_count c = None
               end).
  { unfold moves_ok. destruct (DataSource.truthy_int min_moves) eqn:T.
    - pose proof (keep_if_spec (Main.CustomerData.moves_test (default 0 min_moves))
                    (fun c => default 0 min_moves <=? default 0 (Customer.move_count c))
                    base) as H.
      destruct (Main.CustomerData.keep_if _ base) as [kept|key].
      + apply H. intros c b. unfold Main.CustomerData.moves_test.
        destruct (Customer.move_count c); [|discriminate]. now intros [= <-].
      + destruct H as (c & Hc1 & Hc2).
        { intros c b. unfold Main.CustomerData.moves_test.
          destruct (Customer.move_count c); [|discriminate]. now intros [= <-]. }
        unfold Main.CustomerData.moves_test in Hc2.
        destruct (Customer.move_count c) eqn:M; [discriminate|].
        injection Hc2 as <-. eauto.
    - symmetry. apply filter_true. }
  destruct (if DataSource.truthy_int min_moves then _ else _) as [kept|key].
  2:{ destruct Hm as (-> & T & c & Hc1 & Hc2). exists c. auto. }
  subst kept.
  assert (Hcity : match (if DataSource.truthy_str city
                      then Main.CustomerData.keep_if
                             (Main.CustomerData.city_test (default EmptyString city))
                             (List.filter (moves_ok min_moves) base)
                      else DataSource.Got (List.filter (moves_ok min_moves) base)) with
               | DataSource.Got kept =>
                   kept = List.filter (city_ok city) (List.filter (moves_ok min_moves) base)
               | DataSource.KeyError key =>
                   key = "city" /\ DataSource.truthy_str city = true /\
                   exists c, In c (List.filter (moves_ok min_moves) base) /\
                             Customer.city c = None
               end).
  { unfold city_ok. destruct (DataSource.truthy_str city) eqn:T.
    - pose proof (keep_if_spec (Main.CustomerData.city_test (default EmptyString city))
                    (fun c => PyStr.contains (PyStr.lower (default EmptyString city))
                                (PyStr.lower (default EmptyString (Customer.city c))))
                    (List.filter (moves_ok min_moves) base)) as H.
      destruct (Main.CustomerData.keep_if _ _) as [kept|key].
      + apply H. intros c b. unfold Main.CustomerData.city_test.
        destruct (Customer.city c); [|discriminate]. now intros [= <-].
      + destruct H as (c & Hc1 & Hc2).
        { intros c b. unfold Main.CustomerData.city_test.
          destruct (Customer.city c); [|discriminate]. now intros [= <-]. }
        unfold Main.CustomerData.city_test in Hc2.
        destruct (Customer.city c) eqn:M; [discriminate|].
        injection Hc2 as <-. eauto.
    - symmetry. apply filter_true. }
  destruct (if DataSource.truthy_str city then _ else _) as [kept|key].
  2:{ destruct Hcity as (-> & T & c & Hc1 & Hc2). apply filter_In in Hc1.
      exists c. split; [tauto|]. right. tauto. }
  subst kept.
  assert (E : List.filter (city_ok city) (List.filter (moves_ok min_moves) base)
              = List.filter (fun c => moves_ok min_moves c && city_ok city c) base)
    by (rewrite filter_and; apply filter_ext'; intros c;
        first [reflexivity | apply andb_comm]).
  rewrite E. cbn [Main.CustomerData.total_matches Main.CustomerData.data].
  split; [reflexivity|]. split; [reflexivity|].
  intros Hl. apply slice_to_length. lia.
Qed.

Lemma customer_data_search_witness :
  match Main.CustomerData.search fallback_data (Some "nv") (Some "reno") None 10 with
  | DataSource.Got out =>
      Main.CustomerData.total_matches out
      = Z.of_nat
          (List.length
             (List.filter (fun c => moves_ok None c && city_ok (Some "reno") c)
                (List.filter (raw_state_is (PyStr.upper "nv"))
                   Main.CustomerData.FALLBACK))) /\
      Main.CustomerData.data out
      = slice_to (Z.min 10 100)
          (List.filter (fun c => moves_ok None c && city_ok (Some "reno") c)
             (List.filter (raw_state_is (PyStr.upper "nv"))
                Main.CustomerData.FALLBACK)) /\
      (0 <= 10 ->
       Z.of_nat (List.length (Main.CustomerData.data out)) <= Z.min 10 100)
  | DataSource.KeyError key =>
      exists c,
        In c (List.filter (raw_state_is (PyStr.upper "nv"))
                Main.CustomerData.FALLBACK) /\
        ((key = "move_count" /\ DataSource.truthy_int None = true /\
          Customer.move_count c = None) \/
         (key = "city" /\ DataSource.truthy_str (Some "reno") = true /\
          moves_ok None c = true /\ Customer.city c = None))
  end.
Proof.
  apply (customer_data_search Main.CustomerData.FALLBACK fallback_data
           (Some "nv") (Some "reno") None 10).
  vm_compute. reflexivity.
Defined.

(** ** The client behind [nova.query] *)

Lemma query_simple_state (self : NovaClient.t) execute reply follow str_e :
  let out := NovaClient._query_simple self execute reply follow str_e in
  NovaClient._use_orchestrator (snd out) = NovaClient._use_orchestrator self /\
  NovaClient._orchestrator (snd out) = NovaClient._orchestrator self /\
  (NovaClient.available (snd out) = true -> snd out = self) /\
  (Router.nova_success (fst out) = true ->
   PyStr.truthy (Router.nova_response (fst out)) = true /\
   Router.nova_result_route (fst out) = None /\ snd out = self) /\
  (NovaClient.available self = true -> NovaClient.available (snd out) = false ->
   fst out = NovaClient.failure NovaClient.ACCESS_DENIED).
Proof.
  cbv zeta. unfold NovaClient._query_simple, NovaClient.on_client_error.
  assert (Hfc : forall content,
            Router.nova_success
              match NovaAgent.first_text content with
              | Some out =>
                  if PyStr.truthy out
                  then Router.mkNovaResult true out None None None None
                  else NovaClient.failure "No response"
              | None => NovaClient.failure "No response"
              end = true ->
            PyStr.truthy
              (Router.nova_response
                 match NovaAgent.first_text content with
                 | Some out =>
                     if PyStr.truthy out
                     then Router.mkNovaResult true out None None None None
                     else NovaClient.failure "No response"
                 | None => NovaClient.failure "No response"
                 end) = true /\
            Router.nova_result_route
              match NovaAgent.first_text content with
              | Some out =>
                  if PyStr.truthy out
                  then Router.mkNovaResult true out None None None None
                  else NovaClient.failure "No response"
              | None => NovaClient.failure "No response"
              end = None).
  { intros content. destruct (NovaAgent.first_text content) as [o|];
      [destruct (PyStr.truthy o) eqn:T|]; cbn; intros; try discriminate; auto. }
  destruct self as [a u o].
  destruct reply as [content|msg|].
  - destruct (NovaAgent.tool_uses content) as [|t ts].
    + cbn [fst snd NovaClient._use_orchestrator NovaClient._orchestrator
           NovaClient.available].
      repeat split; auto; try apply Hfc; auto; congruence.
    + destruct (NovaAgent.run_tools execute (t :: ts)) as [[names rs]|].
      * destruct follow as [fc|msg|].
        -- destruct (NovaAgent.first_text fc) as [out|];
             [destruct (PyStr.truthy out) eqn:T|];
             cbn [fst snd NovaClient._use_orchestrator NovaClient._orchestrator
                  NovaClient.available Router.nova_success Router.nova_response
                  Router.nova_result_route];
             repeat split; auto; try apply Hfc; auto; congruence.
        -- destruct (NovaAgent.is_access_error msg); cbn;
             repeat split; auto; try discriminate; congruence.
        -- cbn. repeat split; auto; try discriminate; congruence.
      * cbn. repeat split; auto; try discriminate; congruence.
  - destruct (NovaAgent.is_access_error msg); cbn;
      repeat split; auto; try discriminate; congruence.
  - cbn. repeat split; auto; try discriminate; congruence.
Qed.

Lemma query_unavailable (self : NovaClient.t) (c : NovaClient.Call) :
  NovaClient.available self = false ->
  NovaClient.query self c = (NovaClient.failure NovaClient.LITE_MODE, self).
Proof. unfold NovaClient.query. now intros ->. Qed.

Lemma query_all_lite (calls : list NovaClient.Call) : forall self,
  NovaClient.available self = false ->
  NovaClient.query_all self calls
  = (List.map (fun _ => NovaClient.failure NovaClient.LITE_MODE) calls, self).
Proof.
  induction calls as [|c calls IH]; intros self H; [reflexivity|].
  cbn [NovaClient.query_all List.map]. rewrite (query_unavailable self c H).
  now rewrite (IH self H).
Qed.

Lemma query_state (self : NovaClient.t) (c : NovaClient.Call) :
  let out := NovaClient.query self c in
  NovaClient._use_orchestrator (snd out) = NovaClient._use_orchestrator self /\
  NovaClient._orchestrator (snd out) = NovaClient._orchestrator self /\
  (NovaClient.available (snd out) = true -> snd out = self).
Proof.
  cbv zeta. unfold NovaClient.query.
  pose proof (query_simple_state self (NovaClient.call_execute c)
                (NovaClient.call_reply c) (NovaClient.call_follow_reply c)
                (NovaClient.call_str_e c)) as H. cbv zeta in H.
  destruct H as (H1 & H2 & H3 & _).
  destruct (NovaClient.available self); cbn [negb fst snd]; [|auto].
  destruct (_ && NovaClient._orchestrator self); [|auto].
  destruct (NovaClient.call_processed c); cbn [fst snd]; auto.
Qed.

Lemma simple_client_error (self : NovaClient.t) (c : NovaClient.Call)
    (error_msg : string) :
  raises_client_error c error_msg ->
  NovaClient._query_simple self (NovaClient.call_execute c)
    (NovaClient.call_reply c) (NovaClient.call_follow_reply c)
    (NovaClient.call_str_e c)
  = NovaClient.on_client_error self error_msg.
Proof.
  unfold NovaClient._query_simple.
  intros [H|(content & Hr & Ht & Hrun & Hf)]; [now rewrite H|].
  rewrite Hr. destruct (NovaAgent.tool_uses content) as [|t ts]; [congruence|].
  destruct (NovaAgent.run_tools _ _) as [[names rs]|]; [|congruence].
  now rewrite Hf.
Qed.

Lemma simple_loses_access (self : NovaClient.t) (c : NovaClient.Call) :
  NovaClient.available self = true ->
  NovaClient.available
    (snd (NovaClient._query_simple self (NovaClient.call_execute c)
            (NovaClient.call_reply c) (NovaClient.call_follow_reply c)
            (NovaClient.call_str_e c))) = false ->
  exists error_msg,
    raises_client_error c error_msg /\
    NovaAgent.is_access_error error_msg = true.
Proof.
  intros Ha. unfold NovaClient._query_simple, NovaClient.on_client_error,
    raises_client_error.
  destruct (NovaClient.call_reply c) as [content|msg|] eqn:R.
  - destruct (NovaAgent.tool_uses content) as [|t ts] eqn:U;
      [cbn [snd]; congruence|].
    destruct (NovaAgent.run_tools _ _) as [[names rs]|] eqn:T;
      [|cbn [snd]; congruence].
    destruct (NovaClient.call_follow_reply c) as [fc|msg|] eqn:F.
    + destruct (NovaAgent.first_text fc) as [out|];
        [destruct (PyStr.truthy out)|]; cbn [snd]; congruence.
    + destruct (NovaAgent.is_access_error msg) eqn:A; cbn [snd]; [|congruence].
      intros _. exists msg. split; [|exact A]. right. exists content.
      rewrite U, T. repeat split; congruence.
    + cbn [snd]. congruence.
  - destruct (NovaAgent.is_access_error msg) eqn:A; cbn [snd]; [|congruence].
    intros _. exists msg. auto.
  - cbn [snd]. congruence.
Qed.

Lemma query_simple_mode (self : NovaClient.t) (c : NovaClient.Call) :
  NovaClient.available self = true -> simple_mode self c ->
  NovaClient.query self c
  = NovaClient._query_simple self (NovaClient.call_execute c)
      (NovaClient.call_reply c) (NovaClient.call_follow_reply c)
      (NovaClient.call_str_e c).
Proof.
  intros Ha Hs. unfold NovaClient.query. rewrite Ha. cbn [negb].
  destruct Hs as [Hs|Hs]; [now rewrite Hs|].
  rewrite Hs. now destruct (_ && _).
Qed.

Lemma query_all_access_error (self : NovaClient.t) (c : NovaClient.Call)
    (later : list NovaClient.Call) (error_msg : string) :
  NovaClient.available self = true -> simple_mode self c ->
  raises_client_error c error_msg ->
  NovaAgent.is_access_error error_msg = true ->
  fst (NovaClient.query_all self (c :: later))
  = NovaClient.failure NovaClient.ACCESS_DENIED
    :: List.map (fun _ => NovaClient.failure NovaClient.LITE_MODE) later /\
  NovaClient.available (snd (NovaClient.query_all self (c :: later))) = false.
Proof.
  intros Ha Hs Hr Hm. cbn [NovaClient.query_all].
  rewrite (query_simple_mode self c Ha Hs), (simple_client_error self c error_msg Hr).
  unfold NovaClient.on_client_error. rewrite Hm.
  rewrite query_all_lite by reflexivity. cbn [fst snd].
  split; reflexivity.
Qed.

(** X30: over any sequence of calls of [NovaClient.query] the two
    orchestrator settings never change and an unavailable client never
    becomes available; an unavailable client answers every call with the
    LITE MODE error.  An access-class ClientError in the simple mode,
    raised by the first request or by the follow-up request that carries
    the tool results, gives the access-denied error and makes every
    later call a LITE MODE error, and a call makes an available client
    unavailable in no other way; any other ClientError there gives the
    error "Nova: " followed by its message and leaves the client as it
    was.  A successful answer of the simple mode has a non-empty
    response. *)
Theorem nova_client_lite_mode (self : NovaClient.t)
    (calls : list NovaClient.Call) :
  let out := NovaClient.query_all self calls in
  NovaClient._use_orchestrator (snd out) = NovaClient._use_orchestrator self /\
  NovaClient._orchestrator (snd out) = NovaClient._orchestrator self /\
  (NovaClient.available (snd out) = true -> snd out = self) /\
  (NovaClient.available self = false ->
   out = (List.map (fun _ => NovaClient.failure NovaClient.LITE_MODE) calls, self)) /\
  (forall c later error_msg,
     calls = c :: later ->
     NovaClient.available self = true -> simple_mode self c ->
     NovaClient.call_reply c = NovaAgent.ClientError error_msg ->
     NovaAgent.is_access_error error_msg = true ->
     fst out
     = NovaClient.failure NovaClient.ACCESS_DENIED
       :: List.map (fun _ => NovaClient.failure NovaClient.LITE_MODE) later /\
     NovaClient.available (snd out) = false) /\
  (forall c,
     let r := fst (NovaClient.query self c) in
     Router.nova_success r = true ->
     NovaClient.available self = true /\
     (Router.nova_result_route r = None ->
      PyStr.truthy (Router.nova_response r) = true)) /\
  (forall c later error_msg,
     calls = c :: later ->
     NovaClient.available self = true -> simple_mode self c ->
     raises_client_error c error_msg ->
     NovaAgent.is_access_error error_msg = true ->
     fst out
     = NovaClient.failure NovaClient.ACCESS_DENIED
       :: List.map (fun _ => NovaClient.failure NovaClient.LITE_MODE) later /\
     NovaClient.available (snd out) = false) /\
  (forall c error_msg,
     NovaClient.available self = true -> simple_mode self c ->
     raises_client_error c error_msg ->
     NovaAgent.is_access_error error_msg = false ->
     NovaClient.query self c
     = (NovaClient.failure ("Nova: " ++ error_msg), self)) /\
  (forall c,
     NovaClient.available self = true ->
     NovaClient.available (snd (NovaClient.query self c)) = false ->
     simple_mode self c /\
     exists error_msg,
       raises_client_error c error_msg /\
       NovaAgent.is_access_error error_msg = true).
Proof.
  cbv zeta.
  split; [|split; [|split; [|split; [|split; [|split; [|split; [|split]]]]]]].
  - revert self. induction calls as [|c calls IH]; intros self; [reflexivity|].
    cbn [NovaClient.query_all].
    destruct (query_state self c) as (H1 & _).
    destruct (NovaClient.query self c) as [r s1]. cbn [snd] in H1.
    specialize (IH s1). destruct (NovaClient.query_all s1 calls) as [rs s2].
    cbn [snd] in *. congruence.
  - revert self. induction calls as [|c calls IH]; intros self; [reflexivity|].
    cbn [NovaClient.query_all].
    destruct (query_state self c) as (_ & H1 & _).
    destruct (NovaClient.query self c) as [r s1]. cbn [snd] in H1.
    specialize (IH s1). destruct (NovaClient.query_all s1 calls) as [rs s2].
    cbn [snd] in *. congruence.
  - revert self. induction calls as [|c calls IH]; intros self; [reflexivity|].
    cbn [NovaClient.query_all].
    destruct (query_state self c) as (_ & _ & H1).
    destruct (NovaClient.query self c) as [r s1] eqn:Q. cbn [snd] in H1.
    specialize (IH s1). destruct (NovaClient.query_all s1 calls) as [rs s2] eqn:QA.
    cbn [snd] in *. intros H.
    specialize (IH H). subst s2.
    apply H1. exact H.
  - apply query_all_lite.
  - intros c later msg -> Ha Hs Hr Hm.
    apply (query_all_access_error self c later msg Ha Hs); [left; exact Hr | exact Hm].
  - intros c Hs. unfold NovaClient.query in *.
    destruct (NovaClient.available self); cbn [negb fst] in *; [|discriminate].
    split; [reflexivity|].
    pose proof (query_simple_state self (NovaClient.call_execute c)
                  (NovaClient.call_reply c) (NovaClient.call_follow_reply c)
                  (NovaClient.call_str_e c)) as H. cbv zeta in H.
    destruct H as (_ & _ & _ & H & _).
    destruct (_ && NovaClient._orchestrator self).
    + destruct (NovaClient.call_processed c); cbn [fst] in *.
      * cbn. discriminate.
      * intros _. now apply H.
    + intros _. now apply H.
  - intros c later msg -> Ha Hs Hr Hm.
    apply (query_all_access_error self c later msg Ha Hs Hr Hm).
  - intros c msg Ha Hs Hr Hm.
    rewrite (query_simple_mode self c Ha Hs), (simple_client_error self c msg Hr).
    unfold NovaClient.on_client_error. now rewrite Hm.
  - intros c Ha. unfold NovaClient.query. rewrite Ha. cbn [negb].
    destruct (_ && NovaClient._orchestrator self) eqn:O.
    + destruct (NovaClient.call_processed c) eqn:P.
      * cbn [snd]. congruence.
      * intros H. split; [right; exact P|].
        apply (simple_loses_access self c Ha H).
    + intros H. split; [left; exact O|].
      apply (simple_loses_access self c Ha H).
Qed.

(** ** Further checks of the embedding *)

Example nova_client_follow_up_denied :
  let self := NovaClient.init true true false false in
  let c :=
    NovaClient.mkCall None NovaClient.ProcessRaised (fun _ _ => Some "2")
      (NovaAgent.Replied [NovaAgent.AToolUse "get_stats" "{}" "t1"])
      (NovaAgent.ClientError "Access denied") "" in
  NovaClient.query_all self [c; c]
  = ([ NovaClient.failure NovaClient.ACCESS_DENIED;
       NovaClient.failure NovaClient.LITE_MODE ],
     NovaClient.mk false false false).
Proof. vm_compute. reflexivity. Qed.

Example converse_empty_follow_up :
  NovaAgent._converse (fun _ _ => Some "2")
    (NovaAgent.Replied
       [NovaAgent.AText "Let me look."; NovaAgent.AToolUse "get_stats" "{}" "t1"])
    (NovaAgent.Replied [NovaAgent.AText ""; NovaAgent.AText "Two customers."])
  = NovaAgent.Returned "Let me look." ["get_stats"] ["2"].
Proof. reflexivity. Qed.

Example build_context_example :
  NovaAgent._build_context
    (SearchResult.mk [Demo.customer "CRID-000042" "NV" "Reno" 3] 7)
    (KnowledgeContext.mk [("Moves are counted per record", "faq.md")])
  = PyStr.join (String "010" "")
      [ "CUSTOMER DATA:";
        "  1. CRID-000042: Pat Doe - Reno, NV (3 moves)";
        "  ... and 2 more";
        String "010" "RELEVANT DOCUMENTATION:";
        "  - Moves are counted per record... (from faq.md)" ].
Proof. vm_compute. reflexivity. Qed.

Lemma build_context_empty (search_result : SearchResult.t)
    (knowledge : KnowledgeContext.t) :
  NovaAgent._build_context search_result knowledge = ""
  <-> SearchResult.results search_result = [] /\
      KnowledgeContext.relevant_chunks knowledge = [].
Proof.
  unfold NovaAgent._build_context. cbv zeta.
  destruct (SearchResult.results search_result) as [|c cs].
  - destruct (KnowledgeContext.relevant_chunks knowledge) as [|k ks].
    + cbn. tauto.
    + cbn [app]. split; [|intros [_ H]; discriminate].
      intros H. exfalso.
      assert (T : PyStr.truthy
                    (PyStr.join (String "010" "")
                       (String "010" "RELEVANT DOCUMENTATION:"
                        :: List.map NovaAgent.chunk_line (firstn 3 (k :: ks)))) = true)
        by (destruct (List.map _ _); reflexivity).
      rewrite H in T. discriminate.
  - split; [|intros [H _]; discriminate].
    intros H. exfalso. cbn [app] in H.
    match type of H with
    | PyStr.join ?sep (?h :: ?rest) = _ =>
        assert (T : PyStr.truthy (PyStr.join sep (h :: rest)) = true)
          by (destruct rest; reflexivity)
    end.
    rewrite H in T. discriminate.
Qed.

Lemma nova_client_init (has_credentials client_created use_orchestrator
    orchestrator_created : bool) :
  let self := NovaClient.init has_credentials client_created use_orchestrator
                orchestrator_created in
  (NovaClient._orchestrator self = true -> NovaClient.available self = true) /\
  (has_credentials = false -> NovaClient.available self = false).
Proof.
  destruct has_credentials, client_created, use_orchestrator, orchestrator_created;
    cbn; split; intros; congruence.
Qed.

Lemma cache_clear_misses (now : float) (key : string) (self : Main.Cache.t) :
  Main.Cache.get now key (Main.Cache.clear self) = (None, Main.Cache.clear self).
Proof.
  unfold Main.Cache.get, Main.Cache.clear. cbn [Main.Cache._data].
  now rewrite lookup_empty.
Qed.
